(** * colonel: the CoNLL-U lexer ([colonel/conllu/lexer.py])

    A shallow embedding of [ConlluLexerBuilder] together with the parts of
    Python ([str], [int], the backtracking [re] engine) and of PLY's
    [Lexer.token] loop that the lexer rules rely on.

    Text is a [string] whose characters are the code points below 256.
    Counters that the code only ever increments ([lexpos], [lineno],
    [_tab_count]) are [nat]; decoded integers and the column arithmetic of
    [find_column] (which goes through [rfind]'s -1) are [Z]. *)

From Stdlib Require Import String Ascii List ZArith Lia Bool Arith.
Import ListNotations.
Local Open Scope string_scope.
Local Open Scope nat_scope.

(* ================================================================== *)
(** ** Characters and Python's text primitives *)

Module Py.

Definition tab : ascii := "009"%char.
Definition nl : ascii := "010"%char.
Definition sp : ascii := " "%char.

Definition code (c : ascii) : N := N_of_ascii c.

(** [lo <= c <= hi] on code points, the meaning of [lo-hi] in a class. *)
Definition in_range (lo hi c : ascii) : bool :=
  (code lo <=? code c)%N && (code c <=? code hi)%N.

Definition is_digit (c : ascii) : bool := in_range "0" "9" c.

(** [len(s)] is [String.length]; [s[:n]] and [s[n:]]. *)
Fixpoint take (n : nat) (s : string) : string :=
  match n, s with
  | S n', String c s' => String c (take n' s')
  | _, _ => ""
  end.

Fixpoint drop (n : nat) (s : string) : string :=
  match n, s with
  | S n', String _ s' => drop n' s'
  | _, _ => s
  end.

(** [c in s]. *)
Fixpoint mem (c : ascii) (s : string) : bool :=
  match s with
  | "" => false
  | String d s' => Ascii.eqb d c || mem c s'
  end.

Fixpoint all_chars (p : ascii -> bool) (s : string) : bool :=
  match s with
  | "" => true
  | String c s' => p c && all_chars p s'
  end.

(** [s.index(c)]: the offset of the first [c]; [None] stands for the
    [ValueError] that Python raises when there is none. *)
Fixpoint index (c : ascii) (s : string) : option nat :=
  match s with
  | "" => None
  | String d s' =>
      if Ascii.eqb d c then Some 0
      else match index c s' with
           | Some i => Some (S i)
           | None => None
           end
  end.

(** [s.split(c)] for a one-character separator: never empty, [""] splits
    to [[""]]. *)
Fixpoint split (c : ascii) (s : string) : list string :=
  match s with
  | "" => [""]
  | String d s' =>
      if Ascii.eqb d c then "" :: split c s'
      else match split c s' with
           | h :: t => String d h :: t
           | [] => [String d ""]
           end
  end.

(** Whitespace as [str.strip] sees it, below code point 256. *)
Definition isspace (c : ascii) : bool :=
  in_range "009" "013" c || in_range "028" "032" c
  || Ascii.eqb c "133" || Ascii.eqb c "160".

(** Whitespace as [int] skips it: the separators 28..31 are not. *)
Definition int_space (c : ascii) : bool :=
  in_range "009" "013" c || Ascii.eqb c " "
  || Ascii.eqb c "133" || Ascii.eqb c "160".

Fixpoint lstrip (p : ascii -> bool) (s : string) : string :=
  match s with
  | "" => ""
  | String c s' => if p c then lstrip p s' else s
  end.

Fixpoint rstrip (p : ascii -> bool) (s : string) : string :=
  match s with
  | "" => ""
  | String c s' =>
      match rstrip p s' with
      | "" => if p c then "" else String c ""
      | r => String c r
      end
  end.

Definition strip (s : string) : string := rstrip isspace (lstrip isspace s).

Definition digit_val (c : ascii) : Z := Z.of_N (code c) - 48.

(** The digits of an [int] literal: decimal digits, single underscores
    allowed between two digits only. [prev] tells whether the character
    just read was a digit. *)
Fixpoint int_digits (acc : Z) (prev : bool) (s : string) : option Z :=
  match s with
  | "" => if prev then Some acc else None
  | String c s' =>
      if is_digit c then int_digits (10 * acc + digit_val c) true s'
      else if Ascii.eqb c "_" && prev then
        match s' with
        | "" => None
        | _ => int_digits acc false s'
        end
      else None
  end.

(** [int(s)] in base 10; [None] stands for [ValueError]. The limit that
    recent interpreters put on the number of digits (4300 by default) is
    not modelled: the code predates it. *)
Definition int (s : string) : option Z :=
  match rstrip int_space (lstrip int_space s) with
  | String "+" r => int_digits 0 false r
  | String "-" r => option_map Z.opp (int_digits 0 false r)
  | r => int_digits 0 false r
  end.

(** [s.rfind(c, 0, stop)]: the highest offset below [stop] holding [c],
    or -1. *)
Fixpoint rfind_from (c : ascii) (s : string) (pos : Z) (stop : nat) : Z :=
  match stop, s with
  | S stop', String d s' =>
      let later := rfind_from c s' (pos + 1) stop' in
      if (0 <=? later)%Z then later
      else if Ascii.eqb d c then pos else (-1)%Z
  | _, _ => (-1)%Z
  end.

Definition rfind (c : ascii) (s : string) (stop : nat) : Z :=
  rfind_from c s 0 stop.

End Py.

(* ================================================================== *)
(** ** The fragment of Python's [re] that the patterns use

    Character classes, concatenation, ordered alternation and greedy
    repetition, matched by backtracking: the first alternative that lets
    the rest of the pattern succeed wins, and a repetition gives back
    iterations one at a time. *)

Module Re.

Inductive regex : Type :=
| Eps : regex
| Cls : (ascii -> bool) -> regex
| Cat : regex -> regex -> regex
| Alt : regex -> regex -> regex
| Star : regex -> regex.

Definition Chr (c : ascii) : regex := Cls (Ascii.eqb c).
Definition Plus (r : regex) : regex := Cat r (Star r).
Definition Opt (r : regex) : regex := Alt r Eps.

(** A literal word. *)
Fixpoint Lit (s : string) : regex :=
  match s with
  | "" => Eps
  | String c s' => Cat (Chr c) (Lit s')
  end.

Section Matcher.
Context {A : Type}.

(** Greedy loop: try one more iteration of [body] first, and fall back
    to the continuation. An iteration that consumes nothing is not
    repeated. *)
Fixpoint star_loop (body : string -> (string -> option A) -> option A)
         (fuel : nat) (s : string) (k : string -> option A) : option A :=
  match fuel with
  | 0 => k s
  | S fuel' =>
      match body s (fun s' =>
               if String.length s' <? String.length s
               then star_loop body fuel' s' k else None) with
      | Some x => Some x
      | None => k s
      end
  end.

Fixpoint run (r : regex) (s : string) (k : string -> option A) : option A :=
  match r with
  | Eps => k s
  | Cls p =>
      match s with
      | String c s' => if p c then k s' else None
      | "" => None
      end
  | Cat a b => run a s (fun s' => run b s' k)
  | Alt a b =>
      match run a s k with
      | Some x => Some x
      | None => run b s k
      end
  | Star a => star_loop (run a) (String.length s) s k
  end.
End Matcher.

(** [re.match(r, s)]: the matched prefix ([m.group()]) and what follows. *)
Definition rematch (r : regex) (s : string) : option (string * string) :=
  match run r s Some with
  | Some rest => Some (Py.take (String.length s - String.length rest) s, rest)
  | None => None
  end.

Declare Scope re_scope.
Delimit Scope re_scope with re.
Notation "a >> b" := (Cat a b) (at level 61, right associativity) : re_scope.
Notation "a || b" := (Alt a b) : re_scope.

(** The words of a pattern, independently of the matching strategy. *)
Inductive lang : regex -> string -> Prop :=
| L_eps : lang Eps ""
| L_cls p c : p c = true -> lang (Cls p) (String c "")
| L_cat a b u v : lang a u -> lang b v -> lang (Cat a b) (u ++ v)
| L_alt_l a b u : lang a u -> lang (Alt a b) u
| L_alt_r a b u : lang b u -> lang (Alt a b) u
| L_star_nil a : lang (Star a) ""
| L_star_cons a u v : lang a u -> lang (Star a) v -> lang (Star a) (u ++ v).

End Re.

(* ================================================================== *)
(** ** Results of code that can raise *)

(** The exceptions that the lexer's code can raise. [IllegalCharacterError]
    carries [line_number], [column_number] and the character that its
    message quotes ([token.value[0]]); [ValueError] is Python's own, from
    [str.index], [int] or PLY's [Lexer.begin]; [IndexError] is what
    [token.value[0]] would raise on an empty text. *)
Inductive exn : Type :=
| IllegalCharacterError (line_number : nat) (column_number : Z) (char : ascii)
| ValueError
| IndexError.

Inductive result (A : Type) : Type :=
| Ok : A -> result A
| Raise : exn -> result A.
Arguments Ok {A} _.
Arguments Raise {A} _.

Definition bind {A B : Type} (m : result A) (f : A -> result B) : result B :=
  match m with
  | Ok a => f a
  | Raise e => Raise e
  end.

Notation "x <- m ;; f" := (bind m (fun x => f))
  (at level 62, m at next level, right associativity).

(** [None] of a Python primitive is its [ValueError]. *)
Definition orValueError {A : Type} (o : option A) : result A :=
  match o with
  | Some a => Ok a
  | None => Raise ValueError
  end.

(** A generator expression over a list: the first element that raises
    ends it. *)
Fixpoint traverse {A B : Type} (f : A -> result B) (l : list A)
  : result (list B) :=
  match l with
  | [] => Ok []
  | x :: l' => y <- f x ;; ys <- traverse f l' ;; Ok (y :: ys)
  end.

(* ================================================================== *)
(** ** Tokens and the lexer object *)

(** [ConlluLexerBuilder.tokens]. *)
Inductive token_type : Type :=
| NEWLINE | TAB | COMMENT | INTEGER_ID | RANGE_ID | DECIMAL_ID
| FORM | LEMMA | UPOS | XPOS | FEATS | HEAD | DEPREL | DEPS | MISC.

(** What [token.value] can hold once a rule has run: the matched text,
    [None], an [int], a tuple of [int]s (the two ID pairs), the FEATS
    tuple of [(name, values)] and the DEPS tuple of [(head, deprel)]. *)
Inductive value : Type :=
| VStr (s : string)
| VNone
| VInt (n : Z)
| VInts (ns : list Z)
| VFeats (fs : list (string * list string))
| VDeps (ds : list (Z * string)).

(** [ConlluLexerBuilder.states] and PLY's [INITIAL]: [v_ i] is the state
    named [v<i>], [c_ i] the state named [c<i>]. *)
Inductive state : Type :=
| INITIAL
| v_ (i : nat)
| c_ (i : nat).

(** The names that [states] declares; [Lexer.begin] refuses any other. *)
Definition declared (s : state) : bool :=
  match s with
  | INITIAL => true
  | v_ i => i <=? 9
  | c_ i => (1 <=? i) && (i <=? 9)
  end.

Module Tok.
Record LexToken : Type := {
  type : token_type;
  value : value;
  lineno : nat;
  lexpos : nat
}.
End Tok.

(** PLY's [Lexer] together with the one field of its builder,
    [_tab_count]: [build] makes one builder per lexer. *)
Record Lexer : Type := {
  lexdata : string;
  lexpos : nat;
  lineno : nat;
  lexstate : state;
  _tab_count : nat
}.

Definition set_lexpos (lx : Lexer) (p : nat) : Lexer :=
  {| lexdata := lexdata lx; lexpos := p; lineno := lineno lx;
     lexstate := lexstate lx; _tab_count := _tab_count lx |}.

Definition set_lineno (lx : Lexer) (n : nat) : Lexer :=
  {| lexdata := lexdata lx; lexpos := lexpos lx; lineno := n;
     lexstate := lexstate lx; _tab_count := _tab_count lx |}.

Definition set_tab_count (lx : Lexer) (n : nat) : Lexer :=
  {| lexdata := lexdata lx; lexpos := lexpos lx; lineno := lineno lx;
     lexstate := lexstate lx; _tab_count := n |}.

(** [lexer.begin(name)]: [ValueError('Undefined state')] for a name that
    was not declared. *)
Definition begin (s : state) (lx : Lexer) : result Lexer :=
  if declared s then
    Ok {| lexdata := lexdata lx; lexpos := lexpos lx; lineno := lineno lx;
          lexstate := s; _tab_count := _tab_count lx |}
  else Raise ValueError.

(** [lexer.input(data)]. *)
Definition input (lx : Lexer) (data : string) : Lexer :=
  {| lexdata := data; lexpos := 0; lineno := lineno lx;
     lexstate := lexstate lx; _tab_count := _tab_count lx |}.

(* ================================================================== *)
(** ** The patterns of [ConlluLexerBuilder] *)

Module Pat.
Import Re.
Local Open Scope re_scope.

Definition upper_digit (c : ascii) : bool :=
  Py.in_range "A" "Z" c || Py.in_range "0" "9" c.
Definition upper_digit_lower (c : ascii) : bool :=
  Py.in_range "A" "Z" c || Py.in_range "0" "9" c || Py.in_range "a" "z" c.
Definition lower_digit (c : ascii) : bool :=
  Py.in_range "a" "z" c || Py.in_range "0" "9" c.
Definition alnum (c : ascii) : bool :=
  Py.in_range "a" "z" c || Py.in_range "A" "Z" c || Py.in_range "0" "9" c.
Definition not_nl (c : ascii) : bool := negb (Ascii.eqb c Py.nl).
Definition not_nl_tab (c : ascii) : bool :=
  negb (Ascii.eqb c Py.nl || Ascii.eqb c Py.tab).
Definition not_nl_tab_sp (c : ascii) : bool :=
  negb (Ascii.eqb c Py.nl || Ascii.eqb c Py.tab || Ascii.eqb c Py.sp).

Definition d19 : regex := Cls (Py.in_range "1" "9").
Definition d09 : regex := Cls (Py.in_range "0" "9").

(** Pattern "[A-Z0-9][A-Z0-9a-z]*(\[[a-z0-9]+\])?" *)
Definition _feat_name : regex :=
  Cls upper_digit >> Star (Cls upper_digit_lower) >>
  Opt (Chr "[" >> Plus (Cls lower_digit) >> Chr "]").

(** Pattern "[A-Z0-9][a-zA-Z0-9]*" *)
Definition _feat_value : regex := Cls upper_digit >> Star (Cls alnum).

(** Pattern "{0}(,{0})*" over [_feat_value] *)
Definition _feat_values : regex :=
  _feat_value >> Star (Chr "," >> _feat_value).

(** Pattern "{0}={1}" over [_feat_name], [_feat_values] *)
Definition _feat_pair : regex := _feat_name >> Chr "=" >> _feat_values.

(** Pattern ( {0} ( [|] {0} )* ) | _ over [_feat_pair] (spaced out) *)
Definition _feats : regex :=
  (_feat_pair >> Star (Chr "|" >> _feat_pair)) || Chr "_".

(** Pattern "([1-9][0-9]+|[0-9])" *)
Definition _dep_head : regex := (d19 >> Plus d09) || d09.

(** Pattern "[^\n\t ]+" *)
Definition _dep_deprel : regex := Plus (Cls not_nl_tab_sp).

(** Pattern "{0}:{1}" over [_dep_head], [_dep_deprel] *)
Definition _dep_pair : regex := _dep_head >> Chr ":" >> _dep_deprel.

(** Pattern ( {0} ( [|] {0} )* ) | _ over [_dep_pair] (spaced out) *)
Definition _deps : regex :=
  (_dep_pair >> Star (Chr "|" >> _dep_pair)) || Chr "_".

(** ['|'.join(names)]: the names are enum member names, identifiers that
    hold no character special to [re], so each stands for itself. *)
Fixpoint join_alt (names : list string) : regex :=
  match names with
  | [] => Eps
  | [n] => Lit n
  | n :: rest => Lit n || join_alt rest
  end.

(** Pattern "({0}|_)" over the joined tag names *)
Definition _upos (names : list string) : regex := join_alt names || Chr "_".

(** The patterns that the rules give as their docstrings. *)
Definition p_TAB : regex := Chr Py.tab.
Definition p_COMMENT : regex := Chr "#" >> Star (Cls not_nl).
Definition p_RANGE_ID : regex := d19 >> Star d09 >> Chr "-" >> d19 >> Star d09.
Definition p_DECIMAL_ID : regex :=
  ((d19 >> Plus d09) || d09) >> Chr "." >> d19 >> Star d09.
Definition p_INTEGER_ID : regex := d19 >> Star d09.
Definition p_FORM : regex := Plus (Cls not_nl_tab).
Definition p_LEMMA : regex := Plus (Cls not_nl_tab).
Definition p_XPOS : regex := Plus (Cls not_nl_tab_sp).
Definition p_HEAD : regex := ((d19 >> Plus d09) || d09) || Chr "_".
Definition p_DEPREL : regex := Plus (Cls not_nl_tab_sp).
Definition p_MISC : regex := Plus (Cls not_nl_tab_sp).
Definition p_NEWLINE : regex := Chr Py.nl.

End Pat.

(* ================================================================== *)
(** ** [ConlluLexerBuilder]: rules, and PLY's [token] loop over them *)

(** Column number of an offset ([find_column] reads both [lexdata] and
    [lexpos] off the token it is given). *)
Definition find_column (data : string) (pos : nat) : Z :=
  let line_start := (Py.rfind Py.nl data pos + 1)%Z in
  (Z.of_nat pos - line_start + 1)%Z.

(** [None if value == '_' else f(value)] *)
Definition unless_underscore (s : string) (v : result value) : result value :=
  if String.eqb s "_" then Ok VNone else v.

(** The value computed by each rule from the matched text. *)
Definition v_COMMENT (s : string) : result value :=
  Ok (VStr (Py.strip (Py.drop 1 s))).

Definition v_RANGE_ID (s : string) : result value :=
  ns <- traverse (fun x => orValueError (Py.int x)) (Py.split "-" s) ;;
  Ok (VInts ns).

Definition v_DECIMAL_ID (s : string) : result value :=
  ns <- traverse (fun x => orValueError (Py.int x)) (Py.split "." s) ;;
  Ok (VInts ns).

Definition v_INTEGER_ID (s : string) : result value :=
  n <- orValueError (Py.int s) ;; Ok (VInt n).

Definition v_nullable_str (s : string) : result value :=
  unless_underscore s (Ok (VStr s)).

Definition feat_of (x : string) : result (string * list string) :=
  i <- orValueError (Py.index "=" x) ;;
  j <- orValueError (Py.index "=" x) ;;
  Ok (Py.take i x, Py.split "," (Py.drop (j + 1) x)).

Definition v_FEATS (s : string) : result value :=
  unless_underscore s
    (fs <- traverse feat_of (Py.split "|" s) ;; Ok (VFeats fs)).

Definition v_HEAD (s : string) : result value :=
  unless_underscore s (n <- orValueError (Py.int s) ;; Ok (VInt n)).

Definition dep_of (x : string) : result (Z * string) :=
  i <- orValueError (Py.index ":" x) ;;
  h <- orValueError (Py.int (Py.take i x)) ;;
  j <- orValueError (Py.index ":" x) ;;
  Ok (h, Py.drop (j + 1) x).

Definition v_DEPS (s : string) : result value :=
  unless_underscore s
    (ds <- traverse dep_of (Py.split "|" s) ;; Ok (VDeps ds)).

(** A rule function: from the matched text and the lexer (already moved
    past the match) to the token's value and the lexer it leaves. None of
    the rules touches the token's type, line or offset. *)
Definition action : Type := string -> Lexer -> result (value * Lexer).

Definition t_v0_v1_v2_v3_v4_v5_v6_v7_v8_TAB : action := fun s lx =>
  let lx1 := set_tab_count lx (_tab_count lx + 1) in
  lx2 <- begin (c_ (_tab_count lx1)) lx1 ;;
  Ok (VStr s, lx2).

Definition t_COMMENT : action := fun s lx =>
  v <- v_COMMENT s ;; Ok (v, lx).

Definition t_RANGE_ID : action := fun s lx =>
  v <- v_RANGE_ID s ;; lx1 <- begin (v_ 0) lx ;; Ok (v, lx1).

Definition t_DECIMAL_ID : action := fun s lx =>
  v <- v_DECIMAL_ID s ;; lx1 <- begin (v_ 0) lx ;; Ok (v, lx1).

Definition t_INTEGER_ID : action := fun s lx =>
  v <- v_INTEGER_ID s ;; lx1 <- begin (v_ 0) lx ;; Ok (v, lx1).

Definition t_c1_FORM : action := fun s lx =>
  lx1 <- begin (v_ 1) lx ;; Ok (VStr s, lx1).

Definition t_c2_LEMMA : action := fun s lx =>
  lx1 <- begin (v_ 2) lx ;; Ok (VStr s, lx1).

Definition t_c3_UPOS : action := fun s lx =>
  v <- v_nullable_str s ;; lx1 <- begin (v_ 3) lx ;; Ok (v, lx1).

Definition t_c4_XPOS : action := fun s lx =>
  v <- v_nullable_str s ;; lx1 <- begin (v_ 4) lx ;; Ok (v, lx1).

Definition t_c5_FEATS : action := fun s lx =>
  v <- v_FEATS s ;; lx1 <- begin (v_ 5) lx ;; Ok (v, lx1).

Definition t_c6_HEAD : action := fun s lx =>
  v <- v_HEAD s ;; lx1 <- begin (v_ 6) lx ;; Ok (v, lx1).

Definition t_c7_DEPREL : action := fun s lx =>
  v <- v_nullable_str s ;; lx1 <- begin (v_ 7) lx ;; Ok (v, lx1).

Definition t_c8_DEPS : action := fun s lx =>
  v <- v_DEPS s ;; lx1 <- begin (v_ 8) lx ;; Ok (v, lx1).

Definition t_c9_MISC : action := fun s lx =>
  v <- v_nullable_str s ;; lx1 <- begin (v_ 9) lx ;; Ok (v, lx1).

Definition t_INITIAL_v9_NEWLINE : action := fun s lx =>
  let lx1 := set_lineno lx (lineno lx + 1) in
  let lx2 := set_tab_count lx1 0 in
  lx3 <- begin INITIAL lx2 ;;
  Ok (VStr s, lx3).

(** [t_ANY_error] raises [IllegalCharacterError(token)], whose
    constructor reads the lexer's line, [find_column] and the first
    character of the unmatched text. *)
Definition t_ANY_error (text : string) (pos : nat) (lx : Lexer) : exn :=
  match text with
  | String ch _ =>
      IllegalCharacterError (lineno lx) (find_column (lexdata lx) pos) ch
  | "" => IndexError
  end.

Record rule : Type := {
  r_type : token_type;
  r_pattern : Re.regex;
  r_action : action
}.

Section Rules.

(** Modelled from the spec: the Tag Registry ([colonel.upostag.UposTag],
    whose module is not among the sources): an ordered, closed set of
    part-of-speech tag name strings, injected into the lexer at
    construction. *)
Variable upos_names : list string.

Definition r_TAB := {| r_type := TAB; r_pattern := Pat.p_TAB;
                       r_action := t_v0_v1_v2_v3_v4_v5_v6_v7_v8_TAB |}.
Definition r_COMMENT := {| r_type := COMMENT; r_pattern := Pat.p_COMMENT;
                           r_action := t_COMMENT |}.
Definition r_RANGE_ID := {| r_type := RANGE_ID; r_pattern := Pat.p_RANGE_ID;
                            r_action := t_RANGE_ID |}.
Definition r_DECIMAL_ID := {| r_type := DECIMAL_ID;
                              r_pattern := Pat.p_DECIMAL_ID;
                              r_action := t_DECIMAL_ID |}.
Definition r_INTEGER_ID := {| r_type := INTEGER_ID;
                              r_pattern := Pat.p_INTEGER_ID;
                              r_action := t_INTEGER_ID |}.
Definition r_FORM := {| r_type := FORM; r_pattern := Pat.p_FORM;
                        r_action := t_c1_FORM |}.
Definition r_LEMMA := {| r_type := LEMMA; r_pattern := Pat.p_LEMMA;
                         r_action := t_c2_LEMMA |}.
Definition r_UPOS := {| r_type := UPOS; r_pattern := Pat._upos upos_names;
                        r_action := t_c3_UPOS |}.
Definition r_XPOS := {| r_type := XPOS; r_pattern := Pat.p_XPOS;
                        r_action := t_c4_XPOS |}.
Definition r_FEATS := {| r_type := FEATS; r_pattern := Pat._feats;
                         r_action := t_c5_FEATS |}.
Definition r_HEAD := {| r_type := HEAD; r_pattern := Pat.p_HEAD;
                        r_action := t_c6_HEAD |}.
Definition r_DEPREL := {| r_type := DEPREL; r_pattern := Pat.p_DEPREL;
                          r_action := t_c7_DEPREL |}.
Definition r_DEPS := {| r_type := DEPS; r_pattern := Pat._deps;
                        r_action := t_c8_DEPS |}.
Definition r_MISC := {| r_type := MISC; r_pattern := Pat.p_MISC;
                        r_action := t_c9_MISC |}.
Definition r_NEWLINE := {| r_type := NEWLINE; r_pattern := Pat.p_NEWLINE;
                           r_action := t_INITIAL_v9_NEWLINE |}.

(** PLY reads the states of a rule off its name and orders the rules of
    a state by the line they are defined on. *)
Definition lexstatere (s : state) : list rule :=
  match s with
  | INITIAL =>
      [r_COMMENT; r_RANGE_ID; r_DECIMAL_ID; r_INTEGER_ID; r_NEWLINE]
  | v_ i => if i <=? 8 then [r_TAB] else if i =? 9 then [r_NEWLINE] else []
  | c_ 1 => [r_FORM]
  | c_ 2 => [r_LEMMA]
  | c_ 3 => [r_UPOS]
  | c_ 4 => [r_XPOS]
  | c_ 5 => [r_FEATS]
  | c_ 6 => [r_HEAD]
  | c_ 7 => [r_DEPREL]
  | c_ 8 => [r_DEPS]
  | c_ 9 => [r_MISC]
  | c_ _ => []
  end.

(** The master pattern of a state is the alternation of its rules, each
    in a group of its own, with nothing after it: the first rule that
    matches at the cursor gives the token. *)
Fixpoint first_match (rs : list rule) (text : string)
  : option (rule * string) :=
  match rs with
  | [] => None
  | r :: rs' =>
      match Re.rematch (r_pattern r) text with
      | Some (lexeme, _) => Some (r, lexeme)
      | None => first_match rs' text
      end
  end.

Inductive outcome : Type :=
| Token (tok : Tok.LexToken) (lx : Lexer)
| Eof (lx : Lexer)
| Raised (e : exn).

(** [Lexer.token()]: no character is ignored and there are no literals,
    so each call matches the rules of the current state at the cursor,
    runs the rule found, or hands the rest of the text to [t_ANY_error]. *)
Definition token (lx : Lexer) : outcome :=
  if lexpos lx <? String.length (lexdata lx) then
    let text := Py.drop (lexpos lx) (lexdata lx) in
    match first_match (lexstatere (lexstate lx)) text with
    | Some (r, lexeme) =>
        match r_action r lexeme
                (set_lexpos lx (lexpos lx + String.length lexeme)) with
        | Ok (v, lx') =>
            Token {| Tok.type := r_type r; Tok.value := v;
                     Tok.lineno := lineno lx; Tok.lexpos := lexpos lx |} lx'
        | Raise e => Raised e
        end
    | None => Raised (t_ANY_error text (lexpos lx) lx)
    end
  else Eof (set_lexpos lx (lexpos lx + 1)).

(** PLY refuses, when the lexer is built, a rule whose pattern matches
    the empty text. *)
Definition matches_empty (r : rule) : bool :=
  match Re.rematch (r_pattern r) "" with
  | Some _ => true
  | None => false
  end.

Definition all_rules : list rule :=
  [r_TAB; r_COMMENT; r_RANGE_ID; r_DECIMAL_ID; r_INTEGER_ID; r_FORM;
   r_LEMMA; r_UPOS; r_XPOS; r_FEATS; r_HEAD; r_DEPREL; r_DEPS; r_MISC;
   r_NEWLINE].

Definition validate_rules : bool :=
  forallb (fun r => negb (matches_empty r)) all_rules.

(** The lexer that [lex(module=self)] and [__init__] leave. *)
Definition fresh : Lexer :=
  {| lexdata := ""; lexpos := 0; lineno := 1; lexstate := INITIAL;
     _tab_count := 0 |}.

(** [ConlluLexerBuilder.build()]; [None] is PLY's refusal. *)
Definition build : option Lexer :=
  if validate_rules then Some fresh else None.

(** Pulling tokens until [token()] returns [None] or raises. *)
Inductive ending : Type :=
| Exhausted
| Stopped (e : exn)
| OutOfFuel.

Fixpoint tokens (fuel : nat) (lx : Lexer) : list Tok.LexToken * ending :=
  match fuel with
  | 0 => ([], OutOfFuel)
  | S fuel' =>
      match token lx with
      | Token tok lx' =>
          let (ts, e) := tokens fuel' lx' in (tok :: ts, e)
      | Eof _ => ([], Exhausted)
      | Raised e => ([], Stopped e)
      end
  end.

(** Build a lexer, give it [data], and drain it. Every token takes at
    least one character, so [length data] tokens and the final [None]
    are all there can be. *)
Definition tokenize (data : string) : option (list Tok.LexToken * ending) :=
  match build with
  | Some lx => Some (tokens (S (String.length data)) (input lx data))
  | None => None
  end.

(** The lexers that a consumer can see: after [input], and after each
    token handed out. The list is the tokens so far. *)
Inductive reach (data : string) : list Tok.LexToken -> Lexer -> Prop :=
| reach_input : reach data [] (input fresh data)
| reach_token ts lx tok lx' :
    reach data ts lx ->
    token lx = Token tok lx' ->
    reach data (ts ++ [tok])%list lx'.

End Rules.

(* ================================================================== *)
(** ** Vocabulary of the statements *)

(** The one-character texts of a tab and of a line feed. *)
Definition T : string := String Py.tab "".
Definition NL : string := String Py.nl "".

(** Modelled from the spec: a Tag Registry to run the lexer on. The
    module that defines [UposTag] is not among the sources and the spec
    only says that the registry is "an ordered, closed set of valid
    part-of-speech tag name strings"; these are the seventeen universal
    part-of-speech tags of the CoNLL-U format, in their usual order. *)
Definition ud_upos_names : list string :=
  ["ADJ"; "ADP"; "ADV"; "AUX"; "CCONJ"; "DET"; "INTJ"; "NOUN"; "NUM";
   "PART"; "PRON"; "PROPN"; "PUNCT"; "SCONJ"; "SYM"; "VERB"; "X"].

(** The text of a token: what lies between its offset and the cursor
    that the lexer was left with. *)
Definition lexeme_of (tok : Tok.LexToken) (lx' : Lexer) : string :=
  Py.take (lexpos lx' - Tok.lexpos tok) (Py.drop (Tok.lexpos tok) (lexdata lx')).

(** The lexer after an ID token of [n] characters on line 1. *)
Definition after_id (data : string) (n : nat) : Lexer :=
  {| lexdata := data; lexpos := n; lineno := 1; lexstate := v_ 0;
     _tab_count := 0 |}.

Definition mk_token (ty : token_type) (v : value) (line pos : nat)
  : Tok.LexToken :=
  {| Tok.type := ty; Tok.value := v; Tok.lineno := line; Tok.lexpos := pos |}.

(** A row whose nine fields after the ID are all "_". *)
Definition underscore_row : string :=
  "1" ++ T ++ "_" ++ T ++ "_" ++ T ++ "_" ++ T ++ "_" ++ T ++ "_" ++ T
  ++ "_" ++ T ++ "_" ++ T ++ "_" ++ T ++ "_" ++ NL.

(** Types and values of a token list. *)
Definition summary (ts : list Tok.LexToken) : list (token_type * value) :=
  map (fun t => (Tok.type t, Tok.value t)) ts.

(** The types whose rules turn "_" into [None], and the two that do not. *)
Definition nullable_type (ty : token_type) : bool :=
  match ty with
  | UPOS | XPOS | FEATS | HEAD | DEPREL | DEPS | MISC => true
  | _ => false
  end.

Definition verbatim_type (ty : token_type) : bool :=
  match ty with
  | FORM | LEMMA => true
  | _ => false
  end.

(** The text at the cursor. *)
Definition text_at (lx : Lexer) : string := Py.drop (lexpos lx) (lexdata lx).

(** The token type of column [i], for the nine columns after the ID. *)
Definition field_type (i : nat) : option token_type :=
  match i with
  | 1 => Some FORM
  | 2 => Some LEMMA
  | 3 => Some UPOS
  | 4 => Some XPOS
  | 5 => Some FEATS
  | 6 => Some HEAD
  | 7 => Some DEPREL
  | 8 => Some DEPS
  | 9 => Some MISC
  | _ => None
  end.

(** The three types whose pattern excludes the space. *)
Definition spaceless_type (ty : token_type) : bool :=
  match ty with
  | XPOS | DEPREL | MISC => true
  | _ => false
  end.

(** The text is over, or goes on with a tab or a line feed. *)
Definition at_field_end (rest : string) : Prop :=
  match rest with
  | "" => True
  | String c _ => c = Py.tab \/ c = Py.nl
  end.

(** Every character class of the pattern lies within [q]. *)
Fixpoint classes_within (q : ascii -> bool) (r : Re.regex) : Prop :=
  match r with
  | Re.Eps => True
  | Re.Cls p => forall c, p c = true -> q c = true
  | Re.Cat a b | Re.Alt a b => classes_within q a /\ classes_within q b
  | Re.Star a => classes_within q a
  end.

(** The lexer moved to [pos] and put in state [st]. *)
Definition moved (lx : Lexer) (pos : nat) (st : state) : Lexer :=
  {| lexdata := lexdata lx; lexpos := pos; lineno := lineno lx;
     lexstate := st; _tab_count := _tab_count lx |}.

(** A row with a space in FORM and LEMMA, where it is allowed, and one
    in XPOS, where it is not; and the lexer at its FORM and XPOS fields. *)
Definition spaced_row : string :=
  "1" ++ T ++ "New York" ++ T ++ "New York" ++ T ++ "PROPN" ++ T ++ "N N"
  ++ T ++ "_" ++ T ++ "0" ++ T ++ "root" ++ T ++ "_" ++ T ++ "_" ++ NL.

Definition at_field (data : string) (pos i : nat) : Lexer :=
  {| lexdata := data; lexpos := pos; lineno := 1; lexstate := c_ i;
     _tab_count := i |}.

(** The number of TAB tokens since the last NEWLINE token. *)
Definition count_tab (n : nat) (tok : Tok.LexToken) : nat :=
  match Tok.type tok with
  | NEWLINE => 0
  | TAB => S n
  | _ => n
  end.

Definition tabs_in_row (ts : list Tok.LexToken) : nat :=
  fold_left count_tab ts 0.

(** The state tells the column, and the counter agrees with it. *)
Definition consistent (lx : Lexer) : Prop :=
  match lexstate lx with
  | INITIAL => _tab_count lx = 0
  | v_ i => _tab_count lx = i /\ i <= 9
  | c_ i => _tab_count lx = i /\ 1 <= i <= 9
  end.

(** [n] calls of [token] that all give a token. *)
Fixpoint steps (names : list string) (n : nat) (lx : Lexer)
  : option (list Tok.LexToken * Lexer) :=
  match n with
  | 0 => Some ([], lx)
  | S n' =>
      match token names lx with
      | Token tok lx1 =>
          match steps names n' lx1 with
          | Some (ts, lx') => Some (tok :: ts, lx')
          | None => None
          end
      | _ => None
      end
  end.

(** A row with a tenth tab after its tenth field. *)
Definition ten_tabs_row : string :=
  "1" ++ T ++ "a" ++ T ++ "a" ++ T ++ "_" ++ T ++ "_" ++ T ++ "_" ++ T
  ++ "_" ++ T ++ "_" ++ T ++ "_" ++ T ++ "_" ++ T ++ "_" ++ NL.

(** A numeral without a leading zero: a first character "0" is the whole
    text. *)
Definition no_leading_zero (s : string) : bool :=
  match s with
  | String "0" (String _ _) => false
  | _ => true
  end.

(** Following the spec's words, "each segment splits at its first
    [c]": the text before the first [c] and the text after it; there is
    no such split of a text without [c]. *)
Fixpoint split_at_first (c : ascii) (s : string) : option (string * string) :=
  match s with
  | "" => None
  | String d s' =>
      if Ascii.eqb d c then Some ("", s')
      else match split_at_first c s' with
           | Some (a, b) => Some (String d a, b)
           | None => None
           end
  end.

Fixpoint all_some {A B : Type} (f : A -> option B) (l : list A)
  : option (list B) :=
  match l with
  | [] => Some []
  | x :: l' =>
      match f x, all_some f l' with
      | Some y, Some ys => Some (y :: ys)
      | _, _ => None
      end
  end.

(** Following the spec's words for FEATS: "split on |; _ is absence;
    else each segment splits at its first = into name and a comma-split
    ordered list of values". *)
Definition spec_FEATS (s : string) : option value :=
  if String.eqb s "_" then Some VNone
  else
    option_map VFeats
      (all_some (fun seg =>
                   match split_at_first "=" seg with
                   | Some (name, vals) => Some (name, Py.split "," vals)
                   | None => None
                   end)
                (Py.split "|" s)).

(** Following the spec's words for DEPS: "split on |; _ is absence; else
    each segment splits at its first : only into (integer head, string
    deprel)". *)
Definition spec_DEPS (s : string) : option value :=
  if String.eqb s "_" then Some VNone
  else
    option_map VDeps
      (all_some (fun seg =>
                   match split_at_first ":" seg with
                   | Some (head, deprel) =>
                       match Py.int head with
                       | Some h => Some (h, deprel)
                       | None => None
                       end
                   | None => None
                   end)
                (Py.split "|" s)).

(** A row whose FEATS field is "Case=Nom|Number=Sing". *)
Definition feats_row : string :=
  "1" ++ T ++ "dog" ++ T ++ "dog" ++ T ++ "NOUN" ++ T ++ "_" ++ T
  ++ "Case=Nom|Number=Sing" ++ T ++ "0" ++ T ++ "root" ++ T ++ "_" ++ T
  ++ "_" ++ NL.

(** A row whose DEPS field is "1:a|b": a pair, then a segment that is
    not one. *)
Definition deps_bad_row : string :=
  "1" ++ T ++ "dog" ++ T ++ "dog" ++ T ++ "NOUN" ++ T ++ "_" ++ T ++ "_"
  ++ T ++ "0" ++ T ++ "root" ++ T ++ "1:a|b" ++ T ++ "_" ++ NL.

(** A row whose DEPS field is "4:nsubj|6:conj:and". *)
Definition deps_row : string :=
  "5" ++ T ++ "dog" ++ T ++ "dog" ++ T ++ "NOUN" ++ T ++ "_" ++ T ++ "_"
  ++ T ++ "4" ++ T ++ "nsubj" ++ T ++ "4:nsubj|6:conj:and" ++ T ++ "_" ++ NL.

Definition is_IllegalCharacterError (e : exn) : bool :=
  match e with
  | IllegalCharacterError _ _ _ => true
  | _ => false
  end.

(** The two-row input of the end-to-end example, and the tokens that
    the lexer gives on it: twenty per row, and the NEWLINE of the blank
    line. *)
Definition two_rows : string :=
  "1" ++ T ++ "The" ++ T ++ "the" ++ T ++ "DET" ++ T ++ "_" ++ T ++ "_" ++ T
  ++ "2" ++ T ++ "det" ++ T ++ "_" ++ T ++ "_" ++ NL
  ++ "2" ++ T ++ "dog" ++ T ++ "dog" ++ T ++ "NOUN" ++ T ++ "_" ++ T ++ "_" ++ T
  ++ "0" ++ T ++ "root" ++ T ++ "_" ++ T ++ "_" ++ NL
  ++ NL.

Definition first_row_tokens : list Tok.LexToken :=
  [mk_token INTEGER_ID (VInt 1) 1 0; mk_token TAB (VStr T) 1 1;
   mk_token FORM (VStr "The") 1 2; mk_token TAB (VStr T) 1 5;
   mk_token LEMMA (VStr "the") 1 6; mk_token TAB (VStr T) 1 9;
   mk_token UPOS (VStr "DET") 1 10; mk_token TAB (VStr T) 1 13;
   mk_token XPOS VNone 1 14; mk_token TAB (VStr T) 1 15;
   mk_token FEATS VNone 1 16; mk_token TAB (VStr T) 1 17;
   mk_token HEAD (VInt 2) 1 18; mk_token TAB (VStr T) 1 19;
   mk_token DEPREL (VStr "det") 1 20; mk_token TAB (VStr T) 1 23;
   mk_token DEPS VNone 1 24; mk_token TAB (VStr T) 1 25;
   mk_token MISC VNone 1 26; mk_token NEWLINE (VStr NL) 1 27].

Definition second_row_tokens : list Tok.LexToken :=
  [mk_token INTEGER_ID (VInt 2) 2 28; mk_token TAB (VStr T) 2 29;
   mk_token FORM (VStr "dog") 2 30; mk_token TAB (VStr T) 2 33;
   mk_token LEMMA (VStr "dog") 2 34; mk_token TAB (VStr T) 2 37;
   mk_token UPOS (VStr "NOUN") 2 38; mk_token TAB (VStr T) 2 42;
   mk_token XPOS VNone 2 43; mk_token TAB (VStr T) 2 44;
   mk_token FEATS VNone 2 45; mk_token TAB (VStr T) 2 46;
   mk_token HEAD (VInt 0) 2 47; mk_token TAB (VStr T) 2 48;
   mk_token DEPREL (VStr "root") 2 49; mk_token TAB (VStr T) 2 53;
   mk_token DEPS VNone 2 54; mk_token TAB (VStr T) 2 55;
   mk_token MISC VNone 2 56; mk_token NEWLINE (VStr NL) 2 57].

Definition blank_line_token : Tok.LexToken := mk_token NEWLINE (VStr NL) 3 58.

Definition two_rows_tokens : list Tok.LexToken :=
  (first_row_tokens ++ second_row_tokens ++ [blank_line_token])%list.

(** The types of a full row: ten fields, nine tabs, and the line feed. *)
Definition full_row_types : list token_type :=
  [INTEGER_ID; TAB; FORM; TAB; LEMMA; TAB; UPOS; TAB; XPOS; TAB; FEATS; TAB;
   HEAD; TAB; DEPREL; TAB; DEPS; TAB; MISC; NEWLINE].

(** No tag name of the registry begins another one. *)
Definition prefix_free (names : list string) : bool :=
  forallb (fun a =>
             forallb (fun b => implb (String.prefix a b) (String.eqb a b))
                     names)
          names.

Definition has_name (t : string) (names : list string) : bool :=
  existsb (String.eqb t) names.

(** The end-to-end example as the spec words it: two rows of nineteen
    tokens each, then the NEWLINE of the blank line. *)
Definition two_rows_of_19 (names : list string) : Prop :=
  exists r1 r2 nl e,
    tokenize names two_rows = Some ((r1 ++ r2 ++ [nl])%list, e)
    /\ List.length r1 = 19 /\ List.length r2 = 19
    /\ Tok.type nl = NEWLINE.

Definition is_type (ty : token_type) (tok : Tok.LexToken) : bool :=
  match ty, Tok.type tok with
  | NEWLINE, NEWLINE | TAB, TAB | COMMENT, COMMENT
  | INTEGER_ID, INTEGER_ID | RANGE_ID, RANGE_ID | DECIMAL_ID, DECIMAL_ID
  | FORM, FORM | LEMMA, LEMMA | UPOS, UPOS | XPOS, XPOS | FEATS, FEATS
  | HEAD, HEAD | DEPREL, DEPREL | DEPS, DEPS | MISC, MISC => true
  | _, _ => false
  end.

(** The values of the tokens of one type, in order. *)
Definition values_of (ty : token_type) (ts : list Tok.LexToken) : list value :=
  map Tok.value (filter (is_type ty) ts).

(** Line and column of an offset, counted from 1, read off the text
    alone: one more than the line feeds before the offset, and one more
    than the characters between the last of them and the offset. *)
Fixpoint count_char (c : ascii) (s : string) : nat :=
  match s with
  | "" => 0
  | String d s' => (if Ascii.eqb d c then 1 else 0) + count_char c s'
  end.

Fixpoint after_last (c : ascii) (s : string) : string :=
  match s with
  | "" => ""
  | String d s' =>
      if Py.mem c s' then after_last c s'
      else if Ascii.eqb d c then s' else s
  end.

Definition line_of (data : string) (pos : nat) : nat :=
  1 + count_char Py.nl (Py.take pos data).

Definition column_of (data : string) (pos : nat) : Z :=
  (Z.of_nat (String.length (after_last Py.nl (Py.take pos data))) + 1)%Z.

(** The characters of an enum member name. *)
Definition ident_char (c : ascii) : bool :=
  Py.in_range "a" "z" c || Py.in_range "A" "Z" c || Py.in_range "0" "9" c
  || Ascii.eqb c "_".

(** A well-formed, non-empty registry: at least one name, and every name
    a non-empty run of identifier characters. *)
Definition registry_ok (names : list string) : bool :=
  negb (Nat.eqb (List.length names) 0)
  && forallb (fun n => negb (String.eqb n "") && Py.all_chars ident_char n)
             names.

(** No name of the registry begins the text [s]. *)
Definition no_name_begins (s : string) (names : list string) : bool :=
  forallb (fun n => negb (String.prefix n s)) names.

(** A row whose UPOS field is "XX123"; the field begins at offset 10,
    column 11 of line 1. *)
Definition xx123_row : string :=
  "1" ++ T ++ "The" ++ T ++ "the" ++ T ++ "XX123" ++ T ++ "_" ++ T ++ "_" ++ T
  ++ "2" ++ T ++ "det" ++ T ++ "_" ++ T ++ "_" ++ NL.

(** The run on [data] stops on an IllegalCharacterError whose line and
    column are those of offset [pos]. *)
Definition stops_at (names : list string) (data : string) (pos : nat) : Prop :=
  exists ts ch,
    tokenize names data
    = Some (ts, Stopped (IllegalCharacterError (line_of data pos)
                           (column_of data pos) ch)).

(** The universal tags without the tag X. *)
Definition tags_without_x : list string :=
  ["ADJ"; "ADP"; "ADV"; "AUX"; "CCONJ"; "DET"; "INTJ"; "NOUN"; "NUM";
   "PART"; "PRON"; "PROPN"; "PUNCT"; "SCONJ"; "SYM"; "VERB"].

(** Every word of the pattern has at least one character. *)
Fixpoint nonempty_words (r : Re.regex) : bool :=
  match r with
  | Re.Eps => false
  | Re.Cls _ => true
  | Re.Cat a b => nonempty_words a || nonempty_words b
  | Re.Alt a b => nonempty_words a && nonempty_words b
  | Re.Star _ => false
  end.

(* ------------------------------------------------------------------ *)
(** ** Vocabulary of the further properties *)

(** A numeral as the head of a pair and HEAD have it: one digit, or a
    digit from 1 to 9 and more digits. *)
Definition numeral (u : string) : bool :=
  match u with
  | "" => false
  | String c "" => Py.is_digit c
  | String c s => Py.in_range "1" "9" c && Py.all_chars Py.is_digit s
  end.


(** The text is over, or goes on with a character outside [p]. *)
Definition stops (p : ascii -> bool) (rest : string) : Prop :=
  match rest with
  | "" => True
  | String c _ => p c = false
  end.

(** The text does not begin with [x]. *)
Definition not_at (x : ascii) (t : string) : Prop :=
  match t with
  | "" => True
  | String c _ => c <> x
  end.

(** The three types of an ID token. *)
Definition is_id_type (ty : token_type) : bool :=
  match ty with
  | INTEGER_ID | RANGE_ID | DECIMAL_ID => true
  | _ => false
  end.

(** The types of a row after its ID, up to MISC: nine tabs, each
    followed by the field of its column. *)
Definition fields_after_id : list token_type :=
  [TAB; FORM; TAB; LEMMA; TAB; UPOS; TAB; XPOS; TAB; FEATS; TAB; HEAD;
   TAB; DEPREL; TAB; DEPS; TAB; MISC].

Definition same_type (a b : token_type) : bool := is_type a (mk_token b VNone 0 0).

Fixpoint same_types (l1 l2 : list token_type) : bool :=
  match l1, l2 with
  | [], [] => true
  | a :: l1', b :: l2' => same_type a b && same_types l1' l2'
  | _, _ => false
  end.

(** What a line may hold before its line feed: nothing, a comment, or an
    ID and the nine other fields, each after a tab. *)
Definition row_shape (row : list token_type) : bool :=
  match row with
  | [] => true
  | [COMMENT] => true
  | id :: fields => is_id_type id && same_types fields fields_after_id
  end.

(** Reading the tokens of a run line by line: whether every line closed
    by a NEWLINE token had the shape of a line, and the types of the
    tokens since the last NEWLINE token. *)
Definition close_rows (st : bool * list token_type) (tok : Tok.LexToken)
  : bool * list token_type :=
  match Tok.type tok with
  | NEWLINE => (fst st && row_shape (snd st), [])
  | ty => (fst st, (snd st ++ [ty])%list)
  end.

Definition rows_state (ts : list Tok.LexToken) : bool * list token_type :=
  fold_left close_rows ts (true, []).

Definition rows_complete (ts : list Tok.LexToken) : bool := fst (rows_state ts).
Definition open_row (ts : list Tok.LexToken) : list token_type :=
  snd (rows_state ts).

(** The open row that goes with each state. *)
Definition open_row_of (st : state) (row : list token_type) : Prop :=
  match st with
  | INITIAL => row = [] \/ row = [COMMENT]
  | v_ i =>
      exists id, is_id_type id = true
                 /\ row = id :: firstn (2 * i) fields_after_id
  | c_ i =>
      exists id, is_id_type id = true
                 /\ row = id :: firstn (2 * i - 1) fields_after_id
  end.

(* ================================================================== *)
(** * Properties *)

(** ** Text *)

Module PyFacts.
Import Py.

Lemma append_nil_r (s : string) : s ++ "" = s.
Proof. induction s as [|c s IH]; simpl; [reflexivity | now rewrite IH]. Qed.

Lemma append_assoc (a b c : string) : (a ++ b) ++ c = a ++ (b ++ c).
Proof. induction a as [|x a IH]; simpl; [reflexivity | now rewrite IH]. Qed.

Lemma length_append (a b : string) :
  String.length (a ++ b) = String.length a + String.length b.
Proof. induction a as [|x a IH]; simpl; [reflexivity | now rewrite IH]. Qed.

Lemma append_inv_head (a b c : string) : a ++ b = a ++ c -> b = c.
Proof.
  induction a as [|x a IH]; simpl; intros H; [exact H|].
  injection H as H. now apply IH.
Qed.

Lemma take_append (a b : string) : take (String.length a) (a ++ b) = a.
Proof. induction a as [|x a IH]; simpl; [now destruct b | now rewrite IH]. Qed.

Lemma drop_append (a b : string) : drop (String.length a) (a ++ b) = b.
Proof. induction a as [|x a IH]; simpl; [reflexivity | exact IH]. Qed.

Lemma drop_drop (n m : nat) (s : string) : drop n (drop m s) = drop (m + n) s.
Proof.
  revert s; induction m as [|m IH]; intros s; simpl; [reflexivity|].
  destruct s as [|c s]; [now destruct n | apply IH].
Qed.

Lemma length_drop (n : nat) (s : string) :
  String.length (drop n s) = String.length s - n.
Proof.
  revert s; induction n as [|n IH]; intros [|c s]; simpl; auto.
Qed.

Lemma length_take (n : nat) (s : string) :
  String.length (take n s) = Nat.min n (String.length s).
Proof.
  revert s; induction n as [|n IH]; intros [|c s]; simpl; auto.
Qed.

Lemma mem_append (c : ascii) (a b : string) :
  mem c (a ++ b) = mem c a || mem c b.
Proof.
  induction a as [|x a IH]; simpl; [reflexivity|].
  now rewrite IH, orb_assoc.
Qed.

Lemma all_chars_append (p : ascii -> bool) (a b : string) :
  all_chars p (a ++ b) = all_chars p a && all_chars p b.
Proof.
  induction a as [|x a IH]; simpl; [reflexivity|].
  now rewrite IH, andb_assoc.
Qed.

(** A text without the separator is a single piece. *)
Lemma split_no_sep (c : ascii) (s : string) :
  mem c s = false -> split c s = [s].
Proof.
  induction s as [|d s IH]; simpl; [reflexivity|].
  intros H. apply orb_false_iff in H as [Hd Hs].
  rewrite Hd, (IH Hs). reflexivity.
Qed.

(** The first piece ends at the first separator. *)
Lemma split_append_sep (c : ascii) (a b : string) :
  mem c a = false ->
  split c (a ++ String c b) = a :: split c b.
Proof.
  induction a as [|d a IH]; simpl; intros H.
  - now rewrite Ascii.eqb_refl.
  - apply orb_false_iff in H as [Hd Ha].
    rewrite Hd, (IH Ha). reflexivity.
Qed.

Lemma index_append_sep (c : ascii) (a b : string) :
  mem c a = false -> index c (a ++ String c b) = Some (String.length a).
Proof.
  induction a as [|d a IH]; simpl; intros H.
  - now rewrite Ascii.eqb_refl.
  - apply orb_false_iff in H as [Hd Ha].
    rewrite Hd, (IH Ha). reflexivity.
Qed.

End PyFacts.

(** ** Soundness of the matcher: what it returns is a word of the
    pattern followed by the text the continuation accepted *)

Module ReFacts.
Import Re PyFacts.

Section Sound.
Context {A : Type}.

Definition sound_body (r : regex)
           (body : string -> (string -> option A) -> option A) : Prop :=
  forall s k x, body s k = Some x ->
    exists u t, s = u ++ t /\ lang r u /\ k t = Some x.

Lemma star_loop_sound r body :
  sound_body r body -> forall fuel, sound_body (Star r) (fun s k => star_loop body fuel s k).
Proof.
  intros Hb fuel; induction fuel as [|fuel IH]; intros s k x H; simpl in H.
  - exists "", s. repeat split; [constructor | exact H].
  - destruct (body s _) as [y|] eqn:E.
    + injection H as ->. apply Hb in E as (u & t & -> & Hu & Hk).
      destruct (String.length t <? _); [|discriminate].
      apply IH in Hk as (u' & t' & -> & Hu' & Hk).
      exists (u ++ u'), t'. rewrite append_assoc.
      repeat split; [now constructor | exact Hk].
    + exists "", s. repeat split; [constructor | exact H].
Qed.

Lemma run_sound (r : regex) : sound_body r (run r).
Proof.
  induction r as [|p|a IHa b IHb|a IHa b IHb|a IHa]; intros s k x H; simpl in H.
  - exists "", s. repeat split; [constructor | exact H].
  - destruct s as [|c s]; [discriminate|].
    destruct (p c) eqn:E; [|discriminate].
    exists (String c ""), s. repeat split; [now constructor | exact H].
  - apply IHa in H as (u & t & -> & Hu & H).
    apply IHb in H as (v & t' & -> & Hv & H).
    exists (u ++ v), t'. rewrite append_assoc.
    repeat split; [now constructor | exact H].
  - destruct (run a s k) as [y|] eqn:E.
    + injection H as ->. apply IHa in E as (u & t & -> & Hu & Hk).
      exists u, t. repeat split; [now apply L_alt_l | exact Hk].
    + apply IHb in H as (u & t & -> & Hu & Hk).
      exists u, t. repeat split; [now apply L_alt_r | exact Hk].
  - exact (star_loop_sound a (run a) IHa _ s k x H).
Qed.
End Sound.

(** [re.match] returns a prefix of the text that is a word of the
    pattern. *)
Lemma rematch_sound (r : regex) (s lexeme rest : string) :
  rematch r s = Some (lexeme, rest) -> s = lexeme ++ rest /\ lang r lexeme.
Proof.
  unfold rematch. destruct (run r s Some) as [t|] eqn:E; [|discriminate].
  intros H. injection H as <- <-.
  apply run_sound in E as (u & t' & -> & Hu & Hk). injection Hk as ->.
  rewrite length_append, Nat.add_sub, take_append. now split.
Qed.

End ReFacts.

(* ================================================================== *)
(** ** The ID field *)

(** C5. In the INITIAL state, whatever the tag registry: the text "7"
    gives an INTEGER_ID token of value 7, "4-5" a RANGE_ID token of value
    (4, 5), "8.1" a DECIMAL_ID token of value (8, 1), each leaving the
    lexer in state v0; and in each case the rule that gives the token is
    the one of the three ID patterns with the longest match. *)
Theorem id_field_decoding (names : list string) :
  token names (input fresh "7")
    = Token (mk_token INTEGER_ID (VInt 7) 1 0) (after_id "7" 1)
  /\ token names (input fresh "4-5")
    = Token (mk_token RANGE_ID (VInts [4; 5]%Z) 1 0) (after_id "4-5" 3)
  /\ token names (input fresh "8.1")
    = Token (mk_token DECIMAL_ID (VInts [8; 1]%Z) 1 0) (after_id "8.1" 3)
  /\ (Re.rematch Pat.p_RANGE_ID "7" = None
      /\ Re.rematch Pat.p_DECIMAL_ID "7" = None
      /\ Re.rematch Pat.p_INTEGER_ID "7" = Some ("7", ""))
  /\ (Re.rematch Pat.p_RANGE_ID "4-5" = Some ("4-5", "")
      /\ Re.rematch Pat.p_DECIMAL_ID "4-5" = None
      /\ Re.rematch Pat.p_INTEGER_ID "4-5" = Some ("4", "-5"))
  /\ (Re.rematch Pat.p_RANGE_ID "8.1" = None
      /\ Re.rematch Pat.p_DECIMAL_ID "8.1" = Some ("8.1", "")
      /\ Re.rematch Pat.p_INTEGER_ID "8.1" = Some ("8", ".1")).
Proof.
  repeat split; vm_compute; reflexivity.
Qed.

(* ================================================================== *)
(** ** One call of [token] *)

Section TokenFacts.
Import PyFacts ReFacts.
Variable names : list string.

Lemma first_match_inv rs text r lexeme :
  first_match rs text = Some (r, lexeme) ->
  In r rs /\ exists rest, Re.rematch (r_pattern r) text = Some (lexeme, rest).
Proof.
  induction rs as [|r0 rs IH]; simpl; [discriminate|].
  destruct (Re.rematch (r_pattern r0) text) as [[l t]|] eqn:E.
  - intros H; injection H as <- <-. split; [now left | now exists t].
  - intros H. destruct (IH H) as [Hin Hex]. split; [now right | exact Hex].
Qed.

(** The rules of a state are rules of the builder. *)
Lemma lexstatere_all st r :
  In r (lexstatere names st) -> In r (all_rules names).
Proof.
  unfold all_rules. destruct st as [|i|i]; simpl.
  - intuition (subst; simpl; tauto).
  - destruct (i <=? 8); [|destruct (i =? 9)]; simpl; intuition (subst; simpl; tauto).
  - do 10 (try (destruct i as [|i]; simpl; [intuition (subst; simpl; tauto) |])).
    simpl; tauto.
Qed.

(** A rule is known by the type of its tokens. *)
Lemma rule_of_type r :
  In r (all_rules names) ->
  match r_type r with
  | NEWLINE => r = r_NEWLINE
  | TAB => r = r_TAB
  | COMMENT => r = r_COMMENT
  | INTEGER_ID => r = r_INTEGER_ID
  | RANGE_ID => r = r_RANGE_ID
  | DECIMAL_ID => r = r_DECIMAL_ID
  | FORM => r = r_FORM
  | LEMMA => r = r_LEMMA
  | UPOS => r = r_UPOS names
  | XPOS => r = r_XPOS
  | FEATS => r = r_FEATS
  | HEAD => r = r_HEAD
  | DEPREL => r = r_DEPREL
  | DEPS => r = r_DEPS
  | MISC => r = r_MISC
  end.
Proof.
  unfold all_rules; simpl.
  intros H; repeat (destruct H as [<- | H]; [reflexivity|]); destruct H.
Qed.

(** No rule moves the cursor or changes the text. *)
Lemma begin_frame st lx lx' :
  begin st lx = Ok lx' ->
  lexdata lx' = lexdata lx /\ lexpos lx' = lexpos lx /\ lineno lx' = lineno lx
  /\ _tab_count lx' = _tab_count lx /\ lexstate lx' = st /\ declared st = true.
Proof.
  unfold begin. destruct (declared st); [|discriminate].
  intros H; injection H as <-. simpl. tauto.
Qed.

Lemma action_frame r s lx v lx' :
  In r (all_rules names) -> r_action r s lx = Ok (v, lx') ->
  lexdata lx' = lexdata lx /\ lexpos lx' = lexpos lx.
Proof.
  unfold all_rules; simpl.
  intros H; repeat (destruct H as [<- | H]); try destruct H; simpl;
    unfold t_v0_v1_v2_v3_v4_v5_v6_v7_v8_TAB, t_COMMENT, t_RANGE_ID,
      t_DECIMAL_ID, t_INTEGER_ID, t_c1_FORM, t_c2_LEMMA, t_c3_UPOS,
      t_c4_XPOS, t_c5_FEATS, t_c6_HEAD, t_c7_DEPREL, t_c8_DEPS, t_c9_MISC,
      t_INITIAL_v9_NEWLINE, bind;
    intros E;
    repeat match type of E with
           | match ?x with _ => _ end = _ => destruct x eqn:?; try discriminate
           end;
    injection E as <- <-;
    match goal with
    | B : begin _ _ = Ok _ |- _ => apply begin_frame in B; simpl in B; tauto
    | _ => tauto
    end.
Qed.

(** What a successful call of [token] did: a rule of the current state
    matched [lexeme] at the cursor, and its function gave the value and
    the next lexer. *)
Lemma token_inv lx tok lx' :
  token names lx = Token tok lx' ->
  exists r lexeme rest v,
    lexpos lx < String.length (lexdata lx)
    /\ In r (lexstatere names (lexstate lx))
    /\ Re.rematch (r_pattern r) (Py.drop (lexpos lx) (lexdata lx))
       = Some (lexeme, rest)
    /\ r_action r lexeme (set_lexpos lx (lexpos lx + String.length lexeme))
       = Ok (v, lx')
    /\ tok = mk_token (r_type r) v (lineno lx) (lexpos lx).
Proof.
  unfold token. destruct (lexpos lx <? _) eqn:Hlt; [|discriminate].
  apply Nat.ltb_lt in Hlt.
  destruct (first_match _ _) as [[r lexeme]|] eqn:Hfm; [|discriminate].
  apply first_match_inv in Hfm as [Hin [rest Hm]].
  destruct (r_action r lexeme _) as [[v lx1]|e] eqn:Ha; [|discriminate].
  intros H; injection H as <- <-.
  exists r, lexeme, rest, v. repeat split; assumption.
Qed.

(** The cursor moves by the length of the token's text, which the
    token's offset and the new cursor delimit. *)
Lemma token_span lx tok lx' :
  token names lx = Token tok lx' ->
  lexdata lx' = lexdata lx
  /\ Tok.lexpos tok = lexpos lx
  /\ Tok.lineno tok = lineno lx
  /\ lexpos lx' = lexpos lx + String.length (lexeme_of tok lx')
  /\ Py.drop (lexpos lx) (lexdata lx)
     = lexeme_of tok lx' ++ Py.drop (lexpos lx') (lexdata lx)
  /\ exists r rest,
       In r (all_rules names) /\ r_type r = Tok.type tok
       /\ Re.rematch (r_pattern r) (Py.drop (lexpos lx) (lexdata lx))
          = Some (lexeme_of tok lx', rest)
       /\ In r (lexstatere names (lexstate lx))
       /\ r_action r (lexeme_of tok lx')
            (set_lexpos lx (lexpos lx + String.length (lexeme_of tok lx')))
          = Ok (Tok.value tok, lx').
Proof.
  intros H. apply token_inv in H as (r & lexeme & rest & v & Hlt & Hin & Hm & Ha & ->).
  pose proof (lexstatere_all _ _ Hin) as Hall.
  destruct (action_frame _ _ _ _ _ Hall Ha) as [Hd Hp]. simpl in Hd, Hp.
  destruct (rematch_sound _ _ _ _ Hm) as [Hs Hl].
  assert (Hlex : lexeme_of (mk_token (r_type r) v (lineno lx) (lexpos lx)) lx' = lexeme).
  { unfold lexeme_of; simpl. rewrite Hd, Hp, Hs.
    replace (lexpos lx + String.length lexeme - lexpos lx) with (String.length lexeme) by lia.
    apply take_append. }
  rewrite Hlex. simpl. repeat split; try assumption.
  - rewrite Hp, <- drop_drop, Hs, drop_append. reflexivity.
  - exists r, rest. repeat split; assumption.
Qed.

End TokenFacts.

(* ================================================================== *)
(** ** Nullable and verbatim fields *)

(** C4. The text "_" decodes to [None] under the rules of UPOS, XPOS,
    FEATS, HEAD, DEPREL, DEPS and MISC, and every token of one of these
    types whose text is "_" has the value [None]; every FORM or LEMMA
    token has its text as value, verbatim, so that a FORM or LEMMA
    field "_" keeps the string "_". The row of nine "_" fields shows all
    nine cases at once. *)
Theorem underscore_decoding (names : list string) :
  (v_nullable_str "_" = Ok VNone /\ v_FEATS "_" = Ok VNone
   /\ v_HEAD "_" = Ok VNone /\ v_DEPS "_" = Ok VNone)
  /\ (forall lx tok lx',
        token names lx = Token tok lx' ->
        (nullable_type (Tok.type tok) = true ->
         lexeme_of tok lx' = "_" -> Tok.value tok = VNone)
        /\ (verbatim_type (Tok.type tok) = true ->
            Tok.value tok = VStr (lexeme_of tok lx')))
  /\ option_map (fun r => (summary (fst r), snd r))
       (tokenize ud_upos_names underscore_row)
     = Some ([(INTEGER_ID, VInt 1); (TAB, VStr T);
              (FORM, VStr "_"); (TAB, VStr T);
              (LEMMA, VStr "_"); (TAB, VStr T);
              (UPOS, VNone); (TAB, VStr T);
              (XPOS, VNone); (TAB, VStr T);
              (FEATS, VNone); (TAB, VStr T);
              (HEAD, VNone); (TAB, VStr T);
              (DEPREL, VNone); (TAB, VStr T);
              (DEPS, VNone); (TAB, VStr T);
              (MISC, VNone); (NEWLINE, VStr NL)], Exhausted).
Proof.
  split; [repeat split; reflexivity|].
  split; [|vm_compute; reflexivity].
  intros lx tok lx' H.
  apply token_span in H
    as (_ & _ & _ & _ & _ & r & rest & Hin & Hty & _ & _ & Ha).
  pose proof (rule_of_type names r Hin) as Hr. rewrite Hty in Hr.
  split.
  - intros Hn Hl. rewrite Hl in Ha.
    destruct (Tok.type tok); try discriminate; subst r; simpl in Ha;
      unfold t_c3_UPOS, t_c4_XPOS, t_c5_FEATS, t_c6_HEAD, t_c7_DEPREL,
        t_c8_DEPS, t_c9_MISC in Ha; simpl in Ha;
      unfold bind in Ha; simpl in Ha; now injection Ha as <- _.
  - intros Hv.
    destruct (Tok.type tok); try discriminate; subst r; simpl in Ha;
      unfold t_c1_FORM, t_c2_LEMMA, bind in Ha; simpl in Ha;
      now injection Ha as <- _.
Qed.

(** The statement at the FORM and XPOS fields of the row of "_" fields. *)
Lemma underscore_decoding_witness :
  Tok.value (mk_token FORM (VStr "_") 1 2) = VStr "_"
  /\ Tok.value (mk_token XPOS VNone 1 8) = VNone.
Proof.
  destruct (underscore_decoding ud_upos_names) as (_ & H & _).
  split.
  - apply (H {| lexdata := underscore_row; lexpos := 2; lineno := 1;
                lexstate := c_ 1; _tab_count := 1 |}
             (mk_token FORM (VStr "_") 1 2)
             {| lexdata := underscore_row; lexpos := 3; lineno := 1;
                lexstate := v_ 1; _tab_count := 1 |});
      vm_compute; reflexivity.
  - apply (H {| lexdata := underscore_row; lexpos := 8; lineno := 1;
                lexstate := c_ 4; _tab_count := 4 |}
             (mk_token XPOS VNone 1 8)
             {| lexdata := underscore_row; lexpos := 9; lineno := 1;
                lexstate := v_ 4; _tab_count := 4 |});
      vm_compute; reflexivity.
Defined.

(* ================================================================== *)
(** ** Words of the patterns *)

Module PatFacts.
Import Py PyFacts Re ReFacts Pat.

(** The characters of a word come from the classes of its pattern. *)
Lemma lang_within (q : ascii -> bool) (r : regex) (u : string) :
  classes_within q r -> lang r u -> all_chars q u = true.
Proof.
  intros Hq Hl; induction Hl; simpl in *; try tauto.
  - now rewrite (Hq c H).
  - rewrite all_chars_append, IHHl1, IHHl2; tauto.
  - rewrite all_chars_append, IHHl1, IHHl2; tauto.
Qed.

Lemma all_chars_not_mem (x : ascii) (u : string) :
  all_chars (fun c => negb (Ascii.eqb c x)) u = true -> mem x u = false.
Proof.
  induction u as [|c u IH]; simpl; [reflexivity|].
  intros H. apply andb_true_iff in H as [Hc Hu].
  apply negb_true_iff in Hc. now rewrite Hc, IH.
Qed.

Lemma all_chars_impl (p q : ascii -> bool) (u : string) :
  (forall c, p c = true -> q c = true) ->
  all_chars p u = true -> all_chars q u = true.
Proof.
  intros Hpq; induction u as [|c u IH]; simpl; [reflexivity|].
  intros H. apply andb_true_iff in H as [Hc Hu].
  now rewrite (Hpq c Hc), IH.
Qed.

(** A word of the pattern holds no [x] when no class of the pattern
    does. *)
Lemma lang_avoids (x : ascii) (r : regex) (u : string) :
  classes_within (fun c => negb (Ascii.eqb c x)) r -> lang r u -> mem x u = false.
Proof. intros Hq Hl. apply all_chars_not_mem. exact (lang_within _ r u Hq Hl). Qed.

(** Greedy repetition of a class at the end of a pattern takes the whole
    run of characters of the class. *)
Lemma star_cls_run (p : ascii -> bool) (w rest : string) (fuel : nat) :
  String.length (w ++ rest) <= fuel ->
  all_chars p w = true ->
  match rest with "" => True | String c _ => p c = false end ->
  star_loop (run (Cls p)) fuel (w ++ rest) Some = Some rest.
Proof.
  revert fuel; induction w as [|c w IH]; intros fuel Hf Hw Hr; simpl in *.
  - destruct fuel as [|fuel]; simpl; [reflexivity|].
    destruct rest as [|d rest]; [reflexivity | now rewrite Hr].
  - destruct fuel as [|fuel]; [lia|]. simpl.
    apply andb_true_iff in Hw as [Hc Hw]. rewrite Hc.
    destruct (String.length (w ++ rest) <? S (String.length (w ++ rest))) eqn:E;
      [|apply Nat.ltb_ge in E; lia].
    rewrite IH; [reflexivity | lia | assumption | assumption].
Qed.

Lemma rematch_plus_cls (p : ascii -> bool) (w rest : string) :
  w <> "" -> all_chars p w = true ->
  match rest with "" => True | String c _ => p c = false end ->
  rematch (Plus (Cls p)) (w ++ rest) = Some (w, rest).
Proof.
  intros Hne Hw Hr. destruct w as [|c w]; [congruence|].
  simpl in Hw. apply andb_true_iff in Hw as [Hc Hw].
  unfold rematch, Plus.
  change (run (Cat (Cls p) (Star (Cls p))) (String c w ++ rest) Some)
    with (if p c
          then star_loop (run (Cls p)) (String.length (w ++ rest)) (w ++ rest) Some
          else None).
  rewrite Hc, (star_cls_run p w rest _ (Nat.le_refl _) Hw Hr).
  f_equal. f_equal.
  change (String c (w ++ rest)) with (String c w ++ rest).
  rewrite length_append, Nat.add_sub. apply take_append.
Qed.

Lemma rematch_plus_cls_none (p : ascii -> bool) (s : string) :
  match s with "" => True | String c _ => p c = false end ->
  rematch (Plus (Cls p)) s = None.
Proof.
  unfold rematch, Plus. destruct s as [|c s]; simpl; [reflexivity|].
  now intros ->.
Qed.

Lemma rematch_chr_none (x : ascii) (s : string) :
  match s with "" => True | String c _ => c <> x end ->
  rematch (Chr x) s = None.
Proof.
  unfold rematch, Chr. destruct s as [|c s]; simpl; [reflexivity|].
  intros H. destruct (Ascii.eqb x c) eqn:E; [|reflexivity].
  apply Ascii.eqb_eq in E. congruence.
Qed.

Lemma drop_lt (n : nat) (s : string) (c : ascii) (r : string) :
  drop n s = String c r -> n < String.length s.
Proof.
  intros H. assert (L := length_drop n s). rewrite H in L. simpl in L. lia.
Qed.

Lemma no_space_within : classes_within (fun c => negb (Ascii.eqb c sp)) (Plus (Cls not_nl_tab_sp)).
Proof.
  assert (H : forall c, not_nl_tab_sp c = true -> negb (Ascii.eqb c sp) = true).
  { intros c. unfold not_nl_tab_sp. rewrite !negb_orb. intros H.
    apply andb_true_iff in H as [_ H]. exact H. }
  simpl. tauto.
Qed.

End PatFacts.

(* ================================================================== *)
(** ** Spaces inside fields *)

Section Fields.
Import Py PyFacts Re ReFacts Pat PatFacts.
Variable names : list string.

(** [token] in a state that has a single rule. *)
Lemma token_single (lx : Lexer) (r : rule) (text : string) :
  lexstatere names (lexstate lx) = [r] ->
  text_at lx = text -> text <> "" ->
  token names lx
  = match rematch (r_pattern r) text with
    | Some (lexeme, _) =>
        match r_action r lexeme
                (set_lexpos lx (lexpos lx + String.length lexeme)) with
        | Ok (v, lx') =>
            Token (mk_token (r_type r) v (lineno lx) (lexpos lx)) lx'
        | Raise e => Raised e
        end
    | None => Raised (t_ANY_error text (lexpos lx) lx)
    end.
Proof.
  intros Hr Ht Hne. unfold token. unfold text_at in Ht.
  destruct text as [|c text]; [congruence|].
  pose proof (drop_lt _ _ _ _ Ht) as Hlt. apply Nat.ltb_lt in Hlt.
  rewrite Hlt, Hr, Ht. simpl.
  destruct (rematch (r_pattern r) (String c text)) as [[l t]|]; reflexivity.
Qed.

Lemma text_at_moved (lx : Lexer) (w rest : string) (st : state) :
  text_at lx = w ++ rest ->
  text_at (moved lx (lexpos lx + String.length w) st) = rest.
Proof.
  unfold text_at; simpl. intros H.
  now rewrite <- drop_drop, H, drop_append.
Qed.

(** C9. The text of an XPOS, DEPREL or MISC token never holds a space;
    when such a field holds one, after a possibly empty run [w] of
    characters other than line feed, tab and space, the lexer gives the
    token of [w] (when [w] is not empty) and then raises
    IllegalCharacterError at the offset of the space, quoting the space.
    In the FORM and LEMMA columns any non-empty run of characters other
    than tab and line feed, spaces included, that ends the field is the
    token, and its value is that text verbatim. *)
Theorem spaces_in_fields :
  (forall lx tok lx',
      token names lx = Token tok lx' ->
      spaceless_type (Tok.type tok) = true ->
      mem sp (lexeme_of tok lx') = false)
  /\ (forall lx i ty w rest,
        i = 4 \/ i = 7 \/ i = 9 ->
        field_type i = Some ty ->
        lexstate lx = c_ i ->
        text_at lx = w ++ String sp rest ->
        all_chars not_nl_tab_sp w = true ->
        let at_space := lexpos lx + String.length w in
        let err := IllegalCharacterError (lineno lx)
                     (find_column (lexdata lx) at_space) sp in
        match w with
        | "" => token names lx = Raised err
        | _ =>
            token names lx
            = Token (mk_token ty (if String.eqb w "_" then VNone else VStr w)
                       (lineno lx) (lexpos lx))
                (moved lx at_space (v_ i))
            /\ token names (moved lx at_space (v_ i)) = Raised err
        end)
  /\ (forall lx i ty w rest,
        i = 1 \/ i = 2 ->
        field_type i = Some ty ->
        lexstate lx = c_ i ->
        text_at lx = w ++ rest ->
        w <> "" ->
        all_chars not_nl_tab w = true ->
        at_field_end rest ->
        token names lx
        = Token (mk_token ty (VStr w) (lineno lx) (lexpos lx))
            (moved lx (lexpos lx + String.length w) (v_ i))).
Proof.
  split; [|split].
  - intros lx tok lx' H Hty.
    apply token_span in H
      as (_ & _ & _ & _ & _ & r & rest & Hin & Hr & Hm & _ & _).
    pose proof (rule_of_type names r Hin) as Hrule. rewrite Hr in Hrule.
    apply rematch_sound in Hm as [_ Hl].
    destruct (Tok.type tok); try discriminate; subst r;
      exact (lang_avoids sp _ _ no_space_within Hl).
  - intros lx i ty w rest Hi Hty Hst Htext Hw at_space err.
    assert (Hsp : not_nl_tab_sp sp = false) by reflexivity.
    destruct w as [|c w].
    + subst at_space err. rewrite Nat.add_0_r. simpl in Htext.
      destruct Hi as [-> | [-> | ->]];
        (rewrite (token_single lx _ _ ltac:(rewrite Hst; reflexivity) Htext ltac:(discriminate));
         simpl r_pattern; unfold p_XPOS, p_DEPREL, p_MISC;
         rewrite (rematch_plus_cls_none not_nl_tab_sp (String sp rest) Hsp);
         reflexivity).
    + assert (Hm : rematch (Plus (Cls not_nl_tab_sp)) (String c w ++ String sp rest)
                   = Some (String c w, String sp rest)).
      { apply rematch_plus_cls; [discriminate | exact Hw | exact Hsp]. }
      assert (Hne : String c w ++ String sp rest <> "") by discriminate.
      assert (Hfield : forall r st r',
                 lexstatere names (lexstate lx) = [r] ->
                 r_pattern r = Plus (Cls not_nl_tab_sp) ->
                 r_action r (String c w) (set_lexpos lx at_space)
                 = (v <- v_nullable_str (String c w) ;;
                    lx1 <- begin st (set_lexpos lx at_space) ;; Ok (v, lx1)) ->
                 declared st = true ->
                 lexstatere names st = [r'] ->
                 (r_pattern r' = Chr tab \/ r_pattern r' = Chr nl) ->
                 token names lx
                 = Token (mk_token (r_type r)
                            (if String.eqb (String c w) "_" then VNone
                             else VStr (String c w)) (lineno lx) (lexpos lx))
                     (moved lx at_space st)
                 /\ token names (moved lx at_space st) = Raised err).
      { intros r st r' Hr Hp Ha Hd Hr' Hp'. split.
        - rewrite (token_single lx r _ Hr Htext Hne), Hp, Hm.
          fold at_space. rewrite Ha.
          unfold v_nullable_str, unless_underscore, begin. rewrite Hd.
          destruct (String.eqb (String c w) "_"); reflexivity.
        - pose proof (text_at_moved lx _ _ st Htext) as Hnext.
          fold at_space in Hnext.
          rewrite (token_single (moved lx at_space st) r' _ Hr' Hnext ltac:(discriminate)).
          destruct Hp' as [-> | ->];
            rewrite rematch_chr_none by (simpl; discriminate); reflexivity. }
      destruct Hi as [-> | [-> | ->]]; injection Hty as <-.
      * apply (Hfield r_XPOS (v_ 4) r_TAB); try reflexivity;
          [rewrite Hst; reflexivity | now left].
      * apply (Hfield r_DEPREL (v_ 7) r_TAB); try reflexivity;
          [rewrite Hst; reflexivity | now left].
      * apply (Hfield r_MISC (v_ 9) r_NEWLINE); try reflexivity;
          [rewrite Hst; reflexivity | now right].
  - intros lx i ty w rest Hi Hty Hst Htext Hne Hw Hend.
    assert (Hm : rematch (Plus (Cls not_nl_tab)) (w ++ rest) = Some (w, rest)).
    { apply rematch_plus_cls; [exact Hne | exact Hw |].
      destruct rest as [|d rest]; [exact I|].
      simpl in Hend. destruct Hend as [-> | ->]; reflexivity. }
    assert (Hne' : w ++ rest <> "") by (destruct w; [congruence | discriminate]).
    destruct Hi as [-> | ->]; injection Hty as <-;
      rewrite (token_single lx _ _ ltac:(rewrite Hst; reflexivity) Htext Hne');
      simpl r_pattern; unfold p_FORM, p_LEMMA; rewrite Hm; reflexivity.
Qed.

End Fields.

(** The statement on a row "1 / New York / New York / PROPN / N N / ...":
    FORM takes "New York" whole, XPOS takes "N" and the space after it
    is refused, at column 28 of line 1. *)
Lemma spaces_in_fields_witness :
  token ud_upos_names (at_field spaced_row 2 1)
  = Token (mk_token FORM (VStr "New York") 1 2)
      (moved (at_field spaced_row 2 1) 10 (v_ 1))
  /\ (token ud_upos_names (at_field spaced_row 26 4)
      = Token (mk_token XPOS (VStr "N") 1 26)
          (moved (at_field spaced_row 26 4) 27 (v_ 4))
      /\ token ud_upos_names (moved (at_field spaced_row 26 4) 27 (v_ 4))
         = Raised (IllegalCharacterError 1 28 Py.sp))
  /\ Py.mem Py.sp
       (lexeme_of (mk_token XPOS (VStr "N") 1 26)
          (moved (at_field spaced_row 26 4) 27 (v_ 4))) = false.
Proof.
  destruct (spaces_in_fields ud_upos_names) as (H1 & H2 & H3).
  split; [|split].
  - apply (H3 (at_field spaced_row 2 1) 1 FORM "New York"
              (Py.drop 10 spaced_row));
      try reflexivity; [now left | discriminate | simpl; now left].
  - apply (H2 (at_field spaced_row 26 4) 4 XPOS "N" (Py.drop 28 spaced_row));
      try reflexivity; now left.
  - apply (H1 (at_field spaced_row 26 4) _ _); [|reflexivity].
    vm_compute; reflexivity.
Defined.

(* ================================================================== *)
(** ** The tab counter and the column states *)

Section Columns.
Import Py PyFacts Re ReFacts Pat PatFacts.
Variable names : list string.

Lemma bind_ok {A B : Type} (m : result A) (f : A -> result B) (b : B) :
  bind m f = Ok b -> exists a, m = Ok a /\ f a = Ok b.
Proof. destruct m as [a|e]; simpl; [now exists a | discriminate]. Qed.

(** The shape shared by the rules of the ID and of the nullable fields:
    compute the value, then [begin]. *)
Lemma field_action_ok (d : result value) (st : state) (lx : Lexer) v lx' :
  (x <- d ;; lx1 <- begin st lx ;; Ok (x, lx1)) = Ok (v, lx') ->
  d = Ok v /\ lx' = moved lx (lexpos lx) st /\ declared st = true.
Proof.
  intros H. apply bind_ok in H as (x & Hd & H).
  apply bind_ok in H as (lx1 & Hb & H). injection H as <- <-.
  unfold begin in Hb. destruct (declared st); [|discriminate].
  injection Hb as <-. now repeat split.
Qed.

Lemma tabs_in_row_snoc (ts : list Tok.LexToken) (tok : Tok.LexToken) :
  tabs_in_row (ts ++ [tok]) = count_tab (tabs_in_row ts) tok.
Proof. unfold tabs_in_row. now rewrite fold_left_app. Qed.

(** One token keeps state and counter in step, and the counter follows
    the token's type. *)
Lemma token_consistent (lx : Lexer) tok lx' :
  consistent lx -> token names lx = Token tok lx' ->
  consistent lx'
  /\ _tab_count lx' = count_tab (_tab_count lx) tok
  /\ (Tok.type tok = NEWLINE -> lexstate lx' = INITIAL)
  /\ (Tok.type tok = TAB -> lexstate lx' = c_ (S (_tab_count lx)))
  /\ (forall i, lexstate lx = c_ i -> field_type i = Some (Tok.type tok)).
Proof.
  intros Hc H.
  apply token_inv in H as (r & lexeme & rest & v & _ & Hin & _ & Ha & ->).
  unfold consistent in *. unfold count_tab. simpl Tok.type.
  destruct (lexstate lx) as [|i|i] eqn:Hst; simpl in Hin.
  - (* INITIAL *)
    destruct Hin as [<- | [<- | [<- | [<- | [<- | []]]]]]; simpl in Ha |- *.
    + unfold t_COMMENT in Ha. apply bind_ok in Ha as (x & _ & Ha).
      injection Ha as <- <-. simpl. rewrite Hst.
      repeat split; try discriminate; assumption.
    + apply field_action_ok in Ha as (_ & -> & _); simpl.
      repeat split; try discriminate; try lia; assumption.
    + apply field_action_ok in Ha as (_ & -> & _); simpl.
      repeat split; try discriminate; try lia; assumption.
    + apply field_action_ok in Ha as (_ & -> & _); simpl.
      repeat split; try discriminate; try lia; assumption.
    + unfold t_INITIAL_v9_NEWLINE in Ha. simpl in Ha.
      injection Ha as <- <-. simpl. repeat split; discriminate.
  - (* v_ i *)
    destruct Hc as [Htc Hi].
    destruct (i <=? 8) eqn:E8; [|destruct (i =? 9) eqn:E9].
    + apply Nat.leb_le in E8. destruct Hin as [<- | []].
      unfold r_TAB, r_action, t_v0_v1_v2_v3_v4_v5_v6_v7_v8_TAB in Ha.
      apply bind_ok in Ha as (lx2 & Hb & Ha). injection Ha as <- <-.
      apply begin_frame in Hb as (_ & _ & _ & Ht & Hs & _).
      simpl in Ht, Hs. rewrite Hs, Ht. simpl.
      repeat split; try discriminate; try lia.
      now rewrite Nat.add_1_r.
    + destruct Hin as [<- | []].
      unfold t_INITIAL_v9_NEWLINE in Ha. simpl in Ha.
      injection Ha as <- <-. simpl. repeat split; discriminate.
    + destruct Hin.
  - (* c_ i *)
    destruct Hc as [Htc Hi].
    do 10 (try destruct i as [|i]); try (simpl in Hin; lia || tauto);
      simpl in Hin; destruct Hin as [<- | []]; simpl in Ha |- *;
      unfold t_c1_FORM, t_c2_LEMMA, t_c3_UPOS, t_c4_XPOS, t_c5_FEATS,
        t_c6_HEAD, t_c7_DEPREL, t_c8_DEPS, t_c9_MISC in Ha;
      try (apply field_action_ok in Ha as (_ & -> & _));
      try (apply bind_ok in Ha as (lx1 & Hb & Ha); injection Ha as <- <-;
           apply begin_frame in Hb as (_ & _ & _ & Ht & Hs & _);
           simpl in Ht, Hs; rewrite Hs, Ht);
      simpl; repeat split; try discriminate; try lia; try assumption;
      intros j Hj; injection Hj as <-; reflexivity.
Qed.

(** Along any run, the counter is the number of TAB tokens of the
    current row, and state and counter agree. *)
Lemma reach_consistent (data : string) ts lx :
  reach names data ts lx ->
  consistent lx /\ _tab_count lx = tabs_in_row ts /\ lexdata lx = data.
Proof.
  induction 1 as [|ts lx tok lx' Hr [Hc [Ht Hd]] Htok].
  - repeat split.
  - destruct (token_consistent lx tok lx' Hc Htok) as (Hc' & Ht' & _).
    apply token_span in Htok as (Hd' & _).
    repeat split; [assumption | | congruence].
    now rewrite tabs_in_row_snoc, <- Ht.
Qed.

(** [steps] builds runs. *)
Lemma reach_steps (data : string) (n : nat) ts0 lx ts lx' :
  reach names data ts0 lx -> steps names n lx = Some (ts, lx') ->
  reach names data (ts0 ++ ts)%list lx'.
Proof.
  revert ts0 lx ts; induction n as [|n IH]; intros ts0 lx ts Hr; simpl.
  - intros H; injection H as <- <-. now rewrite app_nil_r.
  - destruct (token names lx) as [tok lx1| |] eqn:E; try discriminate.
    destruct (steps names n lx1) as [[ts1 lx2]|] eqn:E1; [|discriminate].
    intros H; injection H as <- <-.
    replace (ts0 ++ tok :: ts1)%list with ((ts0 ++ [tok]) ++ ts1)%list
      by now rewrite <- app_assoc.
    apply (IH _ lx1); [|exact E1]. now apply reach_token with lx.
Qed.

End Columns.

(** C1. For every input and every lexer reached on it: the tab counter
    is the number of TAB tokens since the last NEWLINE token; a NEWLINE
    token leaves the counter at 0 (and the lexer in INITIAL); the TAB
    token that is the i-th of its row has 1 <= i <= 9 and leaves the
    lexer in state c_i, where the next token, if there is one, has the
    type of column i; and when nine tabs have been read in the row, a
    tab at the cursor raises IllegalCharacterError there. *)
Theorem tab_counter (names : list string) (data : string)
        (ts : list Tok.LexToken) (lx : Lexer) :
  reach names data ts lx ->
  _tab_count lx = tabs_in_row ts
  /\ (forall tok lx',
        token names lx = Token tok lx' -> Tok.type tok = NEWLINE ->
        _tab_count lx' = 0 /\ tabs_in_row (ts ++ [tok]) = 0
        /\ lexstate lx' = INITIAL)
  /\ (forall tok lx',
        token names lx = Token tok lx' -> Tok.type tok = TAB ->
        let i := tabs_in_row (ts ++ [tok]) in
        i = S (tabs_in_row ts) /\ 1 <= i <= 9
        /\ _tab_count lx' = i /\ lexstate lx' = c_ i
        /\ forall tok2 lx2,
             token names lx' = Token tok2 lx2 ->
             field_type i = Some (Tok.type tok2))
  /\ (forall rest,
        tabs_in_row ts = 9 -> text_at lx = String Py.tab rest ->
        token names lx
        = Raised (IllegalCharacterError (lineno lx)
                    (find_column (lexdata lx) (lexpos lx)) Py.tab)).
Proof.
  intros Hr. destruct (reach_consistent names data ts lx Hr) as (Hc & Ht & _).
  split; [exact Ht|]. split; [|split].
  - intros tok lx' Htok Hty.
    destruct (token_consistent names lx tok lx' Hc Htok) as (_ & Ht' & Hn & _).
    rewrite tabs_in_row_snoc. unfold count_tab in *. rewrite Hty in *.
    repeat split; [exact Ht' | exact (Hn eq_refl)].
  - intros tok lx' Htok Hty i.
    destruct (token_consistent names lx tok lx' Hc Htok) as (Hc' & Ht' & _ & Hs & _).
    specialize (Hs Hty).
    assert (Hi : i = S (tabs_in_row ts)).
    { subst i. rewrite tabs_in_row_snoc. unfold count_tab. now rewrite Hty. }
    rewrite Ht, <- Hi in Hs.
    unfold consistent in Hc'. rewrite Hs in Hc'. destruct Hc' as [Htc Hrange].
    repeat split; try assumption; try lia.
    intros tok2 lx2 Htok2.
    assert (Hc2 : consistent lx') by (unfold consistent; now rewrite Hs).
    destruct (token_consistent names lx' tok2 lx2 Hc2 Htok2) as (_ & _ & _ & _ & Hf).
    exact (Hf i Hs).
  - intros rest H9 Htext.
    rewrite <- Ht in H9. unfold consistent in Hc.
    destruct (lexstate lx) as [|i|i] eqn:Hst.
    + congruence.
    + destruct Hc as [Hi _]. rewrite H9 in Hi. subst i.
      assert (Hrules : lexstatere names (lexstate lx) = [r_NEWLINE])
        by (rewrite Hst; reflexivity).
      rewrite (token_single names lx r_NEWLINE _ Hrules Htext
                 ltac:(discriminate)).
      simpl r_pattern. unfold Pat.p_NEWLINE.
      rewrite PatFacts.rematch_chr_none by (simpl; discriminate). reflexivity.
    + destruct Hc as [Hi _]. rewrite H9 in Hi. subst i.
      assert (Hrules : lexstatere names (lexstate lx) = [r_MISC])
        by (rewrite Hst; reflexivity).
      rewrite (token_single names lx r_MISC _ Hrules Htext
                 ltac:(discriminate)).
      simpl r_pattern. unfold Pat.p_MISC.
      rewrite PatFacts.rematch_plus_cls_none by reflexivity. reflexivity.
Qed.

(** The statement on a row with a tenth tab: after the ID the first TAB
    token leads to c1, and after nineteen tokens (nine of them TAB) the
    tab at the cursor is refused, at column 20 of line 1. *)
Lemma tab_counter_witness :
  (1 = 1 /\ 1 <= 1 <= 9
   /\ _tab_count (at_field ten_tabs_row 2 1) = 1
   /\ lexstate (at_field ten_tabs_row 2 1) = c_ 1)
  /\ (exists ts lx,
        steps ud_upos_names 19 (input fresh ten_tabs_row) = Some (ts, lx)
        /\ tabs_in_row ts = 9
        /\ token ud_upos_names lx
           = Raised (IllegalCharacterError 1 20 Py.tab)).
Proof.
  split.
  - assert (R : reach ud_upos_names ten_tabs_row
                  ([] ++ [mk_token INTEGER_ID (VInt 1) 1 0])
                  (after_id ten_tabs_row 1)).
    { apply (reach_steps ud_upos_names ten_tabs_row 1 [] _ _ _
               (reach_input _ _)). reflexivity. }
    destruct (tab_counter _ _ _ _ R) as (_ & _ & H & _).
    destruct (H (mk_token TAB (VStr T) 1 1) (at_field ten_tabs_row 2 1)
                eq_refl eq_refl) as (H1 & H2 & H3 & H4 & _).
    exact (conj H1 (conj H2 (conj H3 H4))).
  - destruct (steps ud_upos_names 19 (input fresh ten_tabs_row))
      as [[ts lx]|] eqn:E; [|vm_compute in E; discriminate].
    exists ts, lx. split; [reflexivity|].
    pose proof (reach_steps ud_upos_names ten_tabs_row 19 [] _ _ _
                  (reach_input _ _) E) as R.
    vm_compute in E. injection E as <- <-.
    split; [reflexivity|].
    destruct (tab_counter _ _ _ _ R) as (_ & _ & _ & H).
    exact (H (Py.drop 20 ten_tabs_row) eq_refl eq_refl).
Defined.

(* ================================================================== *)
(** ** Numerals *)

Module IntFacts.
Import Py PyFacts Re ReFacts Pat PatFacts.

Lemma lang_cls_inv p u : lang (Cls p) u -> exists c, u = String c "" /\ p c = true.
Proof. inversion 1; subst. now exists c. Qed.

Lemma lang_cat_inv a b u :
  lang (Cat a b) u -> exists v w, u = v ++ w /\ lang a v /\ lang b w.
Proof. inversion 1; subst. now exists u0, v. Qed.

Lemma lang_alt_inv a b u : lang (Alt a b) u -> lang a u \/ lang b u.
Proof. inversion 1; subst; tauto. Qed.

Lemma lang_chr_inv x u : lang (Chr x) u -> u = String x "".
Proof.
  intros H. apply lang_cls_inv in H as (c & -> & Hc).
  apply Ascii.eqb_eq in Hc. now subst.
Qed.

(** The words of a repeated pattern are sequences of its words. *)
Lemma lang_star_inv a u :
  lang (Star a) u -> exists us, Forall (lang a) us /\ u = String.concat "" us.
Proof.
  intros H. remember (Star a) as r eqn:E. induction H; try discriminate.
  - exists []. now split.
  - injection E as ->. destruct (IHlang2 eq_refl) as (us & Hus & ->).
    exists (u :: us). split; [now constructor|].
    destruct us as [|u' us]; simpl; [now rewrite append_nil_r | reflexivity].
Qed.

Lemma digits_within : classes_within is_digit (Star d09).
Proof. simpl. tauto. Qed.

Lemma d19_digit c : in_range "1" "9" c = true -> is_digit c = true.
Proof.
  unfold is_digit, in_range. intros H. apply andb_true_iff in H as [H1 H2].
  apply N.leb_le in H1, H2. apply andb_true_iff.
  split; apply N.leb_le; [|exact H2].
  change (code "0") with 48%N. change (code "1") with 49%N in H1. lia.
Qed.

Lemma digit_val_range c : is_digit c = true -> (0 <= digit_val c <= 9)%Z.
Proof.
  unfold is_digit, in_range, digit_val. intros H.
  apply andb_true_iff in H as [H1 H2]. apply N.leb_le in H1, H2.
  change (code "0") with 48%N in H1. change (code "9") with 57%N in H2. lia.
Qed.

Lemma digit_val_pos c : in_range "1" "9" c = true -> (1 <= digit_val c)%Z.
Proof.
  unfold in_range, digit_val. intros H.
  apply andb_true_iff in H as [H1 H2]. apply N.leb_le in H1.
  change (code "1") with 49%N in H1. lia.
Qed.

(** A run of digits reads as a number that is at least what was read
    before it. *)
Lemma int_digits_run (s : string) (acc : Z) :
  all_chars is_digit s = true -> (0 <= acc)%Z ->
  exists n, int_digits acc true s = Some n /\ (acc <= n)%Z.
Proof.
  revert acc; induction s as [|c s IH]; intros acc Hs Hacc; simpl in *.
  - exists acc. split; [reflexivity | lia].
  - apply andb_true_iff in Hs as [Hc Hs]. rewrite Hc.
    pose proof (digit_val_range c Hc) as Hv.
    destruct (IH (10 * acc + digit_val c)%Z Hs ltac:(lia)) as (n & Hn & Hle).
    exists n. split; [exact Hn | lia].
Qed.

Lemma digit_not_space c : is_digit c = true -> int_space c = false.
Proof.
  destruct c as [[] [] [] [] [] [] [] []]; vm_compute; congruence.
Qed.

Lemma rstrip_digits (s : string) :
  all_chars is_digit s = true -> rstrip int_space s = s.
Proof.
  induction s as [|c s IH]; simpl; [reflexivity|].
  intros H. apply andb_true_iff in H as [Hc Hs].
  rewrite (IH Hs), (digit_not_space c Hc). now destruct s.
Qed.

(** [int] of a non-empty run of digits: its value is at least the value
    of the first digit. *)
Lemma int_numeral (c : ascii) (s : string) :
  is_digit c = true -> all_chars is_digit s = true ->
  exists n, int (String c s) = Some n /\ (digit_val c <= n)%Z.
Proof.
  intros Hc Hs.
  assert (Hall : all_chars is_digit (String c s) = true)
    by (simpl; now rewrite Hc, Hs).
  unfold int. simpl lstrip. rewrite (digit_not_space c Hc).
  rewrite (rstrip_digits _ Hall).
  pose proof (digit_val_range c Hc) as Hv.
  destruct (int_digits_run s (10 * 0 + digit_val c)%Z Hs ltac:(lia))
    as (n & Hn & Hle).
  exists n. split; [|lia].
  assert (Hd : int_digits 0 false (String c s) = Some n)
    by (simpl; now rewrite Hc).
  revert Hd Hc. clear.
  destruct c as [[] [] [] [] [] [] [] []]; intros Hd Hc;
    try (vm_compute in Hc; discriminate); exact Hd.
Qed.

(** The words of the numeral patterns. *)
Lemma lang_positive u :
  lang (d19 >> Star d09)%re u ->
  exists c s, u = String c s /\ in_range "1" "9" c = true
              /\ all_chars is_digit s = true.
Proof.
  intros H. apply lang_cat_inv in H as (v & w & -> & Hv & Hw).
  apply lang_cls_inv in Hv as (c & -> & Hc).
  exists c, w. repeat split; [exact Hc|].
  exact (lang_within is_digit _ _ digits_within Hw).
Qed.

Lemma lang_dep_head u :
  lang _dep_head u ->
  exists c s, u = String c s /\ is_digit c = true
              /\ all_chars is_digit s = true
              /\ (s = "" \/ in_range "1" "9" c = true).
Proof.
  intros H. apply lang_alt_inv in H as [H | H].
  - apply lang_cat_inv in H as (v & w & -> & Hv & Hw).
    apply lang_cls_inv in Hv as (c & -> & Hc).
    exists c, w. repeat split; [now apply d19_digit | | now right].
    apply (lang_within is_digit (Plus d09)); [simpl; tauto | exact Hw].
  - apply lang_cls_inv in H as (c & -> & Hc).
    exists c, "". repeat split; [exact Hc | now left].
Qed.

Lemma digits_no (x : ascii) (s : string) :
  is_digit x = false -> all_chars is_digit s = true -> mem x s = false.
Proof.
  intros Hx. induction s as [|c s IH]; simpl; [reflexivity|].
  intros H. apply andb_true_iff in H as [Hc Hs]. rewrite (IH Hs).
  destruct (Ascii.eqb c x) eqn:E; [|reflexivity].
  apply Ascii.eqb_eq in E. congruence.
Qed.

End IntFacts.

(* ================================================================== *)
(** ** Values of the ID and HEAD fields *)

Module IdFacts.
Import Py PyFacts Re ReFacts Pat PatFacts IntFacts.

Lemma positive_int c s :
  in_range "1" "9" c = true -> all_chars is_digit s = true ->
  exists n, int (String c s) = Some n /\ (1 <= n)%Z.
Proof.
  intros Hc Hs.
  destruct (int_numeral c s (d19_digit c Hc) Hs) as (n & Hn & Hle).
  pose proof (digit_val_pos c Hc). exists n. split; [exact Hn | lia].
Qed.

Lemma v_INTEGER_ID_ok u :
  lang p_INTEGER_ID u -> exists n, v_INTEGER_ID u = Ok (VInt n) /\ (1 <= n)%Z.
Proof.
  intros H. apply lang_positive in H as (c & s & -> & Hc & Hs).
  destruct (positive_int c s Hc Hs) as (n & Hn & Hle).
  exists n. unfold v_INTEGER_ID. now rewrite Hn.
Qed.

Lemma v_RANGE_ID_ok u :
  lang p_RANGE_ID u ->
  exists a b, v_RANGE_ID u = Ok (VInts [a; b]) /\ (1 <= a)%Z /\ (1 <= b)%Z.
Proof.
  intros H. unfold p_RANGE_ID in H.
  apply lang_cat_inv in H as (u1 & r1 & -> & H1 & H).
  apply lang_cat_inv in H as (u2 & r2 & -> & H2 & H).
  apply lang_cat_inv in H as (u3 & r3 & -> & H3 & H).
  apply lang_chr_inv in H3 as ->.
  apply lang_cls_inv in H1 as (c1 & -> & Hc1).
  pose proof (lang_within is_digit _ _ digits_within H2) as Hs1.
  apply lang_positive in H as (c2 & s2 & -> & Hc2 & Hs2).
  destruct (positive_int c1 u2 Hc1 Hs1) as (a & Ha & Hale).
  destruct (positive_int c2 s2 Hc2 Hs2) as (b & Hb & Hble).
  exists a, b. split; [|tauto].
  unfold v_RANGE_ID.
  change (String c1 "" ++ u2 ++ String "-" "" ++ String c2 s2)
    with (String c1 u2 ++ String "-" (String c2 s2)).
  rewrite split_append_sep, split_no_sep.
  - simpl. now rewrite Ha, Hb.
  - apply digits_no; [reflexivity|]. simpl. now rewrite (d19_digit c2 Hc2), Hs2.
  - apply digits_no; [reflexivity|]. simpl. now rewrite (d19_digit c1 Hc1), Hs1.
Qed.

Lemma v_DECIMAL_ID_ok u :
  lang p_DECIMAL_ID u ->
  exists a b, v_DECIMAL_ID u = Ok (VInts [a; b]) /\ (0 <= a)%Z /\ (1 <= b)%Z.
Proof.
  intros H. unfold p_DECIMAL_ID in H.
  apply lang_cat_inv in H as (u1 & r1 & -> & H1 & H).
  apply lang_cat_inv in H as (u3 & r3 & -> & H3 & H).
  apply lang_chr_inv in H3 as ->.
  apply lang_dep_head in H1 as (c1 & s1 & -> & Hc1 & Hs1 & _).
  apply lang_positive in H as (c2 & s2 & -> & Hc2 & Hs2).
  destruct (int_numeral c1 s1 Hc1 Hs1) as (a & Ha & Hale).
  pose proof (digit_val_range c1 Hc1) as Hv.
  destruct (positive_int c2 s2 Hc2 Hs2) as (b & Hb & Hble).
  exists a, b. split; [|split; [lia | exact Hble]].
  unfold v_DECIMAL_ID.
  change (String c1 s1 ++ String "." "" ++ String c2 s2)
    with (String c1 s1 ++ String "." (String c2 s2)).
  rewrite split_append_sep, split_no_sep.
  - simpl. now rewrite Ha, Hb.
  - apply digits_no; [reflexivity|]. simpl. now rewrite (d19_digit c2 Hc2), Hs2.
  - apply digits_no; [reflexivity|]. simpl. now rewrite Hc1, Hs1.
Qed.

Lemma digit_not_underscore c : is_digit c = true -> Ascii.eqb c "_" = false.
Proof.
  destruct c as [[] [] [] [] [] [] [] []]; vm_compute; congruence.
Qed.

Lemma d19_not_zero c : in_range "1" "9" c = true -> Ascii.eqb c "0" = false.
Proof.
  destruct c as [[] [] [] [] [] [] [] []]; vm_compute; congruence.
Qed.

Lemma no_leading_zero_numeral c s :
  s = "" \/ in_range "1" "9" c = true -> no_leading_zero (String c s) = true.
Proof.
  intros [-> | Hc].
  - destruct c as [[] [] [] [] [] [] [] []]; reflexivity.
  - apply d19_not_zero in Hc.
    destruct c as [[] [] [] [] [] [] [] []]; try reflexivity; discriminate.
Qed.

Lemma v_HEAD_ok u :
  lang p_HEAD u ->
  no_leading_zero u = true
  /\ (v_HEAD u = Ok VNone
      \/ exists n, v_HEAD u = Ok (VInt n) /\ (0 <= n)%Z).
Proof.
  intros H. unfold p_HEAD in H. apply lang_alt_inv in H as [H | H].
  - apply lang_dep_head in H as (c & s & -> & Hc & Hs & Hlz).
    split; [now apply no_leading_zero_numeral|]. right.
    destruct (int_numeral c s Hc Hs) as (n & Hn & Hle).
    pose proof (digit_val_range c Hc) as Hv.
    exists n. split; [|lia].
    unfold v_HEAD, unless_underscore. simpl String.eqb.
    rewrite (digit_not_underscore c Hc), Hn. reflexivity.
  - apply lang_chr_inv in H as ->. split; [reflexivity | now left].
Qed.

End IdFacts.

(** C10. Every INTEGER_ID token has an integer value of at least 1, and
    the text "0" alone is refused as an ID; both components of every
    RANGE_ID value are at least 1; every DECIMAL_ID value has a second
    component of at least 1 and a first component that is not negative
    and can be 0 ("0.1"); every HEAD token has a text without leading
    zero and a value that is [None] or an integer that is not negative
    and can be 0 ("0"). *)
Theorem numeric_invariants (names : list string) :
  (forall lx tok lx',
      token names lx = Token tok lx' ->
      match Tok.type tok with
      | INTEGER_ID => exists n, Tok.value tok = VInt n /\ (1 <= n)%Z
      | RANGE_ID =>
          exists a b, Tok.value tok = VInts [a; b] /\ (1 <= a)%Z /\ (1 <= b)%Z
      | DECIMAL_ID =>
          exists a b, Tok.value tok = VInts [a; b] /\ (0 <= a)%Z /\ (1 <= b)%Z
      | HEAD =>
          no_leading_zero (lexeme_of tok lx') = true
          /\ (Tok.value tok = VNone
              \/ exists n, Tok.value tok = VInt n /\ (0 <= n)%Z)
      | _ => True
      end)
  /\ token names (input fresh "0")
     = Raised (IllegalCharacterError 1 1 "0")
  /\ token names (input fresh "0.1")
     = Token (mk_token DECIMAL_ID (VInts [0; 1]%Z) 1 0) (after_id "0.1" 3)
  /\ token names (at_field "0" 0 6)
     = Token (mk_token HEAD (VInt 0) 1 0) (moved (at_field "0" 0 6) 1 (v_ 6)).
Proof.
  split; [|repeat split; vm_compute; reflexivity].
  intros lx tok lx' H.
  apply token_span in H
    as (_ & _ & _ & _ & _ & r & rest & Hin & Hty & Hm & _ & Ha).
  pose proof (rule_of_type names r Hin) as Hr. rewrite Hty in Hr.
  apply ReFacts.rematch_sound in Hm as [_ Hl].
  destruct (Tok.type tok); try exact I; subst r; simpl in Hl, Ha;
    apply field_action_ok in Ha as (Hv & _ & _).
  - destruct (IdFacts.v_INTEGER_ID_ok _ Hl) as (n & Hn & Hle).
    exists n. split; [congruence | exact Hle].
  - destruct (IdFacts.v_RANGE_ID_ok _ Hl) as (a & b & Hab & Hle).
    exists a, b. split; [congruence | exact Hle].
  - destruct (IdFacts.v_DECIMAL_ID_ok _ Hl) as (a & b & Hab & Hle).
    exists a, b. split; [congruence | exact Hle].
  - destruct (IdFacts.v_HEAD_ok _ Hl) as (Hz & [Hn | (n & Hn & Hle)]).
    + split; [exact Hz | left; congruence].
    + split; [exact Hz | right; exists n; split; [congruence | exact Hle]].
Qed.

(** The statement on the ID "4-5". *)
Lemma numeric_invariants_witness :
  exists a b,
    Tok.value (mk_token RANGE_ID (VInts [4; 5]%Z) 1 0) = VInts [a; b]
    /\ (1 <= a)%Z /\ (1 <= b)%Z.
Proof.
  exact (proj1 (numeric_invariants ud_upos_names)
           (input fresh "4-5") (mk_token RANGE_ID (VInts [4; 5]%Z) 1 0)
           (after_id "4-5" 3) eq_refl).
Defined.

(* ================================================================== *)
(** ** FEATS *)

Module FeatsFacts.
Import Py PyFacts Re ReFacts Pat PatFacts IntFacts.

Ltac by_cases_on_char :=
  let c := fresh "c" in
  intros c; destruct c as [[] [] [] [] [] [] [] []]; vm_compute; congruence.

Lemma feat_name_no_eq :
  classes_within (fun c => negb (Ascii.eqb c "=")) _feat_name.
Proof. simpl. repeat split; by_cases_on_char. Qed.

Lemma feat_pair_no_bar :
  classes_within (fun c => negb (Ascii.eqb c "|")) _feat_pair.
Proof. simpl. repeat split; by_cases_on_char. Qed.

Lemma split_at_first_append (x : ascii) (a b : string) :
  mem x a = false -> split_at_first x (a ++ String x b) = Some (a, b).
Proof.
  induction a as [|d a IH]; simpl; intros H.
  - now rewrite Ascii.eqb_refl.
  - apply orb_false_iff in H as [Hd Ha]. now rewrite Hd, (IH Ha).
Qed.

(** A feature pair is a name without "=", then "=", then values; it
    holds no "|". *)
Lemma lang_feat_pair u :
  lang _feat_pair u ->
  mem "|" u = false
  /\ exists name vals, u = name ++ String "=" vals /\ mem "=" name = false.
Proof.
  intros H. split; [exact (lang_avoids _ _ _ feat_pair_no_bar H)|].
  unfold _feat_pair in H.
  apply lang_cat_inv in H as (name & r & -> & Hn & H).
  apply lang_cat_inv in H as (e & vals & -> & He & _).
  apply lang_chr_inv in He as ->.
  exists name, vals. split; [reflexivity|].
  exact (lang_avoids _ _ _ feat_name_no_eq Hn).
Qed.

Lemma concat_cons (u : string) (us : list string) :
  String.concat "" (u :: us) = u ++ String.concat "" us.
Proof. destruct us; simpl; [now rewrite append_nil_r | reflexivity]. Qed.

(** A first piece, then pieces that each begin with the separator:
    [split] gives the pieces back. *)
Lemma split_pieces (x : ascii) (p0 : string) (ps : list string) :
  mem x p0 = false -> Forall (fun p => mem x p = false) ps ->
  split x (p0 ++ String.concat "" (map (String x) ps)) = p0 :: ps.
Proof.
  revert p0; induction ps as [|p ps IH]; intros p0 H0 Hps.
  - simpl. rewrite append_nil_r. now apply split_no_sep.
  - inversion Hps as [|? ? Hp Hps']; subst.
    simpl map. rewrite concat_cons.
    change (String x p ++ String.concat "" (map (String x) ps))
      with (String x (p ++ String.concat "" (map (String x) ps))).
    rewrite split_append_sep by exact H0.
    now rewrite IH.
Qed.

(** The words of the list pattern: a first pair, then "|" and a pair,
    any number of times. *)
Lemma lang_pair_list (pair : regex) (u : string) :
  lang (pair >> Star (Chr "|" >> pair))%re u ->
  exists p0 ps, lang pair p0 /\ Forall (lang pair) ps
                /\ u = p0 ++ String.concat "" (map (String "|"%char) ps).
Proof.
  intros H. apply lang_cat_inv in H as (p0 & w & -> & H0 & Hw).
  apply lang_star_inv in Hw as (us & Hus & ->).
  exists p0. revert Hus. induction us as [|x us IH]; intros Hus.
  - exists []. repeat split; [exact H0 | constructor].
  - inversion Hus as [|? ? Hx Hus']; subst.
    destruct (IH Hus') as (ps & _ & Hps & E).
    apply append_inv_head in E.
    apply lang_cat_inv in Hx as (b & p & -> & Hb & Hp).
    apply lang_chr_inv in Hb as ->.
    exists (p :: ps). repeat split; [exact H0 | now constructor |].
    simpl map. rewrite !concat_cons, E. reflexivity.
Qed.

Lemma feat_of_pair u :
  lang _feat_pair u ->
  exists name vals,
    feat_of u = Ok (name, split "," vals)
    /\ split_at_first "=" u = Some (name, vals).
Proof.
  intros H. apply lang_feat_pair in H as (_ & name & vals & -> & Hn).
  exists name, vals. unfold feat_of.
  rewrite (index_append_sep _ _ _ Hn). simpl bind.
  rewrite take_append.
  replace (String.length name + 1) with (String.length (name ++ String "=" ""))
    by (rewrite length_append; reflexivity).
  change (name ++ String "=" vals) with (name ++ (String "=" "" ++ vals)).
  rewrite <- append_assoc, drop_append, append_assoc. simpl.
  split; [reflexivity | now apply split_at_first_append].
Qed.

Lemma feats_of_pairs (ps : list string) :
  Forall (lang _feat_pair) ps ->
  exists fs,
    traverse feat_of ps = Ok fs
    /\ all_some (fun seg =>
                   match split_at_first "=" seg with
                   | Some (name, vals) => Some (name, split "," vals)
                   | None => None
                   end) ps = Some fs.
Proof.
  induction 1 as [|p ps Hp Hps (fs & Hfs & Hspec)].
  - exists []. now split.
  - destruct (feat_of_pair p Hp) as (name & vals & Hf & Hs).
    exists ((name, split "," vals) :: fs). simpl.
    now rewrite Hf, Hfs, Hs, Hspec.
Qed.

(** The rule's value on every word of the FEATS pattern is the one the
    spec describes. *)
Lemma v_FEATS_ok u :
  lang _feats u -> exists v, v_FEATS u = Ok v /\ spec_FEATS u = Some v.
Proof.
  intros H. unfold _feats in H. apply lang_alt_inv in H as [H | H].
  - apply lang_pair_list in H as (p0 & ps & H0 & Hps & ->).
    assert (Hall : Forall (lang _feat_pair) (p0 :: ps)) by now constructor.
    destruct (feats_of_pairs _ Hall) as (fs & Hfs & Hspec).
    assert (Hsplit : split "|" (p0 ++ String.concat "" (map (String "|"%char) ps))
                     = p0 :: ps).
    { apply split_pieces.
      - exact (proj1 (lang_feat_pair p0 H0)).
      - eapply Forall_impl; [|exact Hps].
        intros p Hp. exact (proj1 (lang_feat_pair p Hp)). }
    assert (Hne : String.eqb (p0 ++ String.concat "" (map (String "|"%char) ps)) "_"
                  = false).
    { apply String.eqb_neq. intros E.
      apply lang_feat_pair in H0 as (_ & name & vals & -> & _).
      assert (M : mem "=" ((name ++ String "=" vals)
                             ++ String.concat "" (map (String "|"%char) ps)) = true).
      { rewrite !mem_append. simpl. rewrite orb_true_r. reflexivity. }
      rewrite E in M. discriminate. }
    exists (VFeats fs). unfold v_FEATS, spec_FEATS, unless_underscore.
    rewrite Hne, Hsplit, Hfs, Hspec. now split.
  - apply lang_chr_inv in H as ->. exists VNone. now split.
Qed.

End FeatsFacts.

(** C6. Every FEATS token has the value that the spec describes for its
    text: [None] for "_", and otherwise the list, in order, of the
    segments between "|", each split at its first "=" into the name and
    the list of the values between ","; every segment of a matched text
    does hold "=", so the rule never raises. In particular
    "Case=Nom|Number=Sing" gives [("Case", ["Nom"]); ("Number",
    ["Sing"])] and "_" gives [None]. *)
Theorem feats_decoding (names : list string) :
  (forall lx tok lx',
      token names lx = Token tok lx' ->
      Tok.type tok = FEATS ->
      spec_FEATS (lexeme_of tok lx') = Some (Tok.value tok))
  /\ (forall u, Re.lang Pat._feats u ->
        exists v, v_FEATS u = Ok v /\ spec_FEATS u = Some v)
  /\ v_FEATS "Case=Nom|Number=Sing"
     = Ok (VFeats [("Case", ["Nom"]); ("Number", ["Sing"])])
  /\ v_FEATS "_" = Ok VNone
  /\ token names (at_field feats_row 17 5)
     = Token (mk_token FEATS
                (VFeats [("Case", ["Nom"]); ("Number", ["Sing"])]) 1 17)
         (moved (at_field feats_row 17 5) 37 (v_ 5)).
Proof.
  split; [|split; [exact FeatsFacts.v_FEATS_ok | repeat split; vm_compute; reflexivity]].
  intros lx tok lx' H Hty.
  apply token_span in H
    as (_ & _ & _ & _ & _ & r & rest & Hin & Hr & Hm & _ & Ha).
  pose proof (rule_of_type names r Hin) as Hrule. rewrite Hr, Hty in Hrule.
  subst r. simpl in Hm, Ha.
  apply ReFacts.rematch_sound in Hm as [_ Hl].
  apply field_action_ok in Ha as (Hv & _ & _).
  destruct (FeatsFacts.v_FEATS_ok _ Hl) as (v & Hv' & Hspec).
  congruence.
Qed.

(** The statement on the FEATS field of a row. *)
Lemma feats_decoding_witness :
  spec_FEATS "Case=Nom|Number=Sing"
  = Some (VFeats [("Case", ["Nom"]); ("Number", ["Sing"])]).
Proof.
  exact (proj1 (feats_decoding ud_upos_names)
           (at_field feats_row 17 5)
           (mk_token FEATS
              (VFeats [("Case", ["Nom"]); ("Number", ["Sing"])]) 1 17)
           (moved (at_field feats_row 17 5) 37 (v_ 5))
           eq_refl eq_refl).
Defined.

(* ================================================================== *)
(** ** DEPS, and the errors of a run *)

Section Errors.
Import Py PyFacts Re ReFacts Pat PatFacts IntFacts.
Variable names : list string.

Lemma traverse_raises {A B : Type} (f : A -> result B) (l : list A) e :
  (forall x e', f x = Raise e' -> e' = ValueError) ->
  traverse f l = Raise e -> e = ValueError.
Proof.
  intros Hf. induction l as [|x l IH]; simpl; [discriminate|].
  destruct (f x) as [y|e'] eqn:E; simpl.
  - destruct (traverse f l) as [ys|e'']; simpl; [discriminate|].
    intros H; injection H as <-. now apply IH.
  - intros H; injection H as <-. now apply (Hf x).
Qed.

Lemma orValueError_raises {A : Type} (o : option A) e :
  orValueError o = Raise e -> e = ValueError.
Proof. destruct o; simpl; [discriminate | congruence]. Qed.

(** Whatever the DEPS rule raises is a [ValueError]. *)
Lemma v_DEPS_raises u e : v_DEPS u = Raise e -> e = ValueError.
Proof.
  unfold v_DEPS, unless_underscore. destruct (String.eqb u "_"); [discriminate|].
  destruct (traverse dep_of (split "|" u)) as [ds|e'] eqn:E; simpl; [discriminate|].
  intros H; injection H as <-.
  apply (traverse_raises dep_of _ _) in E; [exact E|].
  intros x e0. unfold dep_of.
  destruct (orValueError (index ":" x)) as [i|e1] eqn:E1; simpl;
    [|intros H; injection H as <-; now apply orValueError_raises in E1].
  destruct (orValueError (int (take i x))) as [h|e2] eqn:E2; simpl;
    [|intros H; injection H as <-; now apply orValueError_raises in E2].
  discriminate.
Qed.

(** Every emitted DEPS token has the value that the spec describes for
    its text. *)
Lemma split_at_first_index (x : ascii) (u : string) (i : nat) :
  index x u = Some i -> split_at_first x u = Some (take i u, drop (i + 1) u).
Proof.
  revert i; induction u as [|d u IH]; simpl; intros i; [discriminate|].
  destruct (Ascii.eqb d x); [intros H; injection H as <-; reflexivity|].
  destruct (index x u) as [j|]; [|discriminate].
  intros H; injection H as <-. now rewrite (IH j eq_refl).
Qed.

Lemma dep_of_spec (l : list string) ds :
  traverse dep_of l = Ok ds ->
  all_some (fun seg =>
              match split_at_first ":" seg with
              | Some (head, deprel) =>
                  match int head with
                  | Some h => Some (h, deprel)
                  | None => None
                  end
              | None => None
              end) l = Some ds.
Proof.
  revert ds; induction l as [|x l IH]; simpl; intros ds.
  - intros H; now injection H as <-.
  - unfold dep_of at 1.
    destruct (index ":" x) as [i|] eqn:Ei; simpl; [|discriminate].
    destruct (int (take i x)) as [h|] eqn:Eh; simpl; [|discriminate].
    destruct (traverse dep_of l) as [ds'|] eqn:Et; simpl; [|discriminate].
    intros H; injection H as <-.
    now rewrite (split_at_first_index _ _ _ Ei), Eh, (IH ds' eq_refl).
Qed.

Lemma v_DEPS_spec u v : v_DEPS u = Ok v -> spec_DEPS u = Some v.
Proof.
  unfold v_DEPS, spec_DEPS, unless_underscore.
  destruct (String.eqb u "_"); [congruence|].
  destruct (traverse dep_of (split "|" u)) as [ds|] eqn:E; simpl; [|discriminate].
  intros H; injection H as <-. now rewrite (dep_of_spec _ _ E).
Qed.



End Errors.

(** C3, at the failing input. In column 8 the text "1:a|b" is matched
    whole by the DEPS pattern, whose deprel part takes "|" like any
    other character; it is not "_"; its second segment "b" has no ":"
    to split at, and the rule raises [ValueError] instead of giving a
    value. On "4:nsubj|6:conj:and", whose segments are all pairs, the
    rule gives [(4, "nsubj"); (6, "conj:and")]. *)
Theorem deps_rule_raises (names : list string) :
  Re.rematch Pat._deps (text_at (at_field deps_bad_row 26 8))
  = Some ("1:a|b", T ++ "_" ++ NL)
  /\ "1:a|b" <> "_"
  /\ Py.split "|" "1:a|b" = ["1:a"; "b"]
  /\ split_at_first ":" "b" = None
  /\ v_DEPS "1:a|b" = Raise ValueError
  /\ token names (at_field deps_bad_row 26 8) = Raised ValueError
  /\ token names (at_field deps_row 27 8)
     = Token (mk_token DEPS (VDeps [(4, "nsubj"); (6, "conj:and")]%Z) 1 27)
         (moved (at_field deps_row 27 8) 45 (v_ 8)).
Proof.
  repeat split; try (vm_compute; reflexivity). discriminate.
Qed.

(** C7, at the failing input. With the seventeen universal tags as
    registry (a registry that PLY accepts), the row whose DEPS field is
    "1:a|b" gives sixteen tokens and then stops on a [ValueError], which
    is not an IllegalCharacterError, at a cursor where a rule of the
    state does match. *)
Theorem run_stops_on_value_error :
  validate_rules ud_upos_names = true
  /\ (exists ts,
        tokenize ud_upos_names deps_bad_row = Some (ts, Stopped ValueError)
        /\ List.length ts = 16)
  /\ is_IllegalCharacterError ValueError = false
  /\ option_map (fun m => (r_type (fst m), snd m))
       (first_match (lexstatere ud_upos_names (c_ 8))
          (text_at (at_field deps_bad_row 26 8)))
     = Some (DEPS, "1:a|b").
Proof.
  split; [vm_compute; reflexivity|]. split; [|split; vm_compute; reflexivity].
  eexists. split; [vm_compute; reflexivity | reflexivity].
Qed.

(* ================================================================== *)
(** ** The UPOS column and the tag registry *)

Module UposFacts.
Import Py PyFacts Re ReFacts Pat PatFacts.

Lemma prefix_cons (c d : ascii) (a s : string) :
  String.prefix (String c a) (String d s)
  = Ascii.eqb c d && String.prefix a s.
Proof.
  simpl. destruct (ascii_dec c d) as [-> | Hne].
  - now rewrite Ascii.eqb_refl.
  - apply Ascii.eqb_neq in Hne. now rewrite Hne.
Qed.

Lemma prefix_nil_l (s : string) : String.prefix "" s = true.
Proof. now destruct s. Qed.

Lemma prefix_append (t rest : string) : String.prefix t (t ++ rest) = true.
Proof.
  induction t as [|c t IH]; [apply prefix_nil_l|].
  change (String c t ++ rest) with (String c (t ++ rest)).
  now rewrite prefix_cons, Ascii.eqb_refl, IH.
Qed.

(** Two beginnings of one text: one begins the other. *)
Lemma prefix_comparable (a b s : string) :
  String.prefix a s = true -> String.prefix b s = true ->
  String.prefix a b = true \/ String.prefix b a = true.
Proof.
  revert b s; induction a as [|c a IH]; intros b s Ha Hb.
  - left. apply prefix_nil_l.
  - destruct b as [|d b]; [right; apply prefix_nil_l|].
    destruct s as [|e s]; [discriminate|].
    rewrite prefix_cons in Ha, Hb.
    apply andb_true_iff in Ha as [Hce Ha]. apply andb_true_iff in Hb as [Hde Hb].
    apply Ascii.eqb_eq in Hce, Hde. subst e. subst d.
    rewrite !prefix_cons, Ascii.eqb_refl. simpl.
    exact (IH b s Ha Hb).
Qed.

Lemma prefix_free_spec (names : list string) (a b : string) :
  prefix_free names = true -> In a names -> In b names ->
  String.prefix a b = true -> a = b.
Proof.
  unfold prefix_free. intros H Ha Hb Hp.
  rewrite forallb_forall in H. specialize (H a Ha).
  rewrite forallb_forall in H. specialize (H b Hb).
  rewrite Hp in H. simpl in H. now apply String.eqb_eq.
Qed.

Lemma has_name_In (t : string) (names : list string) :
  has_name t names = true -> In t names.
Proof.
  unfold has_name. intros H. apply existsb_exists in H as (n & Hn & E).
  apply String.eqb_eq in E. now subst.
Qed.

(** A literal matches exactly when it begins the text. *)
Lemma run_Lit {A : Type} (n s : string) (k : string -> option A) :
  run (Lit n) s k
  = if String.prefix n s then k (drop (String.length n) s) else None.
Proof.
  revert s; induction n as [|c n IH]; intros s.
  - simpl. now destruct s.
  - destruct s as [|d s]; [reflexivity|].
    rewrite prefix_cons. simpl. destruct (Ascii.eqb c d); [apply IH | reflexivity].
Qed.

(** In a registry, the only name that begins a text is the one the
    alternation finds. *)
Lemma run_join_alt (names : list string) (t s : string) :
  (forall n, In n names -> String.prefix n s = true -> n = t) ->
  In t names -> String.prefix t s = true ->
  run (join_alt names) s Some = Some (drop (String.length t) s).
Proof.
  intros Huniq Hin Hp. induction names as [|n ns IH]; [destruct Hin|].
  assert (Hhead : n = t -> run (Lit n) s Some = Some (drop (String.length t) s)).
  { intros ->. now rewrite run_Lit, Hp. }
  destruct ns as [|n' ns'].
  - destruct Hin as [E | []]. now apply Hhead.
  - change (join_alt (n :: n' :: ns')) with (Alt (Lit n) (join_alt (n' :: ns'))).
    simpl run. destruct (String.eqb_spec n t) as [E | Hne].
    + now rewrite (Hhead E).
    + rewrite run_Lit. destruct (String.prefix n s) eqn:Hn.
      * exfalso. apply Hne. apply Huniq; [now left | exact Hn].
      * apply IH.
        -- intros m Hm. apply Huniq. now right.
        -- destruct Hin as [E | Hin]; [congruence | exact Hin].
Qed.

(** In a registry where no name begins another, a name of the registry
    at the cursor is what the UPOS pattern matches. *)
Lemma rematch_upos (names : list string) (t rest : string) :
  prefix_free names = true -> In t names ->
  rematch (_upos names) (t ++ rest) = Some (t, rest).
Proof.
  intros Hpf Hin. unfold rematch, _upos. simpl run.
  rewrite (run_join_alt names t (t ++ rest)).
  - rewrite drop_append, length_append, Nat.add_sub, take_append. reflexivity.
  - intros n Hn Hp.
    destruct (prefix_comparable n t _ Hp (prefix_append t rest)) as [H | H].
    + exact (prefix_free_spec names n t Hpf Hn Hin H).
    + symmetry. exact (prefix_free_spec names t n Hpf Hin Hn H).
  - exact Hin.
  - apply prefix_append.
Qed.

(** No name of the registry begins the text: the alternation of the
    names fails. *)
Lemma run_join_alt_none {A : Type} (names : list string) (s : string)
      (k : string -> option A) :
  names <> [] ->
  (forall n, In n names -> String.prefix n s = false) ->
  run (join_alt names) s k = None.
Proof.
  intros Hne Hnone. induction names as [|n ns IH]; [congruence|].
  destruct ns as [|n' ns'].
  - simpl join_alt. rewrite run_Lit, (Hnone n); [reflexivity | now left].
  - change (join_alt (n :: n' :: ns')) with (Alt (Lit n) (join_alt (n' :: ns'))).
    simpl run. rewrite run_Lit, (Hnone n) by now left.
    apply IH; [discriminate|]. intros m Hm. apply Hnone. now right.
Qed.

(** PLY accepts a registry that is not empty and has no empty name. *)
Lemma validate_rules_ok (names : list string) :
  names <> [] -> ~ In "" names -> validate_rules names = true.
Proof.
  intros Hne Hno.
  assert (E : matches_empty (r_UPOS names) = false).
  { unfold matches_empty, rematch. simpl r_pattern. unfold _upos. simpl run.
    rewrite run_join_alt_none; [reflexivity | exact Hne |].
    intros n Hn. destruct n as [|c n]; [contradiction | reflexivity]. }
  unfold validate_rules, all_rules. simpl forallb. rewrite E. reflexivity.
Qed.

End UposFacts.

(* ================================================================== *)
(** ** The end-to-end example *)

Section EndToEnd.
Import Py PyFacts Re ReFacts Pat PatFacts UposFacts.
Variable names : list string.

(** Only column 3 looks at the registry. *)
Lemma token_registry_irrelevant (names' : list string) (lx : Lexer) :
  lexstate lx <> c_ 3 -> token names lx = token names' lx.
Proof.
  intros H. unfold token.
  assert (E : lexstatere names (lexstate lx) = lexstatere names' (lexstate lx)).
  { destruct (lexstate lx) as [|i|i]; try reflexivity.
    do 4 (try destruct i as [|i]); try reflexivity. congruence. }
  now rewrite E.
Qed.

(** A name of a prefix-free registry at the cursor, in column 3. *)
Lemma token_upos (lx : Lexer) (t rest : string) :
  prefix_free names = true -> In t names ->
  lexstate lx = c_ 3 -> text_at lx = t ++ rest -> t <> "" ->
  token names lx
  = Token (mk_token UPOS (if String.eqb t "_" then VNone else VStr t)
             (lineno lx) (lexpos lx))
      (moved lx (lexpos lx + String.length t) (v_ 3)).
Proof.
  intros Hpf Hin Hst Htext Hne.
  assert (Hne' : t ++ rest <> "") by (destruct t; [congruence | discriminate]).
  rewrite (token_single names lx (r_UPOS names) _
             ltac:(now rewrite Hst) Htext Hne').
  simpl r_pattern. rewrite (rematch_upos names t rest Hpf Hin).
  simpl. unfold t_c3_UPOS, v_nullable_str, unless_underscore.
  destruct (String.eqb t "_"); reflexivity.
Qed.

Lemma tokens_token (fuel : nat) (lx : Lexer) tok lx' ts e :
  token names lx = Token tok lx' ->
  tokens names fuel lx' = (ts, e) ->
  tokens names (S fuel) lx = (tok :: ts, e).
Proof. intros H1 H2. simpl. now rewrite H1, H2. Qed.

Lemma tokens_eof (fuel : nat) (lx lx' : Lexer) :
  token names lx = Eof lx' -> tokens names (S fuel) lx = ([], Exhausted).
Proof. intros H. simpl. now rewrite H. Qed.

Hypothesis Hfree : prefix_free names = true.
Hypothesis Hdet : has_name "DET" names = true.
Hypothesis Hnoun : has_name "NOUN" names = true.

Lemma registry_validates : validate_rules names = true.
Proof.
  apply has_name_In in Hdet. apply validate_rules_ok.
  - intros E. rewrite E in Hdet. destruct Hdet.
  - intros Hempty.
    pose proof (prefix_free_spec names "" "DET" Hfree Hempty Hdet eq_refl).
    discriminate.
Qed.

Ltac plain_token :=
  eapply tokens_token;
  [ rewrite (token_registry_irrelevant []) by (simpl; discriminate);
    vm_compute; reflexivity | ].

Ltac upos_token t Hin :=
  eapply tokens_token;
  [ match goal with
    | |- token _ ?lx = _ =>
        let r := eval vm_compute in (drop (String.length t) (text_at lx)) in
        rewrite (token_upos lx t r Hfree (has_name_In _ _ Hin)
                   ltac:(vm_compute; reflexivity)
                   ltac:(vm_compute; reflexivity) ltac:(discriminate));
        vm_compute; reflexivity
    end | ].

Lemma two_rows_run :
  tokens names (S (String.length two_rows)) (input fresh two_rows)
  = (two_rows_tokens, Exhausted).
Proof.
  change (S (String.length two_rows)) with 60.
  unfold two_rows_tokens, first_row_tokens, second_row_tokens. simpl app.
  do 6 plain_token. upos_token "DET" Hdet. do 13 plain_token.
  do 6 plain_token. upos_token "NOUN" Hnoun. do 13 plain_token.
  plain_token.
  eapply tokens_eof.
  rewrite (token_registry_irrelevant []) by (simpl; discriminate).
  vm_compute; reflexivity.
Qed.

End EndToEnd.

(** C2, as the code has it. For every registry that holds DET and NOUN
    and in which no name begins another, the two-row input gives
    forty-one tokens and then the end of the input: two rows of twenty
    tokens each (ID, TAB, FORM, TAB, LEMMA, ..., MISC, NEWLINE: nineteen
    tokens for the fields and tabs, and the NEWLINE) and the NEWLINE of
    the blank line; HEAD is decoded to 2 and 0, DEPREL to "det" and
    "root", and FEATS, DEPS and MISC to [None] in both rows. *)
Theorem two_rows_tokenization (names : list string) :
  prefix_free names = true ->
  has_name "DET" names = true ->
  has_name "NOUN" names = true ->
  tokenize names two_rows = Some (two_rows_tokens, Exhausted)
  /\ two_rows_tokens
     = (first_row_tokens ++ second_row_tokens ++ [blank_line_token])%list
  /\ List.length first_row_tokens = 20
  /\ List.length second_row_tokens = 20
  /\ map Tok.type first_row_tokens = full_row_types
  /\ map Tok.type second_row_tokens = full_row_types
  /\ Tok.type blank_line_token = NEWLINE
  /\ values_of HEAD two_rows_tokens = [VInt 2; VInt 0]
  /\ values_of DEPREL two_rows_tokens = [VStr "det"; VStr "root"]
  /\ values_of FEATS two_rows_tokens = [VNone; VNone]
  /\ values_of DEPS two_rows_tokens = [VNone; VNone]
  /\ values_of MISC two_rows_tokens = [VNone; VNone].
Proof.
  intros Hfree Hdet Hnoun.
  split; [|repeat split; reflexivity].
  unfold tokenize, build.
  rewrite (registry_validates names Hfree Hdet).
  now rewrite (two_rows_run names Hfree Hdet Hnoun).
Qed.

(** The statement with the seventeen universal tags as registry. *)
Lemma two_rows_tokenization_witness :
  tokenize ud_upos_names two_rows = Some (two_rows_tokens, Exhausted)
  /\ List.length first_row_tokens = 20
  /\ List.length second_row_tokens = 20.
Proof.
  assert (Hfree : prefix_free ud_upos_names = true) by (vm_compute; reflexivity).
  assert (Hdet : has_name "DET" ud_upos_names = true) by (vm_compute; reflexivity).
  assert (Hnoun : has_name "NOUN" ud_upos_names = true) by (vm_compute; reflexivity).
  destruct (two_rows_tokenization ud_upos_names Hfree Hdet Hnoun)
    as (H & _ & H1 & H2 & _).
  exact (conj H (conj H1 H2)).
Defined.

(** C2, as the spec words it, fails: the tokens of the two-row input are
    not two rows of nineteen tokens and a last NEWLINE, they are
    forty-one. *)
Lemma two_rows_of_19_fails : ~ two_rows_of_19 ud_upos_names.
Proof.
  intros (r1 & r2 & nl & e & H & L1 & L2 & _).
  assert (E : tokenize ud_upos_names two_rows = Some (two_rows_tokens, Exhausted))
    by (vm_compute; reflexivity).
  rewrite E in H. injection H as H _.
  apply (f_equal (@List.length _)) in H.
  rewrite !length_app, L1, L2 in H.
  change (List.length two_rows_tokens) with 41 in H.
  simpl List.length in H. lia.
Qed.

(* ================================================================== *)
(** ** Line and column of the cursor *)

Module PosFacts.
Import Py PyFacts Re ReFacts Pat PatFacts.

Lemma count_char_append (c : ascii) (a b : string) :
  count_char c (a ++ b) = count_char c a + count_char c b.
Proof. induction a as [|d a IH]; simpl; [reflexivity | rewrite IH; lia]. Qed.

Lemma count_char_none (c : ascii) (s : string) :
  mem c s = false -> count_char c s = 0.
Proof.
  induction s as [|d s IH]; simpl; [reflexivity|].
  intros H. apply orb_false_iff in H as [Hd Hs]. now rewrite Hd, IH.
Qed.

Lemma length_after_last (c : ascii) (s : string) :
  String.length (after_last c s) <= String.length s.
Proof.
  induction s as [|d s IH]; simpl; [lia|].
  destruct (mem c s); [lia|]. destruct (Ascii.eqb d c); simpl; lia.
Qed.

Lemma after_last_none (c : ascii) (s : string) :
  mem c s = false -> after_last c s = s.
Proof.
  destruct s as [|d s]; simpl; [reflexivity|].
  intros H. apply orb_false_iff in H as [Hd Hs]. now rewrite Hs, Hd.
Qed.

(** [rfind] gives the offset just before the text that follows the last
    occurrence. *)
Lemma rfind_from_spec (c : ascii) (s : string) (base : Z) (stop : nat) :
  stop <= String.length s -> (0 <= base)%Z ->
  rfind_from c s base stop
  = if mem c (take stop s)
    then (base + Z.of_nat stop - 1
          - Z.of_nat (String.length (after_last c (take stop s))))%Z
    else (-1)%Z.
Proof.
  revert s base; induction stop as [|stop IH]; intros s base Hle Hb.
  - now destruct s.
  - destruct s as [|d s]; simpl in Hle; [lia|].
    simpl rfind_from. simpl take. simpl mem. simpl after_last.
    rewrite (IH s (base + 1)%Z) by lia.
    assert (Hlen : String.length (take stop s) = stop)
      by (rewrite length_take; lia).
    destruct (mem c (take stop s)) eqn:E.
    + pose proof (length_after_last c (take stop s)) as L. rewrite Hlen in L.
      rewrite orb_true_r.
      rewrite Nat2Z.inj_succ.
      destruct (0 <=? _)%Z eqn:E0; [lia | apply Z.leb_gt in E0; lia].
    + rewrite orb_false_r. change (0 <=? -1)%Z with false. cbv iota.
      destruct (Ascii.eqb d c); [rewrite Hlen; lia | reflexivity].
Qed.

(** [find_column] is the column of the offset, counted from 1. *)
Lemma find_column_spec (data : string) (pos : nat) :
  pos <= String.length data -> find_column data pos = column_of data pos.
Proof.
  intros H. unfold find_column, column_of, rfind.
  rewrite rfind_from_spec by (lia || exact H).
  destruct (mem nl (take pos data)) eqn:E.
  - lia.
  - rewrite (after_last_none _ _ E), length_take. lia.
Qed.

Lemma take_add (n : nat) (s u rest : string) :
  drop n s = u ++ rest -> take (n + String.length u) s = take n s ++ u.
Proof.
  revert s; induction n as [|n IH]; intros s H; simpl in *.
  - subst s. rewrite take_append. now destruct (take 0 (u ++ rest)).
  - destruct s as [|c s]; simpl in *.
    + destruct u; [reflexivity | discriminate].
    + now rewrite (IH s H).
Qed.

Lemma line_of_add (data : string) (pos : nat) (u rest : string) :
  drop pos data = u ++ rest ->
  line_of data (pos + String.length u) = line_of data pos + count_char nl u.
Proof.
  intros H. unfold line_of. rewrite (take_add _ _ _ _ H), count_char_append. lia.
Qed.

Lemma lit_within (q : ascii -> bool) (n : string) :
  all_chars q n = true -> classes_within q (Lit n).
Proof.
  induction n as [|c n IH]; simpl; [tauto|].
  intros H. apply andb_true_iff in H as [Hc Hn]. split; [|now apply IH].
  intros d Hd. apply Ascii.eqb_eq in Hd. now subst.
Qed.

Lemma join_alt_within (q : ascii -> bool) (names : list string) :
  Forall (fun n => all_chars q n = true) names ->
  classes_within q (join_alt names).
Proof.
  induction 1 as [|n ns Hn Hns IH]; simpl; [tauto|].
  destruct ns as [|n' ns']; [now apply lit_within|].
  split; [now apply lit_within | exact IH].
Qed.

Lemma ident_not_nl c : ident_char c = true -> negb (Ascii.eqb c nl) = true.
Proof. destruct c as [[] [] [] [] [] [] [] []]; vm_compute; congruence. Qed.

Lemma registry_ok_spec (names : list string) :
  registry_ok names = true ->
  names <> []
  /\ Forall (fun n => n <> "" /\ all_chars ident_char n = true) names.
Proof.
  unfold registry_ok. intros H. apply andb_true_iff in H as [Hne Hall].
  split; [now destruct names|].
  apply Forall_forall. intros n Hn.
  rewrite forallb_forall in Hall. specialize (Hall n Hn).
  apply andb_true_iff in Hall as [H1 H2]. split; [|exact H2].
  apply negb_true_iff, String.eqb_neq in H1. exact H1.
Qed.

(** No pattern but NEWLINE's takes a line feed. *)
Lemma upos_no_nl (names : list string) :
  registry_ok names = true ->
  classes_within (fun c => negb (Ascii.eqb c nl)) (_upos names).
Proof.
  intros H. apply registry_ok_spec in H as [_ H]. simpl. split.
  - apply join_alt_within. eapply Forall_impl; [|exact H].
    intros n [_ Hn]. eapply all_chars_impl; [|exact Hn]. exact ident_not_nl.
  - FeatsFacts.by_cases_on_char.
Qed.

Lemma fixed_patterns_no_nl :
  Forall (classes_within (fun c => negb (Ascii.eqb c nl)))
         [p_TAB; p_COMMENT; p_RANGE_ID; p_DECIMAL_ID; p_INTEGER_ID; p_FORM;
          p_LEMMA; p_XPOS; _feats; p_HEAD; p_DEPREL; _deps; p_MISC].
Proof.
  repeat constructor; simpl; repeat split; FeatsFacts.by_cases_on_char.
Qed.

End PosFacts.

(* ================================================================== *)
(** ** A field that is no tag *)

Section UnknownTag.
Import Py PyFacts Re ReFacts Pat PatFacts UposFacts PosFacts.
Variable names : list string.
Hypothesis Hok : registry_ok names = true.

(** Only the NEWLINE rule moves the line counter. *)
Lemma action_lineno r s lx v lx' :
  In r (all_rules names) -> r_action r s lx = Ok (v, lx') ->
  lineno lx' = lineno lx + match r_type r with NEWLINE => 1 | _ => 0 end.
Proof.
  unfold all_rules; simpl.
  intros H; repeat (destruct H as [<- | H]); try destruct H; simpl;
    unfold t_v0_v1_v2_v3_v4_v5_v6_v7_v8_TAB, t_COMMENT, t_RANGE_ID,
      t_DECIMAL_ID, t_INTEGER_ID, t_c1_FORM, t_c2_LEMMA, t_c3_UPOS,
      t_c4_XPOS, t_c5_FEATS, t_c6_HEAD, t_c7_DEPREL, t_c8_DEPS, t_c9_MISC,
      t_INITIAL_v9_NEWLINE, bind;
    intros E;
    repeat match type of E with
           | match ?x with _ => _ end = _ => destruct x eqn:?; try discriminate
           end;
    injection E as <- <-;
    match goal with
    | B : begin _ _ = Ok _ |- _ => apply begin_frame in B; simpl in B; lia
    | _ => simpl; lia
    end.
Qed.

(** The text of a NEWLINE token is a line feed; no other token's text
    holds one. *)
Lemma lexeme_line_feeds r u :
  In r (all_rules names) -> lang (r_pattern r) u ->
  count_char nl u = match r_type r with NEWLINE => 1 | _ => 0 end.
Proof.
  pose proof fixed_patterns_no_nl as F.
  repeat match type of F with
         | Forall _ (_ :: _) =>
             let H := fresh "P" in
             apply Forall_cons_iff in F as [H F]
         end.
  unfold all_rules; simpl.
  intros H; repeat (destruct H as [<- | H]); try destruct H; simpl; intros Hl;
    try (apply count_char_none; eapply lang_avoids; [|exact Hl]; assumption).
  - apply count_char_none. eapply lang_avoids; [|exact Hl]. now apply upos_no_nl.
  - apply IntFacts.lang_chr_inv in Hl as ->. reflexivity.
Qed.

(** Along a run the line counter is the line of the cursor. *)
Lemma reach_line (data : string) ts lx :
  reach names data ts lx ->
  lineno lx = line_of data (lexpos lx)
  /\ lexpos lx <= String.length data /\ lexdata lx = data.
Proof.
  induction 1 as [|ts lx tok lx' Hr (Hl & Hp & Hd) Htok].
  - split; [|split]; simpl; [unfold line_of; now destruct data | lia | reflexivity].
  - apply token_span in Htok
      as (Hd' & _ & _ & Hpos & Htext & r & rest & Hin & Hty & Hm & _ & Ha).
    apply rematch_sound in Hm as [_ Hlang].
    pose proof (action_lineno _ _ _ _ _ Hin Ha) as Hline. simpl in Hline.
    rewrite Hd in Htext.
    repeat split; [| | congruence].
    + rewrite Hline, Hpos, (line_of_add _ _ _ _ Htext), Hl.
      now rewrite (lexeme_line_feeds r _ Hin Hlang).
    + pose proof (length_drop (lexpos lx) data) as L.
      rewrite Htext, length_append in L. lia.
Qed.

Lemma prefix_split (a n : string) :
  String.prefix a n = true -> exists m, n = a ++ m.
Proof.
  revert n; induction a as [|c a IH]; intros n H.
  - now exists n.
  - destruct n as [|d n]; [discriminate|].
    rewrite prefix_cons in H. apply andb_true_iff in H as [Hc Ha].
    apply Ascii.eqb_eq in Hc. subst d.
    destruct (IH n Ha) as (m & ->). now exists m.
Qed.

Lemma prefix_append_same (a m rest : string) :
  String.prefix (a ++ m) (a ++ rest) = String.prefix m rest.
Proof.
  induction a as [|c a IH]; [reflexivity|].
  change (String.prefix (String c (a ++ m)) (String c (a ++ rest))
          = String.prefix m rest).
  now rewrite prefix_cons, Ascii.eqb_refl, IH.
Qed.

(** When no name begins the field and the field ends there, no name
    begins the text at the cursor. *)
Lemma no_name_at_cursor (field rest : string) :
  no_name_begins field names = true -> at_field_end rest ->
  forall n, In n names -> String.prefix n (field ++ rest) = false.
Proof.
  intros Hnone Hend n Hn.
  destruct (String.prefix n (field ++ rest)) eqn:E; [exfalso | reflexivity].
  unfold no_name_begins in Hnone. rewrite forallb_forall in Hnone.
  pose proof (Hnone n Hn) as Hnf. apply negb_true_iff in Hnf.
  destruct (prefix_comparable n field _ E (prefix_append field rest)) as [H | H];
    [congruence|].
  apply prefix_split in H as (m & ->).
  rewrite prefix_append_same in E.
  destruct m as [|c m].
  - rewrite append_nil_r in Hnf.
    pose proof (prefix_append field "") as P. rewrite append_nil_r in P.
    congruence.
  - destruct rest as [|d rest]; [discriminate|].
    rewrite prefix_cons in E. apply andb_true_iff in E as [Hc _].
    apply Ascii.eqb_eq in Hc. subst d.
    destruct (registry_ok_spec names Hok) as [_ Hall].
    rewrite Forall_forall in Hall. destruct (Hall _ Hn) as [_ Hid].
    rewrite all_chars_append in Hid. apply andb_true_iff in Hid as [_ Hid].
    simpl in Hid. apply andb_true_iff in Hid as [Hid _].
    simpl in Hend. destruct Hend as [-> | ->]; discriminate.
Qed.

End UnknownTag.

(** C8, as the code has it. With a well-formed, non-empty registry none
    of whose names begins "XX123", whenever a run has the lexer in
    column 3 at a field "XX123", the next call raises
    IllegalCharacterError whose line and column, both counted from 1,
    are those of the first character of the field, and which quotes
    that character; [find_column] is the column of the offset, and the
    lexer's line counter is its line. *)
Theorem unknown_tag_error (names : list string) (data : string)
        (ts : list Tok.LexToken) (lx : Lexer) (rest : string) :
  registry_ok names = true ->
  no_name_begins "XX123" names = true ->
  reach names data ts lx ->
  lexstate lx = c_ 3 ->
  text_at lx = "XX123" ++ rest ->
  at_field_end rest ->
  token names lx
  = Raised (IllegalCharacterError (line_of data (lexpos lx))
              (column_of data (lexpos lx)) "X")
  /\ lineno lx = line_of data (lexpos lx)
  /\ find_column data (lexpos lx) = column_of data (lexpos lx).
Proof.
  intros Hok Hnone Hr Hst Htext Hend.
  destruct (reach_line names Hok data ts lx Hr) as (Hline & Hpos & Hdata).
  pose proof (PosFacts.find_column_spec data (lexpos lx) Hpos) as Hcol.
  split; [|now split].
  rewrite (token_single names lx (r_UPOS names) _
             ltac:(now rewrite Hst) Htext ltac:(discriminate)).
  assert (Hm : Re.rematch (r_pattern (r_UPOS names)) ("XX123" ++ rest) = None).
  { unfold Re.rematch. simpl r_pattern. unfold Pat._upos. simpl Re.run.
    rewrite UposFacts.run_join_alt_none; [reflexivity | |].
    - exact (proj1 (PosFacts.registry_ok_spec names Hok)).
    - exact (no_name_at_cursor names Hok "XX123" rest Hnone Hend). }
  rewrite Hm. simpl. now rewrite Hdata, Hline, Hcol.
Qed.

(** The statement on the row "1 / The / the / XX123 / ...", with the
    universal tags but X as registry: the error is at column 11 of
    line 1. *)
Lemma unknown_tag_error_witness :
  token tags_without_x (at_field xx123_row 10 3)
  = Raised (IllegalCharacterError 1 11 "X").
Proof.
  assert (Hok : registry_ok tags_without_x = true) by (vm_compute; reflexivity).
  assert (Hnone : no_name_begins "XX123" tags_without_x = true)
    by (vm_compute; reflexivity).
  assert (R : reach tags_without_x xx123_row
                ([] ++ [mk_token INTEGER_ID (VInt 1) 1 0;
                        mk_token TAB (VStr T) 1 1;
                        mk_token FORM (VStr "The") 1 2;
                        mk_token TAB (VStr T) 1 5;
                        mk_token LEMMA (VStr "the") 1 6;
                        mk_token TAB (VStr T) 1 9])
                (at_field xx123_row 10 3)).
  { apply (reach_steps tags_without_x xx123_row 6 [] _ _ _ (reach_input _ _)).
    vm_compute; reflexivity. }
  exact (proj1 (unknown_tag_error tags_without_x xx123_row _ _
                  (Py.drop 15 xx123_row) Hok Hnone R eq_refl eq_refl
                  (or_introl eq_refl))).
Defined.

(** C8, as the spec words it, fails: "XX123" is not in the registry of
    the universal tags and is not "_", but "X" is a tag; the lexer gives
    an UPOS token for it and the error is at the second character of
    the field, column 12 and not 11. *)
Lemma unknown_tag_error_not_at_field_start :
  ~ (has_name "XX123" ud_upos_names = false -> "XX123" <> "_" ->
     stops_at ud_upos_names xx123_row 10).
Proof.
  intros H. destruct (H eq_refl ltac:(discriminate)) as (ts & ch & E).
  vm_compute in E. discriminate.
Qed.

(* ================================================================== *)
(** ** Draining the lexer *)

Section Draining.
Import Py PyFacts Re ReFacts Pat PatFacts UposFacts PosFacts.
Variable names : list string.
Hypothesis Hok : registry_ok names = true.

Lemma nonempty_words_lang (r : regex) (u : string) :
  nonempty_words r = true -> lang r u -> u <> "".
Proof.
  intros Hr Hl; induction Hl; simpl in Hr; try discriminate.
  - apply orb_true_iff in Hr as [Ha | Hb].
    + specialize (IHHl1 Ha). destruct u; [congruence | discriminate].
    + specialize (IHHl2 Hb). destruct u; [exact IHHl2 | discriminate].
  - apply andb_true_iff in Hr as [Ha _]. now apply IHHl.
  - apply andb_true_iff in Hr as [_ Hb]. now apply IHHl.
Qed.

Lemma lit_nonempty (n : string) : n <> "" -> nonempty_words (Lit n) = true.
Proof. destruct n; [congruence | reflexivity]. Qed.

Lemma join_alt_nonempty (ns : list string) :
  ns <> [] -> Forall (fun n => n <> "") ns ->
  nonempty_words (join_alt ns) = true.
Proof.
  intros Hne H. induction H as [|n ns Hn Hns IH]; [congruence|].
  destruct ns as [|n' ns']; [now apply lit_nonempty|].
  change (nonempty_words (Lit n) && nonempty_words (join_alt (n' :: ns')) = true).
  rewrite (lit_nonempty n Hn), IH; [reflexivity | discriminate].
Qed.

(** With a well-formed registry no rule has the empty word. *)
Lemma rules_nonempty r :
  In r (all_rules names) -> nonempty_words (r_pattern r) = true.
Proof.
  destruct (registry_ok_spec names Hok) as [Hne Hall].
  unfold all_rules; simpl.
  intros H; repeat (destruct H as [<- | H]); try destruct H; try reflexivity.
  simpl. rewrite join_alt_nonempty; [reflexivity | exact Hne |].
  eapply Forall_impl; [|exact Hall]. now intros n [Hn _].
Qed.

(** Each token moves the cursor forward, within the text. *)
Lemma token_progress lx tok lx' :
  token names lx = Token tok lx' ->
  lexpos lx < lexpos lx' /\ lexpos lx' <= String.length (lexdata lx')
  /\ lexdata lx' = lexdata lx.
Proof.
  intros H. pose proof (token_inv names _ _ _ H) as (_ & _ & _ & _ & Hlt & _).
  apply token_span in H
    as (Hd & _ & _ & Hpos & Htext & r & rest & Hin & _ & Hm & _ & _).
  apply rematch_sound in Hm as [_ Hl].
  pose proof (nonempty_words_lang _ _ (rules_nonempty r Hin) Hl) as Hne.
  pose proof (length_drop (lexpos lx) (lexdata lx)) as L.
  rewrite Htext, length_append in L. rewrite Hd.
  destruct (lexeme_of tok lx') as [|c u]; [congruence|]. simpl in *.
  repeat split; lia.
Qed.

(** With one unit of fuel more than there are characters left, the
    drain ends on the end of the text or on an error. *)
Lemma tokens_end (fuel : nat) (lx : Lexer) :
  String.length (lexdata lx) - lexpos lx < fuel ->
  snd (tokens names fuel lx) <> OutOfFuel.
Proof.
  revert lx; induction fuel as [|fuel IH]; intros lx Hf; [lia|].
  simpl. destruct (token names lx) as [tok lx'| |] eqn:E; try discriminate.
  destruct (token_progress _ _ _ E) as (H1 & H2 & H3).
  specialize (IH lx' ltac:(rewrite H3 in *; lia)).
  now destruct (tokens names fuel lx').
Qed.

Lemma registry_ok_validates : validate_rules names = true.
Proof.
  destruct (registry_ok_spec names Hok) as [Hne Hall].
  apply validate_rules_ok; [exact Hne|].
  intros Hin. rewrite Forall_forall in Hall. now destruct (Hall _ Hin).
Qed.

(** [tokenize] builds the lexer and comes to an end on every text. *)
Lemma tokenize_ends (data : string) :
  exists ts e, tokenize names data = Some (ts, e) /\ e <> OutOfFuel.
Proof.
  unfold tokenize, build. rewrite registry_ok_validates.
  pose proof (tokens_end (S (String.length data)) (input fresh data)
                ltac:(simpl; lia)) as H.
  destruct (tokens names _ _) as [ts e]. now exists ts, e.
Qed.

End Draining.

(* ================================================================== *)
(** * Further properties of the lexer *)

(* ================================================================== *)
(** ** Matching, forwards *)

Module MatchFacts.
Import Py PyFacts Re ReFacts Pat PatFacts IntFacts.

Lemma run_cat {A : Type} (a b : regex) (s : string) (k : string -> option A) :
  run (Cat a b) s k = run a s (fun s' => run b s' k).
Proof. reflexivity. Qed.

Lemma run_alt {A : Type} (a b : regex) (s : string) (k : string -> option A) :
  run (Alt a b) s k
  = match run a s k with Some x => Some x | None => run b s k end.
Proof. reflexivity. Qed.

Lemma run_cls {A : Type} (p : ascii -> bool) (c : ascii) (s : string)
      (k : string -> option A) :
  run (Cls p) (String c s) k = if p c then k s else None.
Proof. reflexivity. Qed.

Lemma run_star {A : Type} (a : regex) (s : string) (k : string -> option A) :
  run (Star a) s k = star_loop (run a) (String.length s) s k.
Proof. reflexivity. Qed.

Lemma run_cls_stops {A : Type} (p : ascii -> bool) (s : string)
      (k : string -> option A) :
  stops p s -> run (Cls p) s k = None.
Proof. destruct s as [|c s]; simpl; [reflexivity | now intros ->]. Qed.

(** Greedy repetition of a class inside a pattern: when the run of
    characters of the class is followed by a text that the rest of the
    pattern accepts, nothing is given back. *)
Lemma star_cls_then {A : Type} (p : ascii -> bool) (w rest : string)
      (fuel : nat) (k : string -> option A) (x : A) :
  String.length (w ++ rest) <= fuel ->
  all_chars p w = true -> stops p rest ->
  k rest = Some x ->
  star_loop (run (Cls p)) fuel (w ++ rest) k = Some x.
Proof.
  revert fuel; induction w as [|c w IH]; intros fuel Hf Hw Hr Hk.
  - change ("" ++ rest) with rest.
    destruct fuel as [|fuel]; [exact Hk|].
    change (star_loop (run (Cls p)) (S fuel) rest k)
      with (match run (Cls p) rest
                    (fun s' => if String.length s' <? String.length rest
                               then star_loop (run (Cls p)) fuel s' k else None)
            with Some y => Some y | None => k rest end).
    now rewrite (run_cls_stops p rest _ Hr).
  - simpl in Hw. apply andb_true_iff in Hw as [Hc Hw].
    change (String c w ++ rest) with (String c (w ++ rest)) in *.
    destruct fuel as [|fuel]; [simpl in Hf; lia|].
    change (star_loop (run (Cls p)) (S fuel) (String c (w ++ rest)) k)
      with (match run (Cls p) (String c (w ++ rest))
                    (fun s' => if String.length s' <? String.length (String c (w ++ rest))
                               then star_loop (run (Cls p)) fuel s' k else None)
            with Some y => Some y | None => k (String c (w ++ rest)) end).
    rewrite run_cls, Hc.
    assert (E : (String.length (w ++ rest) <? String.length (String c (w ++ rest))) = true)
      by (apply Nat.ltb_lt; simpl; lia).
    rewrite E, (IH fuel); [reflexivity | simpl in Hf; lia | exact Hw | exact Hr | exact Hk].
Qed.


(** A pattern that begins with the character [x] fails elsewhere. *)
Lemma run_chr_not_at {A : Type} (x : ascii) (r : regex) (t : string)
      (k : string -> option A) :
  not_at x t -> run (Cat (Chr x) r) t k = None.
Proof.
  rewrite run_cat. destruct t as [|c t]; [reflexivity|].
  unfold Chr. rewrite run_cls. simpl. intros H.
  destruct (Ascii.eqb x c) eqn:E; [|reflexivity].
  apply Ascii.eqb_eq in E. congruence.
Qed.

Lemma numeral_inv (h : string) :
  numeral h = true ->
  exists c s, h = String c s /\ is_digit c = true
              /\ all_chars is_digit s = true
              /\ (s = "" \/ in_range "1" "9" c = true).
Proof.
  destruct h as [|c [|d s]]; simpl; [discriminate | |].
  - intros H. exists c, "". repeat split; [exact H | now left].
  - intros H. apply andb_true_iff in H as [Hc Hs].
    exists c, (String d s). repeat split; [now apply d19_digit | exact Hs | now right].
Qed.


(** The head pattern takes a whole numeral when what follows is not a
    digit and suits the rest of the pattern. *)
Lemma run_dep_head {A : Type} (h t : string) (k : string -> option A) (y : A) :
  numeral h = true -> stops is_digit t -> k t = Some y ->
  run _dep_head (h ++ t) k = Some y.
Proof.
  intros Hh Ht Hk.
  apply numeral_inv in Hh as (c & s & -> & Hc & Hs & Hcase).
  change (String c s ++ t) with (String c (s ++ t)).
  unfold _dep_head, Plus, d19, d09.
  change (Cls (in_range "0" "9")) with (Cls is_digit).
  rewrite run_alt, run_cat, run_cls.
  destruct s as [|d s].
  - change ("" ++ t) with t.
    assert (E : run (Cat (Cls is_digit) (Star (Cls is_digit))) t k = None).
    { rewrite run_cat. now apply run_cls_stops. }
    rewrite E. destruct (in_range "1" "9" c); now rewrite run_cls, Hc, Hk.
  - destruct Hcase as [E | H19]; [discriminate|]. rewrite H19.
    simpl in Hs. apply andb_true_iff in Hs as [Hd Hs].
    change (String d s ++ t) with (String d (s ++ t)).
    rewrite run_cat, run_cls, Hd, run_star.
    now rewrite (star_cls_then is_digit s t _ k y (Nat.le_refl _) Hs Ht Hk).
Qed.




End MatchFacts.

(* ================================================================== *)
(** ** The ID and HEAD fields, for every numeral *)

Module NumeralFields.
Import Py PyFacts Re ReFacts Pat PatFacts IntFacts MatchFacts.

Lemma rematch_of_run (r : regex) (u rest : string) :
  run r (u ++ rest) Some = Some rest -> rematch r (u ++ rest) = Some (u, rest).
Proof.
  intros H. unfold rematch. rewrite H, length_append, Nat.add_sub, take_append.
  reflexivity.
Qed.















End NumeralFields.

Section IdField.
Import Py PyFacts Re ReFacts Pat PatFacts IntFacts MatchFacts NumeralFields.
Variable names : list string.

(** [token] when the cursor is inside the text. *)
Lemma token_at (lx : Lexer) (text : string) :
  text_at lx = text -> text <> "" ->
  token names lx
  = match first_match (lexstatere names (lexstate lx)) text with
    | Some (r, lexeme) =>
        match r_action r lexeme
                (set_lexpos lx (lexpos lx + String.length lexeme)) with
        | Ok (v, lx') =>
            Token (mk_token (r_type r) v (lineno lx) (lexpos lx)) lx'
        | Raise e => Raised e
        end
    | None => Raised (t_ANY_error text (lexpos lx) lx)
    end.
Proof.
  intros Ht Hne. unfold token. unfold text_at in Ht.
  destruct text as [|c text]; [congruence|].
  pose proof (drop_lt _ _ _ _ Ht) as Hlt. apply Nat.ltb_lt in Hlt.
  rewrite Hlt, Ht. reflexivity.
Qed.






End IdField.



Section HeadField.
Import Py PyFacts Re ReFacts Pat PatFacts IntFacts MatchFacts NumeralFields.
Variable names : list string.



End HeadField.



(* ================================================================== *)
(** ** The DEPS field, whole *)

Section DepsField.
Import Py PyFacts Re ReFacts Pat PatFacts IntFacts MatchFacts NumeralFields.
Variable names : list string.

Lemma split_at_first_none (x : ascii) (u : string) :
  index x u = None -> split_at_first x u = None.
Proof.
  induction u as [|d u IH]; simpl; [reflexivity|].
  destruct (Ascii.eqb d x); [discriminate|].
  destruct (index x u); [discriminate|]. intros _. now rewrite IH.
Qed.

Lemma dep_of_raises (l : list string) e :
  traverse dep_of l = Raise e ->
  all_some (fun seg =>
              match split_at_first ":" seg with
              | Some (head, deprel) =>
                  match int head with
                  | Some h => Some (h, deprel)
                  | None => None
                  end
              | None => None
              end) l = None.
Proof.
  induction l as [|x l IH]; simpl; [discriminate|].
  unfold dep_of at 1.
  destruct (index ":" x) as [i|] eqn:Ei; simpl.
  - rewrite (split_at_first_index _ _ _ Ei).
    destruct (int (take i x)) as [h|] eqn:Eh; simpl; [|reflexivity].
    destruct (traverse dep_of l) as [ds|e'] eqn:Et; simpl; [discriminate|].
    intros H. now rewrite (IH H).
  - intros _. now rewrite (split_at_first_none _ _ Ei).
Qed.

(** The rule gives the value that the spec describes when there is
    one, and raises [ValueError] when there is none. *)
Lemma v_DEPS_result (u : string) :
  v_DEPS u = match spec_DEPS u with
             | Some v => Ok v
             | None => Raise ValueError
             end.
Proof.
  destruct (v_DEPS u) as [v|e] eqn:E.
  - now rewrite (v_DEPS_spec u v E).
  - rewrite (v_DEPS_raises u e E).
    unfold v_DEPS, spec_DEPS, unless_underscore in *.
    destruct (String.eqb u "_"); [discriminate|].
    destruct (traverse dep_of (split "|" u)) as [ds|e'] eqn:Et; [discriminate|].
    now rewrite (dep_of_raises _ _ Et).
Qed.

Lemma stops_deprel_not_bar (rest : string) :
  stops not_nl_tab_sp rest -> not_at "|" rest.
Proof.
  destruct rest as [|c rest]; simpl; [tauto|]. intros H ->. discriminate.
Qed.

(** The DEPS pattern takes a head, ":" and then everything up to the
    next tab, space or line feed. *)
Lemma rematch_deps (h w rest : string) :
  numeral h = true -> w <> "" -> all_chars not_nl_tab_sp w = true ->
  stops not_nl_tab_sp rest ->
  rematch _deps ((h ++ String ":" w) ++ rest) = Some (h ++ String ":" w, rest).
Proof.
  intros Hh Hne Hw Hr. apply rematch_of_run.
  destruct w as [|c w]; [congruence|].
  simpl in Hw. apply andb_true_iff in Hw as [Hc Hw].
  rewrite append_assoc.
  change (String ":" (String c w) ++ rest) with (String ":" (String c (w ++ rest))).
  unfold _deps. rewrite run_alt.
  set (more := Star (Cat (Chr "|") _dep_pair)).
  assert (Hmore : run more rest Some = Some rest).
  { unfold more. rewrite run_star.
    destruct (String.length rest) as [|n]; [reflexivity|].
    change (star_loop (run (Cat (Chr "|") _dep_pair)) (S n) rest Some)
      with (match run (Cat (Chr "|") _dep_pair) rest
                    (fun s' => if String.length s' <? String.length rest
                               then star_loop (run (Cat (Chr "|") _dep_pair)) n s' Some
                               else None)
            with Some y => Some y | None => Some rest end).
    now rewrite (run_chr_not_at "|" _dep_pair rest _ (stops_deprel_not_bar _ Hr)). }
  assert (Hpair : run (Cat _dep_pair more) (h ++ String ":" (String c (w ++ rest))) Some
                  = Some rest).
  { rewrite run_cat. unfold _dep_pair. rewrite run_cat.
    apply (run_dep_head h (String ":" (String c (w ++ rest)))); [exact Hh | reflexivity|].
    unfold Chr. rewrite run_cat, run_cls, Ascii.eqb_refl.
    unfold _dep_deprel, Plus. rewrite run_cat, run_cls, Hc, run_star.
    apply star_cls_then; [lia | exact Hw | exact Hr | exact Hmore]. }
  fold more. now rewrite Hpair.
Qed.

Lemma deps_token (lx : Lexer) (h w rest : string) :
  lexstate lx = c_ 8 ->
  numeral h = true -> w <> "" -> all_chars not_nl_tab_sp w = true ->
  stops not_nl_tab_sp rest ->
  text_at lx = (h ++ String ":" w) ++ rest ->
  token names lx
  = match spec_DEPS (h ++ String ":" w) with
    | Some v =>
        Token (mk_token DEPS v (lineno lx) (lexpos lx))
          (moved lx (lexpos lx + String.length (h ++ String ":" w)) (v_ 8))
    | None => Raised ValueError
    end.
Proof.
  intros Hst Hh Hne Hw Hr Htext.
  pose proof (numeral_inv h Hh) as (c & s & E & _).
  assert (Hne' : (h ++ String ":" w) ++ rest <> "") by (subst h; discriminate).
  rewrite (token_single names lx r_DEPS _ ltac:(now rewrite Hst) Htext Hne').
  simpl r_pattern. rewrite (rematch_deps h w rest Hh Hne Hw Hr).
  simpl r_action. unfold t_c8_DEPS. rewrite v_DEPS_result.
  destruct (spec_DEPS (h ++ String ":" w)); reflexivity.
Qed.

End DepsField.

(** X3. In column 8, a field that begins with a numeral, ":" and at
    least one more character is matched whole, up to the next tab,
    space or line feed, whatever text follows the ":". The lexer then
    gives a DEPS token with the value that the spec describes for the
    field when the field has one (every segment between "|" splits at a
    ":" into an [int] literal and a deprel), and raises [ValueError] when
    it has none. *)
Theorem deps_field_whole (names : list string) (lx : Lexer) (h w rest : string) :
  lexstate lx = c_ 8 ->
  numeral h = true -> w <> "" ->
  Py.all_chars Pat.not_nl_tab_sp w = true ->
  stops Pat.not_nl_tab_sp rest ->
  text_at lx = (h ++ String ":" w) ++ rest ->
  token names lx
  = match spec_DEPS (h ++ String ":" w) with
    | Some v =>
        Token (mk_token DEPS v (lineno lx) (lexpos lx))
          (moved lx (lexpos lx + String.length (h ++ String ":" w)) (v_ 8))
    | None => Raised ValueError
    end.
Proof. exact (deps_token names lx h w rest). Qed.

(** The statement on the DEPS fields "4:nsubj|6:conj:and" and "1:a|b". *)
Lemma deps_field_whole_witness :
  token ud_upos_names (at_field deps_row 27 8)
  = Token (mk_token DEPS (VDeps [(4, "nsubj"); (6, "conj:and")]%Z) 1 27)
      (moved (at_field deps_row 27 8) 45 (v_ 8))
  /\ token ud_upos_names (at_field deps_bad_row 26 8) = Raised ValueError.
Proof.
  split.
  - exact (deps_field_whole ud_upos_names (at_field deps_row 27 8)
             "4" "nsubj|6:conj:and" (T ++ "_" ++ NL)
             eq_refl eq_refl ltac:(discriminate) eq_refl eq_refl eq_refl).
  - exact (deps_field_whole ud_upos_names (at_field deps_bad_row 26 8)
             "1" "a|b" (T ++ "_" ++ NL)
             eq_refl eq_refl ltac:(discriminate) eq_refl eq_refl eq_refl).
Defined.

(* ================================================================== *)
(** ** The UPOS field and the order of the registry *)

Section UposField.
Import Py PyFacts Re ReFacts Pat PatFacts UposFacts MatchFacts NumeralFields.
Variable names : list string.

(** The alternation of the names finds the first name, in the order of
    the registry, that begins the text. *)
Lemma run_join_alt_find (s : string) :
  names <> [] ->
  run (join_alt names) s Some
  = match find (fun n => String.prefix n s) names with
    | Some n => Some (drop (String.length n) s)
    | None => None
    end.
Proof.
  intros Hne. induction names as [|n ns IH]; [congruence|].
  destruct ns as [|n' ns'].
  - simpl join_alt. rewrite run_Lit. simpl. now destruct (String.prefix n s).
  - change (join_alt (n :: n' :: ns')) with (Alt (Lit n) (join_alt (n' :: ns'))).
    rewrite run_alt, run_Lit.
    change (find (fun n0 => String.prefix n0 s) (n :: n' :: ns'))
      with (if String.prefix n s then Some n
            else find (fun n0 => String.prefix n0 s) (n' :: ns')).
    destruct (String.prefix n s); [reflexivity|].
    apply IH. discriminate.
Qed.

Lemma drop_prefix (n s : string) :
  String.prefix n s = true -> s = n ++ drop (String.length n) s.
Proof.
  intros H. apply prefix_split in H as (m & ->).
  now rewrite drop_append.
Qed.

Lemma rematch_upos_first (ch : ascii) (t : string) :
  names <> [] ->
  rematch (_upos names) (String ch t)
  = match find (fun n => String.prefix n (String ch t)) names with
    | Some n => Some (n, drop (String.length n) (String ch t))
    | None => if Ascii.eqb ch "_" then Some ("_", t) else None
    end.
Proof.
  intros Hne. unfold rematch, _upos. rewrite run_alt, (run_join_alt_find _ Hne).
  destruct (find _ names) as [n|] eqn:E.
  - apply find_some in E as [_ Hp].
    rewrite (drop_prefix n _ Hp) at 1 3.
    rewrite length_append, Nat.add_sub, take_append. reflexivity.
  - unfold Chr. rewrite run_cls, Ascii.eqb_sym.
    destruct (Ascii.eqb ch "_") eqn:Eu; [|reflexivity].
    apply Ascii.eqb_eq in Eu. subst ch.
    simpl String.length. rewrite Nat.sub_succ_l, Nat.sub_diag by lia.
    reflexivity.
Qed.

Lemma upos_first_token (lx : Lexer) (ch : ascii) (t : string) :
  names <> [] -> lexstate lx = c_ 3 -> text_at lx = String ch t ->
  token names lx
  = match find (fun n => String.prefix n (String ch t)) names with
    | Some n =>
        Token (mk_token UPOS (if String.eqb n "_" then VNone else VStr n)
                 (lineno lx) (lexpos lx))
          (moved lx (lexpos lx + String.length n) (v_ 3))
    | None =>
        if Ascii.eqb ch "_"
        then Token (mk_token UPOS VNone (lineno lx) (lexpos lx))
               (moved lx (lexpos lx + 1) (v_ 3))
        else Raised (IllegalCharacterError (lineno lx)
                       (find_column (lexdata lx) (lexpos lx)) ch)
    end.
Proof.
  intros Hne Hst Htext.
  rewrite (token_single names lx (r_UPOS names) _ ltac:(now rewrite Hst) Htext
             ltac:(discriminate)).
  simpl r_pattern. rewrite (rematch_upos_first ch t Hne).
  destruct (find _ names) as [n|].
  - simpl r_action. unfold t_c3_UPOS, v_nullable_str, unless_underscore.
    destruct (String.eqb n "_"); reflexivity.
  - destruct (Ascii.eqb ch "_"); reflexivity.
Qed.


End UposField.

(** X4. In column 3 the UPOS token is the first name of the registry,
    in the order of the registry, that begins the text at the cursor,
    whether or not the field ends there and whether or not a later name
    would take more of it; the token's value is that name ([None] for a
    name "_"). When no name begins the text, a "_" there gives an UPOS
    token of value [None], and any other character raises
    IllegalCharacterError at the cursor. *)
Theorem upos_first_name_wins (names : list string) (lx : Lexer)
        (ch : ascii) (t : string) :
  names <> [] -> lexstate lx = c_ 3 -> text_at lx = String ch t ->
  token names lx
  = match find (fun n => String.prefix n (String ch t)) names with
    | Some n =>
        Token (mk_token UPOS (if String.eqb n "_" then VNone else VStr n)
                 (lineno lx) (lexpos lx))
          (moved lx (lexpos lx + String.length n) (v_ 3))
    | None =>
        if Ascii.eqb ch "_"
        then Token (mk_token UPOS VNone (lineno lx) (lexpos lx))
               (moved lx (lexpos lx + 1) (v_ 3))
        else Raised (IllegalCharacterError (lineno lx)
                       (find_column (lexdata lx) (lexpos lx)) ch)
    end.
Proof. exact (upos_first_token names lx ch t). Qed.

(** The statement with the registry PRON, PRONOUN on the field
    "PRONOUN": the shorter name, which comes first, gives the token. *)
Lemma upos_first_name_wins_witness :
  token ["PRON"; "PRONOUN"] (at_field ("PRONOUN" ++ T) 0 3)
  = Token (mk_token UPOS (VStr "PRON") 1 0)
      (moved (at_field ("PRONOUN" ++ T) 0 3) 4 (v_ 3)).
Proof.
  exact (upos_first_name_wins ["PRON"; "PRONOUN"]
           (at_field ("PRONOUN" ++ T) 0 3) "P" ("RONOUN" ++ T)
           ltac:(discriminate) eq_refl eq_refl).
Defined.



(* ================================================================== *)
(** ** Comment lines *)

Section CommentLine.
Import Py PyFacts Re ReFacts Pat PatFacts MatchFacts NumeralFields.
Variable names : list string.

Lemma lstrip_stops (p : ascii -> bool) (s : string) : stops p (lstrip p s).
Proof.
  induction s as [|c s IH]; simpl; [exact I|].
  destruct (p c) eqn:E; [exact IH | exact E].
Qed.

Lemma rstrip_stops (p : ascii -> bool) (s : string) :
  stops p s -> stops p (rstrip p s).
Proof.
  destruct s as [|c s]; simpl; [tauto|]. intros H.
  destruct (rstrip p s); [rewrite H|]; exact H.
Qed.

Lemma lstrip_id (p : ascii -> bool) (s : string) : stops p s -> lstrip p s = s.
Proof. destruct s as [|c s]; simpl; [reflexivity | now intros ->]. Qed.

Lemma rstrip_idem (p : ascii -> bool) (s : string) :
  rstrip p (rstrip p s) = rstrip p s.
Proof.
  induction s as [|c s IH]; [reflexivity|].
  simpl. destruct (rstrip p s) as [|d r] eqn:E.
  - destruct (p c) eqn:Ec; simpl; [reflexivity | now rewrite Ec].
  - change (rstrip p (String c (String d r)))
      with (match rstrip p (String d r) with
            | "" => if p c then "" else String c ""
            | r' => String c r'
            end).
    now rewrite IH.
Qed.

(** [strip] leaves nothing to strip. *)
Lemma strip_idem (s : string) : strip (strip s) = strip s.
Proof.
  unfold strip.
  rewrite (lstrip_id isspace (rstrip isspace (lstrip isspace s))).
  - apply rstrip_idem.
  - apply rstrip_stops, lstrip_stops.
Qed.

Lemma no_nl_all (w : string) : mem nl w = false -> all_chars not_nl w = true.
Proof.
  induction w as [|c w IH]; simpl; [reflexivity|].
  intros H. apply orb_false_iff in H as [Hc Hw].
  unfold not_nl at 1. now rewrite Hc, IH.
Qed.

Lemma rematch_comment (w rest : string) :
  mem nl w = false -> stops not_nl rest ->
  rematch p_COMMENT (String "#" w ++ rest) = Some (String "#" w, rest).
Proof.
  intros Hw Hr. apply rematch_of_run.
  change (String "#" w ++ rest) with (String "#" (w ++ rest)).
  unfold p_COMMENT, Chr. rewrite run_cat, run_cls, Ascii.eqb_refl, run_star.
  exact (star_cls_run not_nl w rest _ (Nat.le_refl _) (no_nl_all w Hw) Hr).
Qed.

Lemma line_end_stops (rest : string) :
  rest = "" \/ (exists r, rest = String nl r) -> stops not_nl rest.
Proof. intros [-> | (r & ->)]; [exact I | reflexivity]. Qed.

Lemma comment_token (lx : Lexer) (w rest : string) :
  lexstate lx = INITIAL -> text_at lx = String "#" w ++ rest ->
  mem nl w = false -> rest = "" \/ (exists r, rest = String nl r) ->
  token names lx
  = Token (mk_token COMMENT (VStr (strip w)) (lineno lx) (lexpos lx))
      (set_lexpos lx (lexpos lx + S (String.length w))).
Proof.
  intros Hst Htext Hw Hrest.
  rewrite (token_at names lx _ Htext ltac:(discriminate)), Hst.
  pose proof (rematch_comment w rest Hw (line_end_stops _ Hrest)) as Hm.
  change (String "#" w ++ rest) with (String "#" (w ++ rest)) in *.
  simpl first_match. rewrite Hm. reflexivity.
Qed.

(** After the comment, the end of the text. *)
Lemma comment_then_eof (lx : Lexer) (w : string) :
  text_at lx = String "#" w ++ "" ->
  token names (set_lexpos lx (lexpos lx + S (String.length w)))
  = Eof (set_lexpos lx (lexpos lx + S (String.length w) + 1)).
Proof.
  intros Htext. unfold token. simpl lexpos. simpl lexdata.
  pose proof (length_drop (lexpos lx) (lexdata lx)) as L.
  unfold text_at in Htext. rewrite Htext, append_nil_r in L. simpl in L.
  destruct (lexpos lx + S (String.length w) <? String.length (lexdata lx)) eqn:E;
    [apply Nat.ltb_lt in E; lia | reflexivity].
Qed.

(** After the comment, the line feed. *)
Lemma comment_then_newline (lx : Lexer) (w r : string) :
  lexstate lx = INITIAL ->
  text_at lx = String "#" w ++ String nl r ->
  token names (set_lexpos lx (lexpos lx + S (String.length w)))
  = Token (mk_token NEWLINE (VStr NL) (lineno lx)
             (lexpos lx + S (String.length w)))
      {| lexdata := lexdata lx; lexpos := lexpos lx + S (String.length w) + 1;
         lineno := lineno lx + 1; lexstate := INITIAL; _tab_count := 0 |}.
Proof.
  intros Hst Htext.
  assert (Hnext : text_at (set_lexpos lx (lexpos lx + S (String.length w)))
                  = String nl r).
  { unfold text_at in *. simpl.
    change (S (String.length w)) with (String.length (String "#" w)).
    now rewrite <- drop_drop, Htext, drop_append. }
  rewrite (token_at names _ _ Hnext ltac:(discriminate)).
  simpl lexstate. rewrite Hst.
  assert (E5 : rematch p_NEWLINE (NL ++ r) = Some (NL, r))
    by (apply rematch_of_run; reflexivity).
  assert (E : first_match (lexstatere names INITIAL) (String nl r)
              = Some (r_NEWLINE, NL)).
  { change (first_match (lexstatere names INITIAL) (String nl r))
      with (match rematch p_NEWLINE (NL ++ r) with
            | Some (lexeme, _) => Some (r_NEWLINE, lexeme)
            | None => None
            end).
    now rewrite E5. }
  rewrite E. reflexivity.
Qed.

End CommentLine.

(** X6. In the INITIAL state, a "#" and the text [w] after it up to the
    end of the line give one COMMENT token whose value is [w] without
    the whitespace around it (stripping it again changes nothing); the
    lexer stays in INITIAL with its counters as they were. The next
    call gives the end of the input when the text ends there, and the
    NEWLINE token of the line, which moves to the next line, when a
    line feed follows. *)
Theorem comment_line (names : list string) (lx : Lexer) (w rest : string) :
  lexstate lx = INITIAL ->
  text_at lx = String "#" w ++ rest ->
  Py.mem Py.nl w = false ->
  rest = "" \/ (exists r, rest = String Py.nl r) ->
  let lx' := set_lexpos lx (lexpos lx + S (String.length w)) in
  token names lx
  = Token (mk_token COMMENT (VStr (Py.strip w)) (lineno lx) (lexpos lx)) lx'
  /\ Py.strip (Py.strip w) = Py.strip w
  /\ lexstate lx' = INITIAL /\ _tab_count lx' = _tab_count lx
  /\ lineno lx' = lineno lx
  /\ (rest = "" -> token names lx' = Eof (set_lexpos lx' (lexpos lx' + 1)))
  /\ (forall r, rest = String Py.nl r ->
        token names lx'
        = Token (mk_token NEWLINE (VStr NL) (lineno lx) (lexpos lx'))
            {| lexdata := lexdata lx; lexpos := lexpos lx' + 1;
               lineno := lineno lx + 1; lexstate := INITIAL;
               _tab_count := 0 |}).
Proof.
  intros Hst Htext Hw Hrest lx'.
  split; [exact (comment_token names lx w rest Hst Htext Hw Hrest)|].
  split; [apply strip_idem|].
  split; [exact Hst|]. split; [reflexivity|]. split; [reflexivity|].
  split.
  - intros ->. exact (comment_then_eof names lx w Htext).
  - intros r ->. exact (comment_then_newline names lx w r Hst Htext).
Qed.

(** The statement on the line "# sent_id = 1". *)
Lemma comment_line_witness :
  token ud_upos_names (input fresh ("# sent_id = 1" ++ NL ++ "1"))
  = Token (mk_token COMMENT (VStr "sent_id = 1") 1 0)
      (set_lexpos (input fresh ("# sent_id = 1" ++ NL ++ "1")) 13).
Proof.
  exact (proj1 (comment_line ud_upos_names
                  (input fresh ("# sent_id = 1" ++ NL ++ "1"))
                  " sent_id = 1" (NL ++ "1") eq_refl eq_refl eq_refl
                  (or_intror (ex_intro _ "1" eq_refl)))).
Defined.

(* ================================================================== *)
(** ** Columns, lines and offsets of a run *)

Section Positions.
Import Py PyFacts Re ReFacts Pat PatFacts PosFacts MatchFacts.

Lemma after_last_append (c : ascii) (pre line : string) :
  mem c line = false -> after_last c (pre ++ String c line) = line.
Proof.
  intros H. induction pre as [|d pre IH]; simpl.
  - now rewrite H, Ascii.eqb_refl.
  - rewrite mem_append. simpl. rewrite Ascii.eqb_refl, orb_true_r. exact IH.
Qed.

Lemma column_bounds (data : string) (pos : nat) :
  (1 <= column_of data pos <= Z.of_nat pos + 1)%Z.
Proof.
  unfold column_of.
  pose proof (length_after_last nl (take pos data)) as L.
  rewrite length_take in L. lia.
Qed.

End Positions.

(** X7. [find_column] counts from the start of the line, from 1: at the
    end of a text [line] without line feed that begins the data, or that
    follows a line feed, it is the length of [line] plus 1; and at every
    offset within the data it lies between 1 and the offset plus 1. *)
Theorem find_column_from_line_start (pre line rest : string) :
  Py.mem Py.nl line = false ->
  find_column (line ++ rest) (String.length line)
  = (Z.of_nat (String.length line) + 1)%Z
  /\ find_column ((pre ++ String Py.nl line) ++ rest)
       (String.length (pre ++ String Py.nl line))
     = (Z.of_nat (String.length line) + 1)%Z
  /\ (forall data pos,
        pos <= String.length data ->
        (1 <= find_column data pos <= Z.of_nat pos + 1)%Z).
Proof.
  intros Hl. split; [|split].
  - rewrite PosFacts.find_column_spec
      by (rewrite PyFacts.length_append; lia).
    unfold column_of. rewrite PyFacts.take_append.
    now rewrite (PosFacts.after_last_none _ _ Hl).
  - rewrite PosFacts.find_column_spec
      by (rewrite (PyFacts.length_append (pre ++ String Py.nl line)); lia).
    unfold column_of. rewrite PyFacts.take_append.
    now rewrite (after_last_append _ _ _ Hl).
  - intros data pos Hpos. rewrite (PosFacts.find_column_spec data pos Hpos).
    apply column_bounds.
Qed.

(** The statement on the second line of the two-row input: offset 38
    is column 11. *)
Lemma find_column_from_line_start_witness :
  find_column two_rows 38 = 11%Z.
Proof.
  exact (proj1 (proj2 (find_column_from_line_start
                         (Py.take 27 two_rows)
                         (Py.take 10 (Py.drop 28 two_rows))
                         (Py.drop 38 two_rows) eq_refl))).
Defined.

Section RunPositions.
Import Py PyFacts Re ReFacts Pat PatFacts PosFacts MatchFacts.
Variable names : list string.
Hypothesis Hok : registry_ok names = true.

(** Along a run every token's line is the line of its offset, the
    offsets lie before the cursor, and there are no more tokens than
    characters read. *)
Lemma reach_positions (data : string) ts lx :
  reach names data ts lx ->
  Forall (fun tok => Tok.lineno tok = line_of data (Tok.lexpos tok)
                     /\ Tok.lexpos tok < lexpos lx) ts
  /\ List.length ts <= lexpos lx.
Proof.
  induction 1 as [|ts lx tok lx' Hr [Hall Hlen] Htok].
  - split; [constructor | simpl; lia].
  - destruct (reach_line names Hok data ts lx Hr) as (Hline & _ & _).
    destruct (token_progress names Hok lx tok lx' Htok) as (Hlt & _ & _).
    apply token_span in Htok as (_ & Hp & Hl & _).
    split.
    + apply Forall_app. split.
      * eapply Forall_impl; [|exact Hall]. intros t [H1 H2]. split; [exact H1 | lia].
      * constructor; [|constructor]. split; [congruence | lia].
    + rewrite length_app. simpl. lia.
Qed.

(** The tokens that a drain returns are those of a run, which ends where
    the drain says. *)
Lemma tokens_reach (data : string) (fuel : nat) :
  forall ts0 lx ts e,
    reach names data ts0 lx ->
    tokens names fuel lx = (ts, e) ->
    exists lx',
      reach names data (ts0 ++ ts)%list lx'
      /\ match e with
         | Exhausted => String.length (lexdata lx') <= lexpos lx'
         | Stopped x => token names lx' = Raised x
         | OutOfFuel => True
         end.
Proof.
  induction fuel as [|fuel IH]; intros ts0 lx ts e Hr; simpl.
  - intros H; injection H as <- <-. exists lx. rewrite app_nil_r. now split.
  - destruct (token names lx) as [tok lx1|lx1|x] eqn:E.
    + destruct (tokens names fuel lx1) as [ts1 e1] eqn:E1.
      intros H; injection H as <- <-.
      destruct (IH (ts0 ++ [tok])%list lx1 ts1 e1
                  (reach_token names data ts0 lx tok lx1 Hr E) E1)
        as (lx' & Hr' & He).
      exists lx'. rewrite <- app_assoc in Hr'. now split.
    + intros H; injection H as <- <-. exists lx. rewrite app_nil_r.
      split; [exact Hr|].
      unfold token in E. destruct (lexpos lx <? _) eqn:Hlt.
      * destruct (first_match _ _) as [[r u]|]; [|discriminate].
        destruct (r_action _ _ _) as [[v l]|]; discriminate.
      * now apply Nat.ltb_ge in Hlt.
    + intros H; injection H as <- <-. exists lx. rewrite app_nil_r. now split.
Qed.

End RunPositions.

(** X8. Along every run with a well-formed registry, each token carries
    the line of its offset, counted from 1 by the line feeds before it,
    its offset lies before the cursor, the lexer's line counter is the
    line of the cursor, and there are no more tokens than characters
    read. *)
Theorem tokens_carry_their_line (names : list string) (data : string)
        (ts : list Tok.LexToken) (lx : Lexer) :
  registry_ok names = true ->
  reach names data ts lx ->
  Forall (fun tok => Tok.lineno tok = line_of data (Tok.lexpos tok)
                     /\ Tok.lexpos tok < lexpos lx) ts
  /\ lineno lx = line_of data (lexpos lx)
  /\ List.length ts <= lexpos lx <= String.length data.
Proof.
  intros Hok Hr.
  destruct (reach_positions names Hok data ts lx Hr) as [Hall Hlen].
  destruct (reach_line names Hok data ts lx Hr) as (Hline & Hpos & _).
  repeat split; assumption.
Qed.

(** The statement after the first row of the two-row input: twenty
    tokens, and the cursor on line 2. *)
Lemma tokens_carry_their_line_witness :
  exists lx,
    steps ud_upos_names 20 (input fresh two_rows) = Some (first_row_tokens, lx)
    /\ lineno lx = line_of two_rows (lexpos lx)
    /\ List.length first_row_tokens <= lexpos lx <= String.length two_rows.
Proof.
  assert (Hok : registry_ok ud_upos_names = true) by (vm_compute; reflexivity).
  destruct (steps ud_upos_names 20 (input fresh two_rows)) as [[ts lx]|] eqn:E;
    [|vm_compute in E; discriminate].
  pose proof (reach_steps ud_upos_names two_rows 20 [] _ _ _
                (reach_input _ _) E) as R.
  destruct (tokens_carry_their_line ud_upos_names two_rows _ lx Hok R)
    as (_ & H1 & H2).
  vm_compute in E. injection E as <- <-.
  eexists. split; [reflexivity|]. split; [exact H1 | exact H2].
Defined.

(** X9. With a well-formed registry [tokenize] comes to an end on every
    text: it returns the tokens of a run, no more of them than the text
    has characters, and it ends either at the end of the text or on the
    error that the next call raises; the fuel is never what stops it. *)
Theorem tokenize_comes_to_an_end (names : list string) (data : string) :
  registry_ok names = true ->
  exists ts e lx,
    tokenize names data = Some (ts, e)
    /\ reach names data ts lx
    /\ List.length ts <= String.length data
    /\ match e with
       | Exhausted => String.length data <= lexpos lx
       | Stopped x => token names lx = Raised x
       | OutOfFuel => False
       end.
Proof.
  intros Hok. unfold tokenize, build. rewrite (registry_ok_validates names Hok).
  destruct (tokens names (S (String.length data)) (input fresh data))
    as [ts e] eqn:E.
  destruct (tokens_reach names data _ [] _ ts e (reach_input names data) E)
    as (lx & Hr & He).
  simpl in Hr.
  destruct (reach_positions names Hok data ts lx Hr) as [_ H1].
  destruct (reach_line names Hok data ts lx Hr) as (_ & H2 & Hd).
  exists ts, e, lx. repeat split; [exact Hr | lia |].
  pose proof (tokens_end names Hok (S (String.length data)) (input fresh data)
                ltac:(simpl; lia)) as Hend.
  rewrite E in Hend. simpl in Hend.
  destruct e; [now rewrite Hd in He | exact He | congruence].
Qed.

(** The statement on the row with the DEPS field "1:a|b". *)
Lemma tokenize_comes_to_an_end_witness :
  exists ts e lx,
    tokenize ud_upos_names deps_bad_row = Some (ts, e)
    /\ reach ud_upos_names deps_bad_row ts lx
    /\ List.length ts <= String.length deps_bad_row
    /\ match e with
       | Exhausted => String.length deps_bad_row <= lexpos lx
       | Stopped x => token ud_upos_names lx = Raised x
       | OutOfFuel => False
       end.
Proof.
  apply tokenize_comes_to_an_end. vm_compute; reflexivity.
Defined.

(* ================================================================== *)
(** ** The errors of a run, in full *)

Section ErrorKinds.
Import Py PyFacts Re ReFacts Pat PatFacts MatchFacts.
Variable names : list string.


End ErrorKinds.



(* ================================================================== *)
(** ** The shape of the lines *)

Section Lines.
Import Py PyFacts Re ReFacts Pat PatFacts PosFacts MatchFacts NumeralFields.
Variable names : list string.

(** The transitions of the lexer: what one token can be in each state,
    and the state it leads to. *)
Lemma token_transition (lx : Lexer) tok lx' :
  consistent lx -> token names lx = Token tok lx' ->
  match lexstate lx with
  | INITIAL =>
      (Tok.type tok = COMMENT /\ lexstate lx' = INITIAL)
      \/ (is_id_type (Tok.type tok) = true /\ lexstate lx' = v_ 0)
      \/ (Tok.type tok = NEWLINE /\ lexstate lx' = INITIAL)
  | v_ i =>
      (i <= 8 /\ Tok.type tok = TAB /\ lexstate lx' = c_ (S i))
      \/ (i = 9 /\ Tok.type tok = NEWLINE /\ lexstate lx' = INITIAL)
  | c_ i =>
      1 <= i <= 9 /\ field_type i = Some (Tok.type tok) /\ lexstate lx' = v_ i
  end.
Proof.
  intros Hc H.
  apply token_inv in H as (r & lexeme & rest & v & _ & Hin & _ & Ha & ->).
  unfold consistent in Hc. simpl Tok.type.
  destruct (lexstate lx) as [|i|i] eqn:Hst; simpl in Hin.
  - destruct Hin as [<- | [<- | [<- | [<- | [<- | []]]]]]; simpl in Ha |- *.
    + unfold t_COMMENT in Ha. apply bind_ok in Ha as (x & _ & Ha).
      injection Ha as <- <-. simpl. left. now split.
    + apply field_action_ok in Ha as (_ & -> & _). right; left. now split.
    + apply field_action_ok in Ha as (_ & -> & _). right; left. now split.
    + apply field_action_ok in Ha as (_ & -> & _). right; left. now split.
    + unfold t_INITIAL_v9_NEWLINE in Ha. simpl in Ha.
      injection Ha as <- <-. right; right. now split.
  - destruct Hc as [Htc Hi].
    destruct (i <=? 8) eqn:E8; [|destruct (i =? 9) eqn:E9].
    + apply Nat.leb_le in E8. destruct Hin as [<- | []].
      unfold r_TAB, r_action, t_v0_v1_v2_v3_v4_v5_v6_v7_v8_TAB in Ha.
      apply bind_ok in Ha as (lx2 & Hb & Ha). injection Ha as <- <-.
      apply begin_frame in Hb as (_ & _ & _ & _ & Hs & _).
      simpl in Hs. left. rewrite Hs, Htc, Nat.add_1_r. now repeat split.
    + apply Nat.eqb_eq in E9. destruct Hin as [<- | []].
      unfold t_INITIAL_v9_NEWLINE in Ha. simpl in Ha.
      injection Ha as <- <-. right. now repeat split.
    + destruct Hin.
  - destruct Hc as [Htc Hi]. split; [exact Hi|].
    do 10 (try destruct i as [|i]); try (simpl in Hin; lia || tauto);
      simpl in Hin; destruct Hin as [<- | []]; simpl in Ha |- *;
      unfold t_c1_FORM, t_c2_LEMMA, t_c3_UPOS, t_c4_XPOS, t_c5_FEATS,
        t_c6_HEAD, t_c7_DEPREL, t_c8_DEPS, t_c9_MISC in Ha;
      try (apply field_action_ok in Ha as (_ & -> & _));
      try (apply bind_ok in Ha as (lx1 & Hb & Ha); injection Ha as <- <-;
           apply begin_frame in Hb as (_ & _ & _ & _ & Hs & _);
           simpl in Hs; rewrite Hs);
      now split.
Qed.

Lemma rows_state_snoc ts tok :
  rows_state (ts ++ [tok]) = close_rows (rows_state ts) tok.
Proof. unfold rows_state. now rewrite fold_left_app. Qed.

(** The COMMENT pattern runs to the end of the line. *)
Lemma star_cls_span (p : ascii -> bool) (s : string) (fuel : nat) :
  String.length s <= fuel ->
  star_loop (run (Cls p)) fuel s Some = Some (lstrip p s).
Proof.
  revert fuel; induction s as [|c s IH]; intros fuel Hf.
  - destruct fuel; reflexivity.
  - simpl in Hf. destruct fuel as [|fuel]; [lia|].
    change (star_loop (run (Cls p)) (S fuel) (String c s) Some)
      with (match run (Cls p) (String c s)
                    (fun s' => if String.length s' <? String.length (String c s)
                               then star_loop (run (Cls p)) fuel s' Some else None)
            with Some y => Some y | None => Some (String c s) end).
    rewrite run_cls. simpl lstrip. destruct (p c); [|reflexivity].
    assert (E : (String.length s <? String.length (String c s)) = true)
      by (apply Nat.ltb_lt; simpl; lia).
    rewrite E, IH by lia. reflexivity.
Qed.

Lemma comment_to_line_end (s lexeme rest : string) :
  rematch p_COMMENT s = Some (lexeme, rest) -> stops not_nl rest.
Proof.
  unfold rematch. destruct (run p_COMMENT s Some) as [t|] eqn:E; [|discriminate].
  intros H; injection H as _ <-.
  unfold p_COMMENT, Chr in E. rewrite run_cat in E.
  destruct s as [|c s]; [discriminate|]. rewrite run_cls in E.
  destruct (Ascii.eqb "#" c); [|discriminate].
  rewrite run_star, star_cls_span in E by lia. injection E as <-.
  apply lstrip_stops.
Qed.

End Lines.

Section LineShapes.
Import Py PyFacts Re ReFacts Pat PatFacts PosFacts MatchFacts NumeralFields.
Variable names : list string.

Lemma line_end_no_comment_or_id (s : string) :
  stops not_nl s ->
  rematch p_COMMENT s = None /\ rematch p_RANGE_ID s = None
  /\ rematch p_DECIMAL_ID s = None /\ rematch p_INTEGER_ID s = None.
Proof.
  destruct s as [|c t]; [now repeat split|].
  simpl. unfold not_nl. intros H. apply negb_false_iff, Ascii.eqb_eq in H.
  subst c. now repeat split.
Qed.

Lemma id_type_not_newline ty : is_id_type ty = true -> ty <> NEWLINE.
Proof. destruct ty; simpl; congruence. Qed.

Lemma close_rows_other st tok :
  Tok.type tok <> NEWLINE ->
  close_rows st tok = (fst st, (snd st ++ [Tok.type tok])%list).
Proof. unfold close_rows. destruct (Tok.type tok); congruence. Qed.

Lemma close_rows_newline st tok :
  Tok.type tok = NEWLINE ->
  close_rows st tok = (fst st && row_shape (snd st), []).
Proof. unfold close_rows. now intros ->. Qed.

Lemma full_row_shape id :
  is_id_type id = true -> row_shape (id :: firstn (2 * 9) fields_after_id) = true.
Proof. destruct id; simpl; congruence. Qed.

Lemma field_type_not_newline i ty : field_type i = Some ty -> ty <> NEWLINE.
Proof.
  do 10 (try destruct i as [|i]); simpl; intros H; try discriminate;
    injection H as <-; discriminate.
Qed.

Lemma row_after_tab i :
  i <= 8 ->
  (firstn (2 * i) fields_after_id ++ [TAB])%list
  = firstn (2 * S i - 1) fields_after_id.
Proof.
  intros H. do 9 (try destruct i as [|i]; [reflexivity|]). lia.
Qed.

Lemma row_after_field i ty :
  1 <= i <= 9 -> field_type i = Some ty ->
  (firstn (2 * i - 1) fields_after_id ++ [ty])%list
  = firstn (2 * i) fields_after_id.
Proof.
  intros H. destruct i as [|i]; [lia|].
  do 9 (try destruct i as [|i]; [intros E; injection E as <-; reflexivity|]).
  lia.
Qed.

(** Along a run: every closed line has the shape of a line, the open
    line is the beginning of one that goes with the state, and after a
    comment the cursor is at the end of the line. *)
Lemma reach_lines (data : string) ts lx :
  reach names data ts lx ->
  rows_complete ts = true
  /\ open_row_of (lexstate lx) (open_row ts)
  /\ (open_row ts = [COMMENT] -> stops not_nl (text_at lx)).
Proof.
  induction 1 as [|ts lx tok lx' Hr (Hok & Hrow & Hcom) Htok].
  - repeat split; [now left | discriminate].
  - destruct (reach_consistent names data ts lx Hr) as (Hc & _ & _).
    pose proof (token_transition names lx tok lx' Hc Htok) as Htr.
    pose proof (token_span names lx tok lx' Htok)
      as (Hd' & _ & _ & Hpos & Htext & r & rest & Hin & Hty & Hm & _ & _).
    pose proof (rule_of_type names r Hin) as Hrule. rewrite Hty in Hrule.
    assert (Hrest : text_at lx' = rest).
    { destruct (rematch_sound _ _ _ _ Hm) as [Hs _].
      unfold text_at. rewrite Hd'. rewrite Hs in Htext.
      apply append_inv_head in Htext. congruence. }
    unfold rows_complete, open_row in *. rewrite rows_state_snoc.
    destruct (rows_state ts) as [ok row]. simpl fst in *. simpl snd in *.
    subst ok.
    destruct (lexstate lx) as [|i|i] eqn:Hst.
    + (* INITIAL *)
      assert (Hempty : Tok.type tok <> NEWLINE -> row = []).
      { intros Hne. destruct Hrow as [-> | ->]; [reflexivity|].
        exfalso. specialize (Hcom eq_refl).
        destruct (line_end_no_comment_or_id _ Hcom) as (E1 & E2 & E3 & E4).
        fold (text_at lx) in Hm.
        destruct Htr as [[Ht _] | [[Ht _] | [Ht _]]]; [| |congruence].
        - rewrite Ht in Hrule. subst r. simpl in Hm. congruence.
        - destruct (Tok.type tok); try discriminate; subst r; simpl in Hm;
            congruence. }
      destruct Htr as [[Ht Hs] | [[Ht Hs] | [Ht Hs]]]; rewrite Hs.
      * assert (Hne : Tok.type tok <> NEWLINE) by congruence.
        rewrite (close_rows_other _ _ Hne), (Hempty Hne), Ht. simpl.
        repeat split; [now right|]. intros _.
        rewrite Ht in Hrule. subst r. simpl in Hm. rewrite Hrest.
        exact (comment_to_line_end _ _ _ Hm).
      * pose proof (id_type_not_newline _ Ht) as Hne.
        rewrite (close_rows_other _ _ Hne), (Hempty Hne). simpl.
        repeat split; [exists (Tok.type tok); now split|].
        intros E. injection E as E. rewrite E in Ht. discriminate.
      * rewrite (close_rows_newline _ _ Ht). simpl.
        repeat split; [| now left | discriminate].
        destruct Hrow as [-> | ->]; reflexivity.
    + (* v_ i *)
      destruct Hrow as (id & Hid & ->).
      destruct Htr as [(Hi & Ht & Hs) | (Hi & Ht & Hs)]; rewrite Hs.
      * assert (Hne : Tok.type tok <> NEWLINE) by congruence.
        rewrite (close_rows_other _ _ Hne), Ht. cbn [fst snd].
        repeat split.
        -- exists id. split; [exact Hid|].
           rewrite <- app_comm_cons. now rewrite (row_after_tab i Hi).
        -- rewrite <- app_comm_cons. intros E. injection E as _ E.
           apply app_eq_nil in E. destruct E; discriminate.
      * subst i. rewrite (close_rows_newline _ _ Ht). cbn [fst snd].
        rewrite (full_row_shape id Hid).
        repeat split; [now left | discriminate].
    + (* c_ i *)
      destruct Hrow as (id & Hid & ->).
      destruct Htr as (Hi & Hf & Hs). rewrite Hs.
      pose proof (field_type_not_newline i _ Hf) as Hne.
      rewrite (close_rows_other _ _ Hne). cbn [fst snd].
      repeat split.
      * exists id. split; [exact Hid|].
        rewrite <- app_comm_cons. now rewrite (row_after_field i _ Hi Hf).
      * rewrite <- app_comm_cons. intros E. injection E as _ E.
        apply app_eq_nil in E. destruct E; discriminate.
Qed.

End LineShapes.

(** X11. Along every run, each line that a NEWLINE token has closed held
    no token, one COMMENT token, or an ID token followed by the nine
    other fields, each after a TAB token, in the order of the columns;
    and the tokens since the last NEWLINE token are the beginning of
    such a line that goes with the state: nothing or one comment in
    INITIAL, the ID and the first i fields in v_i, and one TAB more in
    c_(i+1). After a comment the cursor is at the end of its line. *)
Theorem lines_have_their_shape (names : list string) (data : string)
        (ts : list Tok.LexToken) (lx : Lexer) :
  reach names data ts lx ->
  rows_complete ts = true
  /\ open_row_of (lexstate lx) (open_row ts)
  /\ (open_row ts = [COMMENT] -> stops Pat.not_nl (text_at lx)).
Proof. exact (reach_lines names data ts lx). Qed.

(** The statement on the two-row input, after its forty-one tokens. *)
Lemma lines_have_their_shape_witness :
  rows_complete two_rows_tokens = true /\ open_row two_rows_tokens = [].
Proof.
  assert (R : reach ud_upos_names two_rows ([] ++ two_rows_tokens)
                {| lexdata := two_rows; lexpos := 59; lineno := 4;
                   lexstate := INITIAL; _tab_count := 0 |}).
  { apply (reach_steps ud_upos_names two_rows 41 [] _ _ _ (reach_input _ _)).
    vm_compute; reflexivity. }
  destruct (lines_have_their_shape ud_upos_names two_rows _ _ R) as (H & _ & _).
  split; [exact H | reflexivity].
Defined.

(* ================================================================== *)
(** ** Missing fields *)

Section MissingFields.
Import Py PyFacts Re ReFacts Pat PatFacts UposFacts PosFacts MatchFacts.
Variable names : list string.
Hypothesis Hok : registry_ok names = true.

(** No name of the registry begins with a tab or a line feed. *)
Lemma no_name_at_separator (c : ascii) (t : string) :
  c = tab \/ c = nl ->
  forall n, In n names -> String.prefix n (String c t) = false.
Proof.
  intros Hc n Hn.
  destruct (registry_ok_spec names Hok) as [_ Hall].
  rewrite Forall_forall in Hall. destruct (Hall _ Hn) as [Hne Hid].
  destruct n as [|a n]; [congruence|].
  rewrite prefix_cons. simpl in Hid. apply andb_true_iff in Hid as [Hid _].
  destruct (Ascii.eqb a c) eqn:E; [|reflexivity].
  apply Ascii.eqb_eq in E. subst a. destruct Hc as [-> | ->]; discriminate.
Qed.

(** No rule of a column matches at a tab or a line feed. *)
Lemma no_field_at_separator (i : nat) (c : ascii) (t : string) :
  c = tab \/ c = nl ->
  first_match (lexstatere names (c_ i)) (String c t) = None.
Proof.
  intros Hc.
  assert (U : rematch (_upos names) (String c t) = None).
  { unfold rematch, _upos. simpl run.
    rewrite run_join_alt_none.
    - destruct Hc as [-> | ->]; reflexivity.
    - now destruct (registry_ok_spec names Hok).
    - now apply no_name_at_separator. }
  do 10 (try destruct i as [|i]); try reflexivity;
    try (destruct Hc as [-> | ->]; reflexivity).
  simpl. now rewrite U.
Qed.

(** Where a separator is due, nothing else matches. *)
Lemma no_separator (i : nat) (c : ascii) (t : string) :
  (if i <=? 8 then c <> tab else c <> nl) ->
  first_match (lexstatere names (v_ i)) (String c t) = None.
Proof.
  intros Hc. simpl lexstatere. destruct (i <=? 8).
  - pose proof (rematch_chr_none tab (String c t) Hc) as E.
    unfold first_match. change (r_pattern r_TAB) with (Chr tab).
    now rewrite E.
  - destruct (i =? 9); [|reflexivity].
    pose proof (rematch_chr_none nl (String c t) Hc) as E.
    unfold first_match. change (r_pattern r_NEWLINE) with (Chr nl).
    now rewrite E.
Qed.

End MissingFields.

(** X12. No field is empty: with a well-formed registry, when the lexer
    is in a column state and the character at the cursor is a tab or a
    line feed, no rule matches and [token] raises IllegalCharacterError
    with the lexer's line, the column of the cursor and that
    character. *)
Theorem field_is_never_empty (names : list string) (lx : Lexer) (i : nat)
        (c : ascii) (t : string) :
  registry_ok names = true ->
  lexstate lx = c_ i -> text_at lx = String c t ->
  c = Py.tab \/ c = Py.nl ->
  token names lx
  = Raised (IllegalCharacterError (lineno lx)
              (find_column (lexdata lx) (lexpos lx)) c).
Proof.
  intros Hok Hst Htext Hc.
  rewrite (token_at names lx _ Htext ltac:(discriminate)), Hst.
  now rewrite (no_field_at_separator names Hok i c t Hc).
Qed.

(** The statement on a row whose FORM is empty: the error is at the
    second tab, column 3 of line 1. *)
Lemma field_is_never_empty_witness :
  token ud_upos_names
    {| lexdata := "1" ++ T ++ T ++ "the"; lexpos := 2; lineno := 1;
       lexstate := c_ 1; _tab_count := 1 |}
  = Raised (IllegalCharacterError 1 3 Py.tab).
Proof.
  exact (field_is_never_empty ud_upos_names
           {| lexdata := "1" ++ T ++ T ++ "the"; lexpos := 2; lineno := 1;
              lexstate := c_ 1; _tab_count := 1 |}
           1 Py.tab "the" eq_refl eq_refl eq_refl (or_introl eq_refl)).
Defined.

(** X13. A row has ten fields: after the ID and after each of the next
    eight fields (the state is v_i with i at most 8) any character other
    than a tab at the cursor, a line feed among them, raises
    IllegalCharacterError there; after the tenth field (v_9) any
    character other than a line feed does, a tab among them. *)
Theorem row_has_ten_fields (names : list string) (lx : Lexer) (i : nat)
        (c : ascii) (t : string) :
  lexstate lx = v_ i -> text_at lx = String c t ->
  (i <= 8 /\ c <> Py.tab) \/ (9 <= i /\ c <> Py.nl) ->
  token names lx
  = Raised (IllegalCharacterError (lineno lx)
              (find_column (lexdata lx) (lexpos lx)) c).
Proof.
  intros Hst Htext Hc.
  rewrite (token_at names lx _ Htext ltac:(discriminate)), Hst.
  rewrite (no_separator names i c t); [reflexivity|].
  destruct Hc as [[Hi Hc] | [Hi Hc]].
  - apply Nat.leb_le in Hi. now rewrite Hi.
  - apply Nat.leb_gt in Hi. now rewrite Hi.
Qed.

(** The statement on a row that ends after its LEMMA: the error is at
    the line feed, column 10 of line 1. *)
Lemma row_has_ten_fields_witness :
  token ud_upos_names
    {| lexdata := "1" ++ T ++ "The" ++ T ++ "the" ++ NL; lexpos := 9;
       lineno := 1; lexstate := v_ 2; _tab_count := 2 |}
  = Raised (IllegalCharacterError 1 10 Py.nl).
Proof.
  refine (row_has_ten_fields ud_upos_names
           {| lexdata := "1" ++ T ++ "The" ++ T ++ "the" ++ NL; lexpos := 9;
              lineno := 1; lexstate := v_ 2; _tab_count := 2 |}
           2 Py.nl "" eq_refl eq_refl (or_introl (conj _ _))).
  - lia.
  - discriminate.
Defined.
